(** * The health engine of netdata (health/health.c)

    A shallow embedding of the alarm-log dispatcher, the log scan and its
    eviction, the runnability predicate, the silencer matcher, the decide
    and repeating phases of [health_main] and the silencer-file loader,
    followed by the properties established about them.

    Conventions.  C integers are [Z]; [uint32_t] and [unsigned int] values
    that the code does arithmetic on are reduced with [uint32]; a stored
    value that the code assigns to an [int] variable is converted with
    [int32].  [time_t] values and the results of [int] arithmetic are
    unbounded [Z]: signed overflow is undefined in C and no property below
    relies on it.  A
    [calculated_number] is an IEEE value, classified as in
    [SpecFloat.spec_float].  A singly linked chain ([next] pointers) is a
    [list], head first; a nullable pointer is an [option].  Calls that leave
    the process (the notifier, the log file, [free]) are recorded, in order,
    as a list of [notifier_event]. *)

From Stdlib Require Import ZArith List Bool String Lia.
From Stdlib Require Import Floats.SpecFloat.
Import ListNotations.

Local Open Scope Z_scope.
Local Open Scope bool_scope.

(** ** Scalars *)

Definition time_t := Z.
Definition calculated_number := spec_float.

Definition uint32 (z : Z) : Z := z mod 2 ^ 32.

(** An integer value converted to [int]: reduced modulo [2 ^ 32] into
    [[- 2 ^ 31, 2 ^ 31)], the two's complement conversion of the compilers
    the code is built with.  A value that fits an [int] is kept. *)
Definition int32 (z : Z) : Z := (z + 2 ^ 31) mod 2 ^ 32 - 2 ^ 31.

(** [isnan], [isinf] and the truth value of a [calculated_number]. *)
Definition isnan (n : calculated_number) : bool :=
  match n with S754_nan => true | _ => false end.

Definition isinf (n : calculated_number) : bool :=
  match n with S754_infinity _ => true | _ => false end.

Definition nonzero (n : calculated_number) : bool :=
  match n with S754_zero _ => false | _ => true end.

(** ** Alarm statuses *)

Inductive RRDCALC_STATUS : Set :=
| RRDCALC_STATUS_REMOVED
| RRDCALC_STATUS_UNDEFINED
| RRDCALC_STATUS_UNINITIALIZED
| RRDCALC_STATUS_CLEAR
| RRDCALC_STATUS_RAISED
| RRDCALC_STATUS_WARNING
| RRDCALC_STATUS_CRITICAL.

(** Modelled from the spec: the enumeration [RRDCALC_STATUS] is declared in
    a header that is not among the sources.  The integer behind each name
    keeps the order the spec gives: the internal statuses (removed,
    undefined, uninitialized) are below clear, and
    clear < raised < warning < critical. *)
Definition status_int (s : RRDCALC_STATUS) : Z :=
  match s with
  | RRDCALC_STATUS_REMOVED => -2
  | RRDCALC_STATUS_UNDEFINED => -1
  | RRDCALC_STATUS_UNINITIALIZED => 0
  | RRDCALC_STATUS_CLEAR => 1
  | RRDCALC_STATUS_RAISED => 2
  | RRDCALC_STATUS_WARNING => 3
  | RRDCALC_STATUS_CRITICAL => 4
  end.

Definition status_eqb (a b : RRDCALC_STATUS) : bool :=
  status_int a =? status_int b.

Definition status_ltb (a b : RRDCALC_STATUS) : bool :=
  status_int a <? status_int b.

Definition status_leb (a b : RRDCALC_STATUS) : bool :=
  status_int a <=? status_int b.

(** [rrdcalc_value2status], health.c:166 *)
Definition rrdcalc_value2status (n : calculated_number) : RRDCALC_STATUS :=
  if isnan n || isinf n then RRDCALC_STATUS_UNDEFINED
  else if nonzero n then RRDCALC_STATUS_RAISED
  else RRDCALC_STATUS_CLEAR.

(** ** Flag words *)

(** [f & m] as a C condition. *)
Definition has_flag (f m : Z) : bool := negb (Z.land f m =? 0).

(** Modelled from the spec: the [HEALTH_ENTRY_FLAG_*] masks come from a
    header that is not among the sources; the spec lists them as members of
    one bitset, so each is a distinct single bit of a 32-bit word. *)
Definition HEALTH_ENTRY_FLAG_PROCESSED : Z := 0x00000001.
Definition HEALTH_ENTRY_FLAG_UPDATED : Z := 0x00000002.
Definition HEALTH_ENTRY_FLAG_EXEC_RUN : Z := 0x00000004.
Definition HEALTH_ENTRY_FLAG_EXEC_FAILED : Z := 0x00000008.
Definition HEALTH_ENTRY_FLAG_SILENCED : Z := 0x00000010.
Definition HEALTH_ENTRY_FLAG_NO_CLEAR_NOTIFICATION : Z := 0x80000000.

(** Modelled from the spec: the [RRDCALC_FLAG_*] masks of an alarm's
    [rrdcalc_flags] and the no-clear-notification bit of its [options],
    likewise distinct single bits. *)
Definition RRDCALC_FLAG_DB_ERROR : Z := 0x00000001.
Definition RRDCALC_FLAG_DB_NAN : Z := 0x00000002.
Definition RRDCALC_FLAG_CALC_ERROR : Z := 0x00000008.
Definition RRDCALC_FLAG_WARN_ERROR : Z := 0x00000010.
Definition RRDCALC_FLAG_CRIT_ERROR : Z := 0x00000020.
Definition RRDCALC_FLAG_RUNNABLE : Z := 0x00000040.
Definition RRDCALC_FLAG_DISABLED : Z := 0x00000080.
Definition RRDCALC_FLAG_SILENCED : Z := 0x00000100.
Definition RRDCALC_FLAG_NO_CLEAR_NOTIFICATION : Z := 0x80000000.

(** Modelled from the spec: the chart flags tested by
    [rrdset_flag_check]. *)
Definition RRDSET_FLAG_ENABLED : Z := 0x00000001.
Definition RRDSET_FLAG_OBSOLETE : Z := 0x00000008.

(** ** Records *)

(** An entry of the alarm log.  Its [next] pointer is its position in the
    list that holds it. *)
Record ALARM_ENTRY : Type := {
  ae_unique_id : Z;
  ae_alarm_id : Z;
  ae_alarm_event_id : Z;
  ae_when : time_t;
  ae_duration : time_t;
  ae_name : option string;
  ae_chart : option string;
  ae_family : option string;
  ae_exec : option string;
  ae_recipient : option string;
  ae_source : option string;
  ae_units : option string;
  ae_info : option string;
  ae_old_value : calculated_number;
  ae_new_value : calculated_number;
  ae_old_status : RRDCALC_STATUS;
  ae_new_status : RRDCALC_STATUS;
  ae_delay : Z;
  ae_delay_up_to_timestamp : time_t;
  ae_last_repeat : time_t;
  ae_flags : Z;
  ae_exec_code : Z;
  ae_exec_run_timestamp : time_t
}.

Definition set_ae_flags (f : Z) (ae : ALARM_ENTRY) : ALARM_ENTRY :=
  {| ae_unique_id := ae_unique_id ae; ae_alarm_id := ae_alarm_id ae;
     ae_alarm_event_id := ae_alarm_event_id ae; ae_when := ae_when ae;
     ae_duration := ae_duration ae;
     ae_name := ae_name ae; ae_chart := ae_chart ae;
     ae_family := ae_family ae; ae_exec := ae_exec ae;
     ae_recipient := ae_recipient ae; ae_source := ae_source ae;
     ae_units := ae_units ae; ae_info := ae_info ae;
     ae_old_value := ae_old_value ae; ae_new_value := ae_new_value ae;
     ae_old_status := ae_old_status ae; ae_new_status := ae_new_status ae;
     ae_delay := ae_delay ae;
     ae_delay_up_to_timestamp := ae_delay_up_to_timestamp ae;
     ae_last_repeat := ae_last_repeat ae;
     ae_flags := f;
     ae_exec_code := ae_exec_code ae;
     ae_exec_run_timestamp := ae_exec_run_timestamp ae |}.

Definition set_ae_exec_run_timestamp (t : time_t) (ae : ALARM_ENTRY)
  : ALARM_ENTRY :=
  {| ae_unique_id := ae_unique_id ae; ae_alarm_id := ae_alarm_id ae;
     ae_alarm_event_id := ae_alarm_event_id ae; ae_when := ae_when ae;
     ae_duration := ae_duration ae;
     ae_name := ae_name ae; ae_chart := ae_chart ae;
     ae_family := ae_family ae; ae_exec := ae_exec ae;
     ae_recipient := ae_recipient ae; ae_source := ae_source ae;
     ae_units := ae_units ae; ae_info := ae_info ae;
     ae_old_value := ae_old_value ae; ae_new_value := ae_new_value ae;
     ae_old_status := ae_old_status ae; ae_new_status := ae_new_status ae;
     ae_delay := ae_delay ae;
     ae_delay_up_to_timestamp := ae_delay_up_to_timestamp ae;
     ae_last_repeat := ae_last_repeat ae;
     ae_flags := ae_flags ae;
     ae_exec_code := ae_exec_code ae;
     ae_exec_run_timestamp := t |}.

Definition set_ae_exec_code (c : Z) (ae : ALARM_ENTRY) : ALARM_ENTRY :=
  {| ae_unique_id := ae_unique_id ae; ae_alarm_id := ae_alarm_id ae;
     ae_alarm_event_id := ae_alarm_event_id ae; ae_when := ae_when ae;
     ae_duration := ae_duration ae;
     ae_name := ae_name ae; ae_chart := ae_chart ae;
     ae_family := ae_family ae; ae_exec := ae_exec ae;
     ae_recipient := ae_recipient ae; ae_source := ae_source ae;
     ae_units := ae_units ae; ae_info := ae_info ae;
     ae_old_value := ae_old_value ae; ae_new_value := ae_new_value ae;
     ae_old_status := ae_old_status ae; ae_new_status := ae_new_status ae;
     ae_delay := ae_delay ae;
     ae_delay_up_to_timestamp := ae_delay_up_to_timestamp ae;
     ae_last_repeat := ae_last_repeat ae;
     ae_flags := ae_flags ae;
     ae_exec_code := c;
     ae_exec_run_timestamp := ae_exec_run_timestamp ae |}.

Definition set_ae_last_repeat (t : time_t) (ae : ALARM_ENTRY) : ALARM_ENTRY :=
  {| ae_unique_id := ae_unique_id ae; ae_alarm_id := ae_alarm_id ae;
     ae_alarm_event_id := ae_alarm_event_id ae; ae_when := ae_when ae;
     ae_duration := ae_duration ae;
     ae_name := ae_name ae; ae_chart := ae_chart ae;
     ae_family := ae_family ae; ae_exec := ae_exec ae;
     ae_recipient := ae_recipient ae; ae_source := ae_source ae;
     ae_units := ae_units ae; ae_info := ae_info ae;
     ae_old_value := ae_old_value ae; ae_new_value := ae_new_value ae;
     ae_old_status := ae_old_status ae; ae_new_status := ae_new_status ae;
     ae_delay := ae_delay ae;
     ae_delay_up_to_timestamp := ae_delay_up_to_timestamp ae;
     ae_last_repeat := t;
     ae_flags := ae_flags ae;
     ae_exec_code := ae_exec_code ae;
     ae_exec_run_timestamp := ae_exec_run_timestamp ae |}.

(** The expression evaluator's object, as far as this file reads it. *)
Record EVAL_EXPRESSION : Type := {
  expr_source : option string;
  expr_error_msg : option string;
  expr_parsed_as : string
}.

(** A chart.  [st_first_entry_t] and [st_last_entry_t] are the values of
    [rrdset_first_entry_t] and [rrdset_last_entry_t]. *)
Record RRDSET : Type := {
  st_id : string;
  st_context : option string;
  st_family : option string;
  st_flags : Z;
  st_last_collected_time_tv_sec : time_t;
  st_counter_done : Z;
  st_update_every : Z;
  st_first_entry_t : time_t;
  st_last_entry_t : time_t
}.

Definition rrdset_flag_check (st : RRDSET) (flag : Z) : bool :=
  has_flag (st_flags st) flag.

(** An alarm (runtime instance). *)
Record RRDCALC : Type := {
  rc_id : Z;
  rc_next_event_id : Z;
  rc_name : option string;
  rc_chart : option string;
  rc_exec : option string;
  rc_recipient : option string;
  rc_source : option string;
  rc_units : option string;
  rc_info : option string;
  rc_rrdset : option RRDSET;
  rc_after : Z;
  rc_before : Z;
  rc_update_every : Z;
  rc_value : calculated_number;
  rc_old_value : calculated_number;
  rc_calculation : option EVAL_EXPRESSION;
  rc_warning : option EVAL_EXPRESSION;
  rc_critical : option EVAL_EXPRESSION;
  rc_options : Z;
  rc_delay_up_duration : Z;
  rc_delay_down_duration : Z;
  rc_delay_multiplier : calculated_number;
  rc_delay_max_duration : Z;
  rc_warn_repeat_every : Z;
  rc_crit_repeat_every : Z;
  (* the fields below are written by the phases of [health_main] *)
  rc_rrdcalc_flags : Z;
  rc_status : RRDCALC_STATUS;
  rc_old_status : RRDCALC_STATUS;
  rc_last_status_change : time_t;
  rc_last_updated : time_t;
  rc_next_update : time_t;
  rc_delay_up_current : Z;
  rc_delay_down_current : Z;
  rc_delay_last : Z;
  rc_delay_up_to_timestamp : time_t;
  rc_last_repeat : time_t
}.

(** [rc] with every field that the phases write replaced. *)
Definition rc_write (rc : RRDCALC) (next_event_id flags : Z)
    (status old_status : RRDCALC_STATUS)
    (last_status_change last_updated next_update : time_t)
    (delay_up_current delay_down_current delay_last : Z)
    (delay_up_to_timestamp last_repeat : time_t) : RRDCALC :=
  {| rc_id := rc_id rc; rc_next_event_id := next_event_id;
     rc_name := rc_name rc; rc_chart := rc_chart rc; rc_exec := rc_exec rc;
     rc_recipient := rc_recipient rc; rc_source := rc_source rc;
     rc_units := rc_units rc; rc_info := rc_info rc;
     rc_rrdset := rc_rrdset rc; rc_after := rc_after rc;
     rc_before := rc_before rc; rc_update_every := rc_update_every rc;
     rc_value := rc_value rc; rc_old_value := rc_old_value rc;
     rc_calculation := rc_calculation rc; rc_warning := rc_warning rc;
     rc_critical := rc_critical rc; rc_options := rc_options rc;
     rc_delay_up_duration := rc_delay_up_duration rc;
     rc_delay_down_duration := rc_delay_down_duration rc;
     rc_delay_multiplier := rc_delay_multiplier rc;
     rc_delay_max_duration := rc_delay_max_duration rc;
     rc_warn_repeat_every := rc_warn_repeat_every rc;
     rc_crit_repeat_every := rc_crit_repeat_every rc;
     rc_rrdcalc_flags := flags; rc_status := status;
     rc_old_status := old_status;
     rc_last_status_change := last_status_change;
     rc_last_updated := last_updated; rc_next_update := next_update;
     rc_delay_up_current := delay_up_current;
     rc_delay_down_current := delay_down_current;
     rc_delay_last := delay_last;
     rc_delay_up_to_timestamp := delay_up_to_timestamp;
     rc_last_repeat := last_repeat |}.

Definition set_rc_rrdcalc_flags (f : Z) (rc : RRDCALC) : RRDCALC :=
  rc_write rc (rc_next_event_id rc) f (rc_status rc) (rc_old_status rc)
    (rc_last_status_change rc) (rc_last_updated rc) (rc_next_update rc)
    (rc_delay_up_current rc) (rc_delay_down_current rc) (rc_delay_last rc)
    (rc_delay_up_to_timestamp rc) (rc_last_repeat rc).

Definition set_rc_next_event_id (n : Z) (rc : RRDCALC) : RRDCALC :=
  rc_write rc n (rc_rrdcalc_flags rc) (rc_status rc) (rc_old_status rc)
    (rc_last_status_change rc) (rc_last_updated rc) (rc_next_update rc)
    (rc_delay_up_current rc) (rc_delay_down_current rc) (rc_delay_last rc)
    (rc_delay_up_to_timestamp rc) (rc_last_repeat rc).

(** [delay_up_current], [delay_down_current], [delay_last] and
    [delay_up_to_timestamp] together. *)
Definition set_rc_delays (up down last : Z) (upto : time_t) (rc : RRDCALC)
  : RRDCALC :=
  rc_write rc (rc_next_event_id rc) (rc_rrdcalc_flags rc) (rc_status rc)
    (rc_old_status rc) (rc_last_status_change rc) (rc_last_updated rc)
    (rc_next_update rc) up down last upto (rc_last_repeat rc).

(** [last_status_change], [old_status] and [status] together. *)
Definition set_rc_status_change (t : time_t) (old new : RRDCALC_STATUS)
    (rc : RRDCALC) : RRDCALC :=
  rc_write rc (rc_next_event_id rc) (rc_rrdcalc_flags rc) new old t
    (rc_last_updated rc) (rc_next_update rc)
    (rc_delay_up_current rc) (rc_delay_down_current rc) (rc_delay_last rc)
    (rc_delay_up_to_timestamp rc) (rc_last_repeat rc).

(** [last_updated] and [next_update] together. *)
Definition set_rc_schedule (updated next : time_t) (rc : RRDCALC) : RRDCALC :=
  rc_write rc (rc_next_event_id rc) (rc_rrdcalc_flags rc) (rc_status rc)
    (rc_old_status rc) (rc_last_status_change rc) updated next
    (rc_delay_up_current rc) (rc_delay_down_current rc) (rc_delay_last rc)
    (rc_delay_up_to_timestamp rc) (rc_last_repeat rc).

Definition set_rc_last_repeat (t : time_t) (rc : RRDCALC) : RRDCALC :=
  rc_write rc (rc_next_event_id rc) (rc_rrdcalc_flags rc) (rc_status rc)
    (rc_old_status rc) (rc_last_status_change rc) (rc_last_updated rc)
    (rc_next_update rc) (rc_delay_up_current rc) (rc_delay_down_current rc)
    (rc_delay_last rc) (rc_delay_up_to_timestamp rc) t.

(** The alarm log of a host: the chain, newest entry first, and its
    counters. *)
Record ALARM_LOG : Type := {
  log_next_log_id : Z;
  log_count : Z;
  log_max : Z;
  log_alarms : list ALARM_ENTRY
}.

Record RRDHOST : Type := {
  host_hostname : option string;
  host_registry_hostname : string;
  host_health_default_exec : string;
  host_health_default_recipient : string;
  host_health_last_processed_id : Z;
  host_health_log : ALARM_LOG;
  host_alarms : list RRDCALC
}.

Definition set_host_log (lg : ALARM_LOG) (host : RRDHOST) : RRDHOST :=
  {| host_hostname := host_hostname host;
     host_registry_hostname := host_registry_hostname host;
     host_health_default_exec := host_health_default_exec host;
     host_health_default_recipient := host_health_default_recipient host;
     host_health_last_processed_id := host_health_last_processed_id host;
     host_health_log := lg;
     host_alarms := host_alarms host |}.

Definition set_host_last_processed_id (id : Z) (host : RRDHOST) : RRDHOST :=
  {| host_hostname := host_hostname host;
     host_registry_hostname := host_registry_hostname host;
     host_health_default_exec := host_health_default_exec host;
     host_health_default_recipient := host_health_default_recipient host;
     host_health_last_processed_id := id;
     host_health_log := host_health_log host;
     host_alarms := host_alarms host |}.

Definition set_host_alarms (l : list RRDCALC) (host : RRDHOST) : RRDHOST :=
  {| host_hostname := host_hostname host;
     host_registry_hostname := host_registry_hostname host;
     host_health_default_exec := host_health_default_exec host;
     host_health_default_recipient := host_health_default_recipient host;
     host_health_last_processed_id := host_health_last_processed_id host;
     host_health_log := host_health_log host;
     host_alarms := l |}.

(** ** Silencers *)

Inductive SILENCE_TYPE : Set :=
| STYPE_NONE
| STYPE_DISABLE_ALARMS
| STYPE_SILENCE_NOTIFICATIONS.

(** A compiled pattern, kept as the text it was compiled from. *)
Definition SIMPLE_PATTERN := string.

Record SILENCER : Type := {
  s_alarms_pattern : option SIMPLE_PATTERN;
  s_charts_pattern : option SIMPLE_PATTERN;
  s_contexts_pattern : option SIMPLE_PATTERN;
  s_hosts_pattern : option SIMPLE_PATTERN;
  s_families_pattern : option SIMPLE_PATTERN
}.

Record SILENCERS : Type := {
  all_alarms : bool;
  stype : SILENCE_TYPE;
  silencers : list SILENCER
}.

(** ** What leaves the process *)

(** The arguments [health_alarm_execute] formats into [command_to_run]:
    the fields of the entry (as they are when the command is built) and the
    values computed for it. *)
Record NOTIFIER_COMMAND : Type := {
  cmd_exec : string;
  cmd_recipient : string;
  cmd_hostname : string;
  cmd_entry : ALARM_ENTRY;
  cmd_expr_source : string;
  cmd_expr_error : string;
  cmd_n_warn : Z;
  cmd_n_crit : Z
}.

(** [EvPopen]: [mypopen(command_to_run, ..)], with the exit code that
    [mypclose] returned, or [None] when no process was spawned.
    [EvSave]: [health_alarm_log_save(host, ae)].
    [EvFree]: [health_alarm_log_free_one_nochecks_nounlink(ae)]. *)
Inductive notifier_event : Type :=
| EvPopen (cmd : NOTIFIER_COMMAND) (exit_code : option Z)
| EvSave (ae : ALARM_ENTRY)
| EvFree (ae : ALARM_ENTRY).

(** What [health_silencers_init] does to the outside. *)
Inductive silencers_init_event : Type :=
| EvErrorCannotOpen
| EvErrorOutOfRange (length : Z)
| EvJsonParse (str : string)
| EvInfoParsed.

(** ** The engine

    What the file calls but does not define is a parameter of the model. *)

Section Engine.

(** [mypopen] then [mypclose] on a command: [None] when the notifier
    process cannot be spawned ([mypopen] returns NULL), else the exit code
    [mypclose] returns. *)
Variable run_notifier : NOTIFIER_COMMAND -> option Z.

(** [expression_evaluate]: [None] on failure, else the expression's
    [result]. *)
Variable expression_evaluate : EVAL_EXPRESSION -> option calculated_number.

Variable simple_pattern_matches : SIMPLE_PATTERN -> string -> bool.

(** [alarm_entry_isrepeating(host, ae)]; of the host it is given the alarm
    registry, which the log processing does not write. *)
Variable alarm_entry_isrepeating : list RRDCALC -> ALARM_ENTRY -> bool.

Variable rrdcalc_isrepeating : RRDCALC -> bool.

Variable RRDCALC_HAS_DB_LOOKUP : RRDCALC -> bool.

(** [(int)(d * multiplier)] of the hysteresis. *)
Variable scale_delay : Z -> calculated_number -> Z.

Variable HEALTH_SILENCERS_MAX_FILE_LEN : Z.

(** *** The dispatcher, [health_alarm_execute] (health.c:174) *)

(** The loop of health.c:196 over the chain that starts at [ae->next]: the
    first entry with the alarm id [id] and exec-run set. *)
Fixpoint find_exec_run (id : Z) (t : list ALARM_ENTRY) : option ALARM_ENTRY :=
  match t with
  | [] => None
  | e :: t' =>
      if (ae_alarm_id e =? id)
         && has_flag (ae_flags e) HEALTH_ENTRY_FLAG_EXEC_RUN
      then Some e
      else find_exec_run id t'
  end.

(** One round of the loop of health.c:237 on [n_warn], [n_crit], [expr]. *)
Definition count_raised (ae : ALARM_ENTRY)
    (acc : Z * Z * option EVAL_EXPRESSION) (rc : RRDCALC)
  : Z * Z * option EVAL_EXPRESSION :=
  let '(n_warn, n_crit, expr) := acc in
  match rc_rrdset rc with
  | None => acc
  | Some st =>
      if st_last_collected_time_tv_sec st =? 0 then acc
      else
        let mine := ae_alarm_id ae =? rc_id rc in
        match rc_status rc with
        | RRDCALC_STATUS_WARNING =>
            (n_warn + 1, n_crit, if mine then rc_warning rc else expr)
        | RRDCALC_STATUS_CRITICAL =>
            (n_warn, n_crit + 1, if mine then rc_critical rc else expr)
        | RRDCALC_STATUS_CLEAR =>
            (n_warn, n_crit, if mine then rc_warning rc else expr)
        | _ => acc
        end
  end.

Definition or_default (o : option string) (d : string) : string :=
  match o with Some s => s | None => d end.

Definition build_command (host : RRDHOST) (ae : ALARM_ENTRY)
  : NOTIFIER_COMMAND :=
  let '(n_warn, n_crit, expr) :=
    fold_left (count_raised ae) (host_alarms host) (0, 0, None) in
  {| cmd_exec := or_default (ae_exec ae) (host_health_default_exec host);
     cmd_recipient :=
       or_default (ae_recipient ae) (host_health_default_recipient host);
     cmd_hostname := host_registry_hostname host;
     cmd_entry := ae;
     cmd_expr_source :=
       match expr with
       | Some e => or_default (expr_source e) "NOSOURCE"
       | None => "NOSOURCE"%string
       end;
     cmd_expr_error :=
       match expr with
       | Some e => or_default (expr_error_msg e) "NOERRMSG"
       | None => "NOERRMSG"%string
       end;
     cmd_n_warn := n_warn;
     cmd_n_crit := n_crit |}.

Definition ae_or_flag (m : Z) (ae : ALARM_ENTRY) : ALARM_ENTRY :=
  set_ae_flags (Z.lor (ae_flags ae) m) ae.

(** The label [done]: persist the entry and return. *)
Definition done (ae : ALARM_ENTRY) (evs : list notifier_event)
  : ALARM_ENTRY * list notifier_event :=
  (ae, evs ++ [EvSave ae]).

(** [next] is the chain from [ae->next]; [clock] is what
    [now_realtime_sec()] returns at health.c:284. *)
Definition health_alarm_execute (host : RRDHOST) (clock : time_t)
    (ae : ALARM_ENTRY) (next : list ALARM_ENTRY)
  : ALARM_ENTRY * list notifier_event :=
  let ae := ae_or_flag HEALTH_ENTRY_FLAG_PROCESSED ae in
  if status_ltb (ae_new_status ae) RRDCALC_STATUS_CLEAR then done ae []
  else if status_leb (ae_new_status ae) RRDCALC_STATUS_CLEAR
          && has_flag (ae_flags ae) HEALTH_ENTRY_FLAG_NO_CLEAR_NOTIFICATION
  then done ae []
  else if negb (has_flag (ae_flags ae) HEALTH_ENTRY_FLAG_NO_CLEAR_NOTIFICATION)
          && match find_exec_run (ae_alarm_id ae) next with
             | Some t => status_eqb (ae_new_status t) (ae_new_status ae)
             | None => status_eqb (ae_new_status ae) RRDCALC_STATUS_CLEAR
             end
  then done ae []
  else if has_flag (ae_flags ae) HEALTH_ENTRY_FLAG_SILENCED then done ae []
  else
    let cmd := build_command host ae in
    let ae :=
      set_ae_exec_run_timestamp clock
        (ae_or_flag HEALTH_ENTRY_FLAG_EXEC_RUN ae) in
    match run_notifier cmd with
    | None => done ae [EvPopen cmd None]
    | Some code =>
        let ae := set_ae_exec_code code ae in
        let ae :=
          if code =? 0 then ae
          else ae_or_flag HEALTH_ENTRY_FLAG_EXEC_FAILED ae in
        done ae [EvPopen cmd (Some code)]
    end.

Definition health_process_notifications := health_alarm_execute.

(** The notifier was started for the entry: [mypopen] was called. *)
Definition notifier_called (evs : list notifier_event) : bool :=
  existsb (fun e => match e with EvPopen _ _ => true | _ => false end) evs.

(** The entries passed to the free routine, one per call. *)
Fixpoint freed (evs : list notifier_event) : list ALARM_ENTRY :=
  match evs with
  | [] => []
  | EvFree ae :: evs' => ae :: freed evs'
  | _ :: evs' => freed evs'
  end.

(** *** The alarm log, [health_alarm_log_process] (health.c:316) *)

Definition is_pending (ae : ALARM_ENTRY) : bool :=
  negb (has_flag (ae_flags ae) HEALTH_ENTRY_FLAG_PROCESSED)
  && negb (has_flag (ae_flags ae) HEALTH_ENTRY_FLAG_UPDATED).

(** The dispatch scan, health.c:323, from the entry at the head of [chain]
    on: the chain and [first_waiting] after it, and what it did.  An entry
    is dispatched before the scan moves to the older ones, so it is
    dispatched against the chain behind it as the scan found it. *)
Fixpoint dispatch_scan (host : RRDHOST) (now clock : time_t)
    (first_waiting : Z) (chain : list ALARM_ENTRY)
  : list ALARM_ENTRY * Z * list notifier_event :=
  match chain with
  | [] => ([], first_waiting, [])
  | ae :: next =>
      if ae_unique_id ae <? host_health_last_processed_id host
      then (chain, first_waiting, [])
      else
        let '(ae', first_waiting', evs) :=
          if negb (alarm_entry_isrepeating (host_alarms host) ae)
             && is_pending ae
          then
            let fw :=
              if ae_unique_id ae <? first_waiting then ae_unique_id ae
              else first_waiting in
            if ae_delay_up_to_timestamp ae <=? now
            then
              let '(ae', evs) :=
                health_process_notifications host clock ae next in
              (ae', fw, evs)
            else (ae, fw, [])
          else (ae, first_waiting, []) in
        let '(next', first_waiting'', evs') :=
          dispatch_scan host now clock first_waiting' next in
        (ae' :: next', first_waiting'', evs ++ evs')
  end.

(** The loop of health.c:351: [count] steps down the chain, or fewer if it
    ends; the entries passed (the last of them is [last]) and the chain
    from [ae] on. *)
Fixpoint eviction_walk (count : nat) (chain : list ALARM_ENTRY)
  : list ALARM_ENTRY * list ALARM_ENTRY :=
  match count, chain with
  | S count', ae :: next =>
      let '(passed, rest) := eviction_walk count' next in
      (ae :: passed, rest)
  | _, _ => ([], chain)
  end.

(** The loop of health.c:358 over the chain cut off, on
    [host->health_log.count]. *)
Fixpoint eviction_free (alarms : list RRDCALC) (count : Z)
    (chain : list ALARM_ENTRY) : Z * list notifier_event :=
  match chain with
  | [] => (count, [])
  | ae :: t =>
      let '(count1, evs1) :=
        if negb (alarm_entry_isrepeating alarms ae)
        then (uint32 (count - 1), [EvFree ae; EvFree ae])
        else (count, [EvFree ae]) in
      let '(count2, evs2) := eviction_free alarms (uint32 (count1 - 1)) t in
      (count2, evs1 ++ evs2)
  end.

Definition health_alarm_log_process (host : RRDHOST) (now clock : time_t)
  : RRDHOST * list notifier_event :=
  let lg := host_health_log host in
  let first_waiting :=
    match log_alarms lg with
    | ae :: _ => ae_unique_id ae
    | [] => 0
    end in
  let '(chain, first_waiting, evs) :=
    dispatch_scan host now clock first_waiting (log_alarms lg) in
  let host1 :=
    set_host_last_processed_id first_waiting
      (set_host_log
         {| log_next_log_id := log_next_log_id lg; log_count := log_count lg;
            log_max := log_max lg; log_alarms := chain |} host) in
  if log_count lg <=? log_max lg then (host1, evs)
  else
    let count := uint32 (log_max lg * 2) / 3 in
    match eviction_walk (Z.to_nat count) chain with
    | ((_ :: _) as kept, (_ :: _) as cut) =>
        let '(count', evs') :=
          eviction_free (host_alarms host) (log_count lg) cut in
        (set_host_log
           {| log_next_log_id := log_next_log_id lg; log_count := count';
              log_max := log_max lg; log_alarms := kept |} host1,
         evs ++ evs')
    | _ => (host1, evs)
    end.

(** *** The runnability predicate, [rrdcalc_isrunnable] (health.c:376)

    The result and [*next_run] after the call. *)
Definition rrdcalc_isrunnable (rc : RRDCALC) (now next_run : time_t)
  : bool * time_t :=
  match rc_rrdset rc with
  | None => (false, next_run)
  | Some st =>
      if now <? rc_next_update rc then
        (false,
         if rc_next_update rc <? next_run then rc_next_update rc
         else next_run)
      else if rc_update_every rc =? 0 then (false, next_run)
      else if rrdset_flag_check st RRDSET_FLAG_OBSOLETE then (false, next_run)
      else if negb (rrdset_flag_check st RRDSET_FLAG_ENABLED)
      then (false, next_run)
      else if (st_last_collected_time_tv_sec st =? 0)
              || (st_counter_done st <? 2)
      then (false, next_run)
      else
        let update_every := st_update_every st in
        let first := st_first_entry_t st in
        let last := st_last_entry_t st in
        if now + update_every <? first then (false, next_run)
        else if RRDCALC_HAS_DB_LOOKUP rc then
          let needed := now + rc_before rc + rc_after rc in
          if (needed + update_every <? first)
             || (last <? needed - update_every)
          then (false, next_run)
          else (true, next_run)
        else (true, next_run)
  end.

(** *** The silencer matcher, [check_silenced] (health.c:466) *)

(** One conjunct of the condition of health.c:473:
    [!pattern || (field && pattern && simple_pattern_matches(pattern, field))]. *)
Definition pattern_conjunct (pattern : option SIMPLE_PATTERN)
    (field : option string) : bool :=
  match pattern with
  | None => true
  | Some p =>
      match field with
      | Some f => simple_pattern_matches p f
      | None => false
      end
  end.

(** [rc->rrdset && rc->rrdset->field], as the value then matched. *)
Definition chart_field (rc : RRDCALC) (field : RRDSET -> option string)
  : option string :=
  match rc_rrdset rc with
  | Some st => field st
  | None => None
  end.

Definition silencer_matches (rc : RRDCALC) (host : option string)
    (s : SILENCER) : bool :=
  pattern_conjunct (s_alarms_pattern s) (rc_name rc)
  && pattern_conjunct (s_contexts_pattern s) (chart_field rc st_context)
  && pattern_conjunct (s_hosts_pattern s) host
  && pattern_conjunct (s_charts_pattern s) (rc_chart rc)
  && pattern_conjunct (s_families_pattern s) (chart_field rc st_family).

(** The loop of health.c:471 from the silencer at the head of [l] on. *)
Fixpoint check_silenced_from (rc : RRDCALC) (host : option string)
    (st : SILENCE_TYPE) (l : list SILENCER) : SILENCE_TYPE :=
  match l with
  | [] => STYPE_NONE
  | s :: l' =>
      if silencer_matches rc host s then st
      else check_silenced_from rc host st l'
  end.

Definition check_silenced (rc : RRDCALC) (host : option string)
    (sl : SILENCERS) : SILENCE_TYPE :=
  check_silenced_from rc host (stype sl) (silencers sl).

(** [update_disabled_silenced] (health.c:508), on the global [silencers]. *)
Definition update_disabled_silenced (sl : SILENCERS) (host : RRDHOST)
    (rc : RRDCALC) : RRDCALC * bool :=
  let cleared :=
    Z.ldiff (rc_rrdcalc_flags rc)
      (Z.lor RRDCALC_FLAG_DISABLED RRDCALC_FLAG_SILENCED) in
  let st :=
    if all_alarms sl then stype sl
    else check_silenced rc (host_hostname host) sl in
  let flags :=
    match st with
    | STYPE_DISABLE_ALARMS => Z.lor cleared RRDCALC_FLAG_DISABLED
    | STYPE_SILENCE_NOTIFICATIONS => Z.lor cleared RRDCALC_FLAG_SILENCED
    | STYPE_NONE => cleared
    end in
  (set_rc_rrdcalc_flags flags rc, has_flag flags RRDCALC_FLAG_DISABLED).

(** *** Log entries *)

(** Modelled from the spec: [health_create_alarm_entry] is defined outside
    health.c.  Each argument becomes the field of its name; the spec
    (section 4.4, on the call of health.c:843) fixes the thirteenth argument as
    [old_status] and the fourteenth as [new_status].  The entry may be
    dispatched once [when + delay] has come. *)
Definition health_create_alarm_entry (alarm_id alarm_event_id : Z)
    (when : time_t) (name chart family exec recipient : option string)
    (duration : time_t) (old_value new_value : calculated_number)
    (old_status new_status : RRDCALC_STATUS)
    (source units info : option string) (delay flags : Z) : ALARM_ENTRY :=
  {| ae_unique_id := 0; ae_alarm_id := alarm_id;
     ae_alarm_event_id := alarm_event_id; ae_when := when;
     ae_duration := duration; ae_name := name; ae_chart := chart;
     ae_family := family; ae_exec := exec; ae_recipient := recipient;
     ae_source := source; ae_units := units; ae_info := info;
     ae_old_value := old_value; ae_new_value := new_value;
     ae_old_status := old_status; ae_new_status := new_status;
     ae_delay := delay; ae_delay_up_to_timestamp := when + delay;
     ae_last_repeat := 0; ae_flags := flags; ae_exec_code := 0;
     ae_exec_run_timestamp := 0 |}.

Definition set_ae_unique_id (id : Z) (ae : ALARM_ENTRY) : ALARM_ENTRY :=
  {| ae_unique_id := id; ae_alarm_id := ae_alarm_id ae;
     ae_alarm_event_id := ae_alarm_event_id ae; ae_when := ae_when ae;
     ae_duration := ae_duration ae;
     ae_name := ae_name ae; ae_chart := ae_chart ae;
     ae_family := ae_family ae; ae_exec := ae_exec ae;
     ae_recipient := ae_recipient ae; ae_source := ae_source ae;
     ae_units := ae_units ae; ae_info := ae_info ae;
     ae_old_value := ae_old_value ae; ae_new_value := ae_new_value ae;
     ae_old_status := ae_old_status ae; ae_new_status := ae_new_status ae;
     ae_delay := ae_delay ae;
     ae_delay_up_to_timestamp := ae_delay_up_to_timestamp ae;
     ae_last_repeat := ae_last_repeat ae;
     ae_flags := ae_flags ae;
     ae_exec_code := ae_exec_code ae;
     ae_exec_run_timestamp := ae_exec_run_timestamp ae |}.

(** Modelled from the spec: [health_alarm_log], the append of section 4.6,
    is defined outside health.c: assign [unique_id], push at head,
    increment [count]. *)
Definition health_alarm_log (lg : ALARM_LOG) (ae : ALARM_ENTRY) : ALARM_LOG :=
  {| log_next_log_id := uint32 (log_next_log_id lg + 1);
     log_count := uint32 (log_count lg + 1);
     log_max := log_max lg;
     log_alarms := set_ae_unique_id (log_next_log_id lg) ae :: log_alarms lg |}.

(** The flags argument of both calls of [health_create_alarm_entry]. *)
Definition entry_flags_of (rc : RRDCALC) : Z :=
  Z.lor
    (if has_flag (rc_options rc) RRDCALC_FLAG_NO_CLEAR_NOTIFICATION
     then HEALTH_ENTRY_FLAG_NO_CLEAR_NOTIFICATION else 0)
    (if has_flag (rc_rrdcalc_flags rc) RRDCALC_FLAG_SILENCED
     then HEALTH_ENTRY_FLAG_SILENCED else 0).

(** *** The decide phase of [health_main] (health.c:716)

    A dereference of a null [rc->rrdset] has no defined result: [None]. *)

(** health.c:729 and health.c:753: the status of a threshold expression and
    the error flag [err] of the alarm. *)
Definition evaluate_threshold (err : Z) (e : option EVAL_EXPRESSION)
    (rc : RRDCALC) : RRDCALC * RRDCALC_STATUS :=
  match e with
  | None => (rc, RRDCALC_STATUS_UNDEFINED)
  | Some ex =>
      match expression_evaluate ex with
      | None =>
          (set_rc_rrdcalc_flags (Z.lor (rc_rrdcalc_flags rc) err) rc,
           RRDCALC_STATUS_UNDEFINED)
      | Some result =>
          (set_rc_rrdcalc_flags (Z.ldiff (rc_rrdcalc_flags rc) err) rc,
           rrdcalc_value2status result)
      end
  end.

(** The two [switch]es of health.c:778. *)
Definition decide_status (warning_status critical_status : RRDCALC_STATUS)
  : RRDCALC_STATUS :=
  let status := RRDCALC_STATUS_UNDEFINED in
  let status :=
    match warning_status with
    | RRDCALC_STATUS_CLEAR => RRDCALC_STATUS_CLEAR
    | RRDCALC_STATUS_RAISED => RRDCALC_STATUS_WARNING
    | _ => status
    end in
  match critical_status with
  | RRDCALC_STATUS_CLEAR =>
      if status_eqb status RRDCALC_STATUS_UNDEFINED
      then RRDCALC_STATUS_CLEAR else status
  | RRDCALC_STATUS_RAISED => RRDCALC_STATUS_CRITICAL
  | _ => status
  end.

(** The trigger hysteresis of health.c:815, up to [delay_up_to_timestamp]. *)
Definition apply_hysteresis (now : time_t) (status : RRDCALC_STATUS)
    (rc : RRDCALC) : RRDCALC :=
  let rc :=
    if rc_delay_up_to_timestamp rc <? now then
      set_rc_delays (rc_delay_up_duration rc) (rc_delay_down_duration rc)
        0 0 rc
    else
      let up := scale_delay (rc_delay_up_current rc) (rc_delay_multiplier rc) in
      let up :=
        if rc_delay_max_duration rc <? up then rc_delay_max_duration rc
        else up in
      let down :=
        scale_delay (rc_delay_down_current rc) (rc_delay_multiplier rc) in
      let down :=
        if rc_delay_max_duration rc <? down then rc_delay_max_duration rc
        else down in
      set_rc_delays up down (rc_delay_last rc) (rc_delay_up_to_timestamp rc)
        rc in
  let delay :=
    if status_ltb (rc_status rc) status then rc_delay_up_current rc
    else rc_delay_down_current rc in
  set_rc_delays (rc_delay_up_current rc) (rc_delay_down_current rc) delay
    (now + delay) rc.

(** The body of [if (status != rc->status)], health.c:810. *)
Definition status_changed (lg : ALARM_LOG) (now : time_t)
    (status : RRDCALC_STATUS) (rc : RRDCALC) : option (ALARM_LOG * RRDCALC) :=
  let rc := apply_hysteresis now status rc in
  let logged :=
    if negb (rrdcalc_isrepeating rc) then
      match rc_rrdset rc with
      | None => None
      | Some st =>
          let ae :=
            health_create_alarm_entry (rc_id rc) (rc_next_event_id rc) now
              (rc_name rc) (Some (st_id st)) (st_family st) (rc_exec rc)
              (rc_recipient rc) (now - rc_last_status_change rc)
              (rc_old_value rc) (rc_value rc) (rc_status rc) status
              (rc_source rc) (rc_units rc) (rc_info rc) (rc_delay_last rc)
              (entry_flags_of rc) in
          Some (health_alarm_log lg ae,
                set_rc_next_event_id (uint32 (rc_next_event_id rc + 1)) rc)
      end
    else Some (lg, rc) in
  match logged with
  | None => None
  | Some (lg, rc) =>
      Some (lg, set_rc_status_change now (rc_status rc) status rc)
  end.

(** One round of the loop of health.c:716: the log, the alarm and
    [next_run] after it. *)
Definition health_decide_alarm (lg : ALARM_LOG) (now next_run : time_t)
    (rc : RRDCALC) : option (ALARM_LOG * RRDCALC * time_t) :=
  if negb (has_flag (rc_rrdcalc_flags rc) RRDCALC_FLAG_RUNNABLE)
  then Some (lg, rc, next_run)
  else if has_flag (rc_rrdcalc_flags rc) RRDCALC_FLAG_DISABLED
  then Some (lg, rc, next_run)
  else
    let '(rc, warning_status) :=
      evaluate_threshold RRDCALC_FLAG_WARN_ERROR (rc_warning rc) rc in
    let '(rc, critical_status) :=
      evaluate_threshold RRDCALC_FLAG_CRIT_ERROR (rc_critical rc) rc in
    let status := decide_status warning_status critical_status in
    let changed :=
      if negb (status_eqb status (rc_status rc))
      then status_changed lg now status rc
      else Some (lg, rc) in
    match changed with
    | None => None
    | Some (lg, rc) =>
        let rc := set_rc_schedule now (now + rc_update_every rc) rc in
        Some (lg, rc,
              if rc_next_update rc <? next_run then rc_next_update rc
              else next_run)
    end.

(** The loop of health.c:716 over the alarms from the head of [l] on. *)
Fixpoint health_decide (lg : ALARM_LOG) (now next_run : time_t)
    (l : list RRDCALC) : option (ALARM_LOG * list RRDCALC * time_t) :=
  match l with
  | [] => Some (lg, [], next_run)
  | rc :: l' =>
      match health_decide_alarm lg now next_run rc with
      | None => None
      | Some (lg1, rc1, next_run1) =>
          match health_decide lg1 now next_run1 l' with
          | None => None
          | Some (lg2, l2, next_run2) => Some (lg2, rc1 :: l2, next_run2)
          end
      end
  end.

(** *** The repeating phase of [health_main] (health.c:867) *)

(** health.c:870: the [int repeat_every] of the alarm.  The fields
    [warn_repeat_every] and [crit_repeat_every] are declared outside
    health.c; whatever their integer type, the assignment converts the
    stored value to [int], so a stored value of [2 ^ 31] or more (below
    [2 ^ 32]) is negative here. *)
Definition repeat_every_of (rc : RRDCALC) : Z :=
  if rrdcalc_isrepeating rc then
    match rc_status rc with
    | RRDCALC_STATUS_WARNING => int32 (rc_warn_repeat_every rc)
    | RRDCALC_STATUS_CRITICAL => int32 (rc_crit_repeat_every rc)
    | _ => 0
    end
  else 0.

(** The entry of health.c:879 for [rc], with [last_repeat] copied into it
    (health.c:889); [rc] already carries the new [last_repeat]. *)
Definition repeating_entry (now : time_t) (st : RRDSET) (rc : RRDCALC)
  : ALARM_ENTRY :=
  set_ae_last_repeat (rc_last_repeat rc)
    (health_create_alarm_entry (rc_id rc) (rc_next_event_id rc) now
       (rc_name rc) (Some (st_id st)) (st_family st) (rc_exec rc)
       (rc_recipient rc) (now - rc_last_status_change rc)
       (rc_old_value rc) (rc_value rc) (rc_old_status rc) (rc_status rc)
       (rc_source rc) (rc_units rc) (rc_info rc) (rc_delay_last rc)
       (entry_flags_of rc)).

(** One round of the loop of health.c:869.  [host_with rc'] is the host
    with the alarm as it is when the dispatcher is called.  The new entry
    is linked nowhere: its [next] is null. *)
Definition health_repeating_alarm (host_with : RRDCALC -> RRDHOST)
    (now clock : time_t) (rc : RRDCALC)
  : option (RRDCALC * list notifier_event) :=
  let repeat_every := repeat_every_of rc in
  if (0 <? repeat_every) && (rc_last_repeat rc + repeat_every <=? now) then
    let rc := set_rc_last_repeat now rc in
    match rc_rrdset rc with
    | None => None
    | Some st =>
        let ae := repeating_entry now st rc in
        let rc := set_rc_next_event_id (uint32 (rc_next_event_id rc + 1)) rc in
        let '(ae, evs) :=
          health_process_notifications (host_with rc) clock ae [] in
        Some (rc, evs ++ [EvFree ae])
    end
  else Some (rc, []).

(** The loop of health.c:869: [before] are the alarms already visited.
    The loop stands, with the decide loop, under
    [if (runnable && !netdata_exit)] (health.c:713): it is run in a tick in
    which the lookup loop counted an alarm. *)
Fixpoint health_repeating (host : RRDHOST) (now clock : time_t)
    (before todo : list RRDCALC)
  : option (list RRDCALC * list notifier_event) :=
  match todo with
  | [] => Some (before, [])
  | rc :: rest =>
      match
        health_repeating_alarm
          (fun rc' => set_host_alarms (before ++ rc' :: rest) host)
          now clock rc
      with
      | None => None
      | Some (rc', evs) =>
          match health_repeating host now clock (before ++ [rc']) rest with
          | None => None
          | Some (l, evs') => Some (l, evs ++ evs')
          end
      end
  end.

(** The loop of health.c:869 on a host: the host with its alarms after
    it. *)
Definition health_repeating_phase (host : RRDHOST) (now clock : time_t)
  : option (RRDHOST * list notifier_event) :=
  match health_repeating host now clock [] (host_alarms host) with
  | None => None
  | Some (l, evs) => Some (set_host_alarms l host, evs)
  end.

(** *** [health_silencers_init] (health.c:47)

    [stat_size] is [st_size] when [stat] succeeds, [file] the content when
    [fopen] succeeds.  [mallocz] does not return null. *)
Definition health_silencers_init (stat_size : option Z) (file : option string)
  : list silencers_init_event :=
  match stat_size with
  | Some length =>
      if negb (length =? 0) && (length <? HEALTH_SILENCERS_MAX_FILE_LEN) then
        match file with
        | Some content =>
            [EvJsonParse (substring 0 (Z.to_nat length) content);
             EvInfoParsed]
        | None => [EvErrorCannotOpen]
        end
      else [EvErrorOutOfRange length]
  | None => [EvErrorCannotOpen]
  end.

(** [health_init] (health.c:79), given the value of the [enabled] option. *)
Definition health_init (enabled : bool) (stat_size : option Z)
    (file : option string) : list silencers_init_event :=
  if enabled then health_silencers_init stat_size file else [].

End Engine.

(** ** Predicates of the specification *)

(** [e] is an entry of alarm [id] for which the notifier was started. *)
Definition notified_for (id : Z) (e : ALARM_ENTRY) : bool :=
  (ae_alarm_id e =? id) && has_flag (ae_flags e) HEALTH_ENTRY_FLAG_EXEC_RUN.

(** [t] is the nearest entry of alarm [id], going to older entries along
    [next], for which the notifier was started. *)
Definition nearest_notified (id : Z) (next : list ALARM_ENTRY)
    (t : ALARM_ENTRY) : Prop :=
  exists newer older,
    next = newer ++ t :: older
    /\ notified_for id t = true
    /\ Forall (fun e => notified_for id e = false) newer.

(** No entry of alarm [id] along [next] had the notifier started. *)
Definition never_notified (id : Z) (next : list ALARM_ENTRY) : Prop :=
  Forall (fun e => notified_for id e = false) next.

(** The test that guards the way to the notifier, on the entry as it came
    in. *)
Definition suppressed (ae : ALARM_ENTRY) (next : list ALARM_ENTRY) : bool :=
  status_ltb (ae_new_status ae) RRDCALC_STATUS_CLEAR
  || (status_leb (ae_new_status ae) RRDCALC_STATUS_CLEAR
      && has_flag (ae_flags ae) HEALTH_ENTRY_FLAG_NO_CLEAR_NOTIFICATION)
  || (negb (has_flag (ae_flags ae) HEALTH_ENTRY_FLAG_NO_CLEAR_NOTIFICATION)
      && match find_exec_run (ae_alarm_id ae) next with
         | Some t => status_eqb (ae_new_status t) (ae_new_status ae)
         | None => status_eqb (ae_new_status ae) RRDCALC_STATUS_CLEAR
         end)
  || has_flag (ae_flags ae) HEALTH_ENTRY_FLAG_SILENCED.

(** The interval [[a, b]] lies within the retention [[first, last]]. *)
Definition window_covered (first last a b : time_t) : bool :=
  (first <=? a) && (b <=? last).

(** The conditions under which section 4.2 of the specification has the
    runnability predicate return false, in its words. *)
Definition listed_not_runnable (has_db_lookup : RRDCALC -> bool)
    (rc : RRDCALC) (now : time_t) : bool :=
  match rc_rrdset rc with
  | None => true
  | Some st =>
      let update_every := st_update_every st in
      (now <? rc_next_update rc)
      || (rc_update_every rc =? 0)
      || rrdset_flag_check st RRDSET_FLAG_OBSOLETE
      || negb (rrdset_flag_check st RRDSET_FLAG_ENABLED)
      || (st_counter_done st <? 2)
      || negb (window_covered (st_first_entry_t st) (st_last_entry_t st)
                 (now - update_every) (now + update_every))
      || (has_db_lookup rc
          && negb (window_covered (st_first_entry_t st) (st_last_entry_t st)
                     (now + rc_after rc - update_every)
                     (now + rc_before rc + update_every)))
  end.

(** The status the decide phase composes for [rc] in a tick: the statuses
    of its warning and critical expressions, composed. *)
Definition composed_status
    (expression_evaluate : EVAL_EXPRESSION -> option calculated_number)
    (rc : RRDCALC) : RRDCALC_STATUS :=
  decide_status
    (snd (evaluate_threshold expression_evaluate RRDCALC_FLAG_WARN_ERROR
            (rc_warning rc) rc))
    (snd (evaluate_threshold expression_evaluate RRDCALC_FLAG_CRIT_ERROR
            (rc_critical rc) rc)).

(** The two bits of [rrdcalc_flags] that evaluating the warning and the
    critical expression writes. *)
Definition threshold_error_flags : Z :=
  Z.lor RRDCALC_FLAG_WARN_ERROR RRDCALC_FLAG_CRIT_ERROR.

(** The flag word [flags] after the threshold expression [e], whose error
    bit is [err], was looked at: as it was when the alarm has no such
    expression, with [err] set when the evaluation failed, with [err]
    cleared when it gave a result. *)
Definition error_flag_after
    (expression_evaluate : EVAL_EXPRESSION -> option calculated_number)
    (err : Z) (e : option EVAL_EXPRESSION) (flags : Z) : Z :=
  match e with
  | None => flags
  | Some ex =>
      match expression_evaluate ex with
      | None => Z.lor flags err
      | Some _ => Z.ldiff flags err
      end
  end.

(** The flag word of [rc] after its warning and then its critical
    expression were looked at. *)
Definition flags_after_thresholds
    (expression_evaluate : EVAL_EXPRESSION -> option calculated_number)
    (rc : RRDCALC) : Z :=
  error_flag_after expression_evaluate RRDCALC_FLAG_CRIT_ERROR
    (rc_critical rc)
    (error_flag_after expression_evaluate RRDCALC_FLAG_WARN_ERROR
       (rc_warning rc) (rc_rrdcalc_flags rc)).

(** The [unique_id] and the new status of the entries for which [mypopen]
    was called, in the order of the calls. *)
Fixpoint notifier_calls (evs : list notifier_event)
  : list (Z * RRDCALC_STATUS) :=
  match evs with
  | [] => []
  | EvPopen cmd _ :: evs' =>
      (ae_unique_id (cmd_entry cmd), ae_new_status (cmd_entry cmd))
      :: notifier_calls evs'
  | _ :: evs' => notifier_calls evs'
  end.

(** The entries of alarm [id] along [chain] for which the notifier was
    started, newest first: their [unique_id] and new status. *)
Definition notified_entries (id : Z) (chain : list ALARM_ENTRY)
  : list (Z * RRDCALC_STATUS) :=
  map (fun e => (ae_unique_id e, ae_new_status e))
    (filter (notified_for id) chain).

(** The entries the dispatch scan visits: those ahead of the first whose
    [unique_id] is below the cursor. *)
Fixpoint scanned (cursor : Z) (chain : list ALARM_ENTRY) : list ALARM_ENTRY :=
  match chain with
  | [] => []
  | ae :: next =>
      if ae_unique_id ae <? cursor then [] else ae :: scanned cursor next
  end.

(** [ae] is not a repeating alarm's entry and is neither processed nor
    updated. *)
Definition waiting (alarm_entry_isrepeating : list RRDCALC -> ALARM_ENTRY -> bool)
    (alarms : list RRDCALC) (ae : ALARM_ENTRY) : bool :=
  negb (alarm_entry_isrepeating alarms ae) && is_pending ae.

(** [id] is the smallest [unique_id] among the entries of [chain] that are
    pending. *)
Definition smallest_pending_id (chain : list ALARM_ENTRY) (id : Z) : Prop :=
  (exists ae, In ae chain /\ is_pending ae = true /\ ae_unique_id ae = id)
  /\ forall ae, In ae chain -> is_pending ae = true -> id <= ae_unique_id ae.

(** The calls of the free routine the eviction makes for an entry. *)
Definition eviction_frees
    (alarm_entry_isrepeating : list RRDCALC -> ALARM_ENTRY -> bool)
    (alarms : list RRDCALC) (ae : ALARM_ENTRY) : list ALARM_ENTRY :=
  if alarm_entry_isrepeating alarms ae then [ae] else [ae; ae].

(** The clear-first law on a log: of the entries of an alarm for which
    the notifier was started, the oldest is not a clear entry. *)
Definition clear_first_law (chain : list ALARM_ENTRY) : Prop :=
  forall id newer t older,
    chain = newer ++ t :: older ->
    notified_for id t = true ->
    never_notified id older ->
    ae_new_status t <> RRDCALC_STATUS_CLEAR.

(** What the dispatcher keeps of an entry for the law: its new status, and
    that it is notified if it was. *)
Definition grows (e e' : ALARM_ENTRY) : Prop :=
  ae_new_status e' = ae_new_status e
  /\ forall id, notified_for id e = true -> notified_for id e' = true.

(** ** Sample data *)

Definition sample_entry (unique_id alarm_id : Z) (new_status : RRDCALC_STATUS)
    (flags : Z) (delay_up_to_timestamp : time_t) : ALARM_ENTRY :=
  {| ae_unique_id := unique_id; ae_alarm_id := alarm_id;
     ae_alarm_event_id := unique_id; ae_when := 0; ae_duration := 0;
     ae_name := Some "cpu.user"%string; ae_chart := Some "system.cpu"%string;
     ae_family := None; ae_exec := None; ae_recipient := None;
     ae_source := None; ae_units := None; ae_info := None;
     ae_old_value := S754_nan; ae_new_value := S754_zero false;
     ae_old_status := RRDCALC_STATUS_UNINITIALIZED;
     ae_new_status := new_status; ae_delay := 0;
     ae_delay_up_to_timestamp := delay_up_to_timestamp;
     ae_last_repeat := 0; ae_flags := flags; ae_exec_code := 0;
     ae_exec_run_timestamp := 0 |}.

Definition sample_host (cursor count max : Z) (chain : list ALARM_ENTRY)
    (alarms : list RRDCALC) : RRDHOST :=
  {| host_hostname := Some "localhost"%string;
     host_registry_hostname := "localhost";
     host_health_default_exec := "alarm-notify.sh";
     host_health_default_recipient := "root";
     host_health_last_processed_id := cursor;
     host_health_log :=
       {| log_next_log_id := count + 1; log_count := count; log_max := max;
          log_alarms := chain |};
     host_alarms := alarms |}.

(** A notifier that always starts and exits with 0, and one that never
    starts. *)
Definition notifier_ok (_ : NOTIFIER_COMMAND) : option Z := Some 0.
Definition notifier_unspawned (_ : NOTIFIER_COMMAND) : option Z := None.

(** An alarm's warning entry (id 2) behind which lies a notified clear
    entry of the same alarm (id 1). *)
Definition c2_older : ALARM_ENTRY :=
  sample_entry 1 7 RRDCALC_STATUS_CLEAR HEALTH_ENTRY_FLAG_EXEC_RUN 0.

Definition c2_entry : ALARM_ENTRY :=
  sample_entry 2 7 RRDCALC_STATUS_WARNING 0 0.

Definition c2_host : RRDHOST := sample_host 0 2 100 [c2_entry; c2_older] [].

(** A log of alarm 7 in which three changes of status waited out their
    delays behind a notified clear entry (id 2): warning (id 3, delayed
    until 70), clear (id 4, until 80) and warning again (id 5, until 90). *)
Definition c2_scan_host : RRDHOST :=
  sample_host 0 4 100
    [sample_entry 5 7 RRDCALC_STATUS_WARNING 0 90;
     sample_entry 4 7 RRDCALC_STATUS_CLEAR 0 80;
     sample_entry 3 7 RRDCALC_STATUS_WARNING 0 70;
     sample_entry 2 7 RRDCALC_STATUS_CLEAR
       (Z.lor HEALTH_ENTRY_FLAG_PROCESSED HEALTH_ENTRY_FLAG_EXEC_RUN) 0]
    [].

(** The first two entries of an alarm: warning (id 1), then clear
    (id 2). *)
Definition c2_first_warning : ALARM_ENTRY :=
  sample_entry 1 7 RRDCALC_STATUS_WARNING 0 0.

Definition c2_then_clear : ALARM_ENTRY :=
  sample_entry 2 7 RRDCALC_STATUS_CLEAR 0 0.

(** A chart, enabled and collected, that retains [[first, last]]. *)
Definition sample_chart (first last : time_t) : RRDSET :=
  {| st_id := "system.cpu"; st_context := Some "system.cpu"%string;
     st_family := Some "cpu"%string; st_flags := RRDSET_FLAG_ENABLED;
     st_last_collected_time_tv_sec := 1000; st_counter_done := 5;
     st_update_every := 1; st_first_entry_t := first;
     st_last_entry_t := last |}.

Definition sample_expression : EVAL_EXPRESSION :=
  {| expr_source := Some "$this > 10"%string; expr_error_msg := None;
     expr_parsed_as := "($this > 10)" |}.

(** An alarm with id 7, no database lookup window and an update frequency
    of one second. *)
Definition sample_alarm (chart : option RRDSET)
    (status old_status : RRDCALC_STATUS) (next_update : time_t) (flags : Z)
    (repeat_every : Z) (last_repeat : time_t) : RRDCALC :=
  {| rc_id := 7; rc_next_event_id := 3; rc_name := Some "cpu.user"%string;
     rc_chart := Some "system.cpu"%string; rc_exec := None;
     rc_recipient := None; rc_source := None; rc_units := None;
     rc_info := None; rc_rrdset := chart; rc_after := 0; rc_before := 0;
     rc_update_every := 1; rc_value := S754_zero false;
     rc_old_value := S754_zero false; rc_calculation := None;
     rc_warning := Some sample_expression; rc_critical := None;
     rc_options := 0; rc_delay_up_duration := 0; rc_delay_down_duration := 0;
     rc_delay_multiplier := S754_finite false 1 0;
     rc_delay_max_duration := 0; rc_warn_repeat_every := repeat_every;
     rc_crit_repeat_every := repeat_every; rc_rrdcalc_flags := flags;
     rc_status := status; rc_old_status := old_status;
     rc_last_status_change := 0; rc_last_updated := 0;
     rc_next_update := next_update; rc_delay_up_current := 0;
     rc_delay_down_current := 0; rc_delay_last := 0;
     rc_delay_up_to_timestamp := 0; rc_last_repeat := last_repeat |}.

Definition no_db_lookup (_ : RRDCALC) : bool := false.

(** A pattern matcher under which every pattern matches every text. *)
Definition match_any (_ : SIMPLE_PATTERN) (_ : string) : bool := true.

(** An alarm not linked to a chart and a silencer that names a context. *)
Definition c10_alarm : RRDCALC :=
  sample_alarm None RRDCALC_STATUS_CLEAR RRDCALC_STATUS_UNINITIALIZED 0 0 0 0.

Definition c10_silencer : SILENCER :=
  {| s_alarms_pattern := None; s_charts_pattern := None;
     s_contexts_pattern := Some "system.*"%string; s_hosts_pattern := None;
     s_families_pattern := None |}.

(** At 1000 the chart retains [[0, 10]]: nothing at or after 11. *)
Definition c5_alarm : RRDCALC :=
  sample_alarm (Some (sample_chart 0 10)) RRDCALC_STATUS_CLEAR
    RRDCALC_STATUS_UNINITIALIZED 0 0 0 0.

(** An alarm without a chart, due at 50. *)
Definition c5_unlinked : RRDCALC :=
  sample_alarm None RRDCALC_STATUS_CLEAR RRDCALC_STATUS_UNINITIALIZED 50 0 0 0.

(** An evaluator under which every expression gives zero. *)
Definition evaluate_to_zero (_ : EVAL_EXPRESSION) : option calculated_number :=
  Some (S754_zero false).

(** An evaluator under which every expression fails. *)
Definition evaluate_fails (_ : EVAL_EXPRESSION) : option calculated_number :=
  None.

Definition repeats_if_configured (rc : RRDCALC) : bool :=
  (0 <? rc_warn_repeat_every rc) || (0 <? rc_crit_repeat_every rc).

Definition truncate_delay (d : Z) (_ : calculated_number) : Z := d.

(** A runnable alarm that is clear and whose warning expression gives
    zero. *)
Definition c8_alarm : RRDCALC :=
  sample_alarm (Some (sample_chart 0 2000)) RRDCALC_STATUS_CLEAR
    RRDCALC_STATUS_UNINITIALIZED 0 RRDCALC_FLAG_RUNNABLE 0 0.

(** A runnable alarm whose status is undefined, with a warning expression
    and no critical one; its flag word is [0x40]. *)
Definition c8_undefined : RRDCALC :=
  sample_alarm (Some (sample_chart 0 2000)) RRDCALC_STATUS_UNDEFINED
    RRDCALC_STATUS_UNINITIALIZED 0 RRDCALC_FLAG_RUNNABLE 0 0.

Definition c8_log : ALARM_LOG :=
  {| log_next_log_id := 1; log_count := 0; log_max := 100; log_alarms := [] |}.

(** An alarm that went from clear to warning and repeats every 60
    seconds. *)
Definition c6_chart : RRDSET := sample_chart 0 2000.

Definition c6_alarm : RRDCALC :=
  sample_alarm (Some c6_chart) RRDCALC_STATUS_WARNING RRDCALC_STATUS_CLEAR 0
    RRDCALC_FLAG_RUNNABLE 60 0.

Definition c6_host (rc : RRDCALC) : RRDHOST := sample_host 0 0 100 [] [rc].

(** The same alarm with [2 ^ 31] stored as its repeat interval. *)
Definition c6_alarm_beyond_int : RRDCALC :=
  sample_alarm (Some c6_chart) RRDCALC_STATUS_WARNING RRDCALC_STATUS_CLEAR 0
    RRDCALC_FLAG_RUNNABLE (2 ^ 31) 0.

Definition never_repeating (_ : list RRDCALC) (_ : ALARM_ENTRY) : bool :=
  false.

(** The entries of alarm 9 stand for a repeating alarm. *)
Definition alarm_9_repeating (_ : list RRDCALC) (ae : ALARM_ENTRY) : bool :=
  ae_alarm_id ae =? 9.

(** A log of four processed entries, ids 4 down to 1, with [max] 3. *)
Definition c1_host : RRDHOST :=
  sample_host 0 4 3
    [sample_entry 4 7 RRDCALC_STATUS_CLEAR HEALTH_ENTRY_FLAG_PROCESSED 0;
     sample_entry 3 7 RRDCALC_STATUS_WARNING HEALTH_ENTRY_FLAG_PROCESSED 0;
     sample_entry 2 7 RRDCALC_STATUS_CLEAR HEALTH_ENTRY_FLAG_PROCESSED 0;
     sample_entry 1 7 RRDCALC_STATUS_WARNING HEALTH_ENTRY_FLAG_PROCESSED 0]
    [].

(** The same log with the oldest entry an entry of alarm 9. *)
Definition c1_host_repeating : RRDHOST :=
  sample_host 0 4 3
    [sample_entry 4 7 RRDCALC_STATUS_CLEAR HEALTH_ENTRY_FLAG_PROCESSED 0;
     sample_entry 3 7 RRDCALC_STATUS_WARNING HEALTH_ENTRY_FLAG_PROCESSED 0;
     sample_entry 2 7 RRDCALC_STATUS_CLEAR HEALTH_ENTRY_FLAG_PROCESSED 0;
     sample_entry 1 9 RRDCALC_STATUS_WARNING HEALTH_ENTRY_FLAG_PROCESSED 0]
    [].

(** A log of two pending entries: the newer one (id 3) is delayed until
    5000, the older one (id 2, of another alarm) is due. *)
Definition c4_host : RRDHOST :=
  sample_host 1 2 100
    [sample_entry 3 7 RRDCALC_STATUS_WARNING 0 5000;
     sample_entry 2 8 RRDCALC_STATUS_WARNING 0 0]
    [].

(** ** More predicates and sample data *)

(** [rc] counts for the notifier's [n_warn] or [n_crit]: its chart is
    linked and has been collected, and its status is [s]. *)
Definition collected_with (s : RRDCALC_STATUS) (rc : RRDCALC) : bool :=
  match rc_rrdset rc with
  | Some st =>
      negb (st_last_collected_time_tv_sec st =? 0)
      && status_eqb (rc_status rc) s
  | None => false
  end.

(** A notifier that starts and exits with 1. *)
Definition notifier_failing (_ : NOTIFIER_COMMAND) : option Z := Some 1.

(** A warning entry that carries no-clear-notification, behind which lies
    a notified warning entry of the same alarm. *)
Definition x_no_clear_entry : ALARM_ENTRY :=
  sample_entry 2 7 RRDCALC_STATUS_WARNING
    HEALTH_ENTRY_FLAG_NO_CLEAR_NOTIFICATION 0.

Definition x_notified_warning : ALARM_ENTRY :=
  sample_entry 1 7 RRDCALC_STATUS_WARNING HEALTH_ENTRY_FLAG_EXEC_RUN 0.

(** A silenced critical entry. *)
Definition x_silenced_entry : ALARM_ENTRY :=
  sample_entry 2 7 RRDCALC_STATUS_CRITICAL HEALTH_ENTRY_FLAG_SILENCED 0.

(** A log of two processed entries with [max] 1. *)
Definition x_small_max_host : RRDHOST :=
  sample_host 0 2 1
    [sample_entry 2 7 RRDCALC_STATUS_CLEAR HEALTH_ENTRY_FLAG_PROCESSED 0;
     sample_entry 1 7 RRDCALC_STATUS_WARNING HEALTH_ENTRY_FLAG_PROCESSED 0]
    [].

(** A host with an empty log. *)
Definition x_empty_host : RRDHOST := sample_host 0 0 100 [] [].

(** The silence type that [update_disabled_silenced] applies to an alarm:
    the global one when [all_alarms] is set, else the one of the first
    matching silencer. *)
Definition effective_stype
    (simple_pattern_matches : SIMPLE_PATTERN -> string -> bool)
    (sl : SILENCERS) (host : RRDHOST) (rc : RRDCALC) : SILENCE_TYPE :=
  if all_alarms sl then stype sl
  else check_silenced simple_pattern_matches rc (host_hostname host) sl.

Definition disabled_or_silenced : Z :=
  Z.lor RRDCALC_FLAG_DISABLED RRDCALC_FLAG_SILENCED.

(** The entry the decide phase makes for [rc] when its status becomes
    [status] at [now], with the delay [delay] (health.c:843). *)
Definition transition_entry (now : time_t) (status : RRDCALC_STATUS)
    (delay : Z) (st : RRDSET) (rc : RRDCALC) : ALARM_ENTRY :=
  health_create_alarm_entry (rc_id rc) (rc_next_event_id rc) now (rc_name rc)
    (Some (st_id st)) (st_family st) (rc_exec rc) (rc_recipient rc)
    (now - rc_last_status_change rc) (rc_old_value rc) (rc_value rc)
    (rc_status rc) status (rc_source rc) (rc_units rc) (rc_info rc) delay
    (entry_flags_of rc).

(** A runnable, silenced alarm that is clear. *)
Definition x_silenced_alarm : RRDCALC :=
  sample_alarm (Some (sample_chart 0 2000)) RRDCALC_STATUS_CLEAR
    RRDCALC_STATUS_UNINITIALIZED 0
    (Z.lor RRDCALC_FLAG_RUNNABLE RRDCALC_FLAG_SILENCED) 0 0.

Definition never_repeats (_ : RRDCALC) : bool := false.
Definition always_repeats (_ : RRDCALC) : bool := true.

(** ** More of health.c *)

(** *** [check_if_resumed_from_suspention] (health.c:440)

    [usec_t] is declared in a header that is not among the sources; it is
    taken to be the unsigned 64-bit count of microseconds, so its
    arithmetic is reduced with [uint64]. *)

Definition uint64 (z : Z) : Z := z mod 2 ^ 64.

(** The static variables of the function. *)
Record SUSPENSION_SAMPLES : Set := {
  last_realtime : Z;
  last_monotonic : Z
}.

(** The samples at the first call. *)
Definition no_samples : SUSPENSION_SAMPLES :=
  {| last_realtime := 0; last_monotonic := 0 |}.

(** [realtime] and [monotonic] are what [now_realtime_usec()] and
    [now_monotonic_usec()] return; the result and the samples after the
    call. *)
Definition check_if_resumed_from_suspention (s : SUSPENSION_SAMPLES)
    (realtime monotonic : Z) : bool * SUSPENSION_SAMPLES :=
  (negb (last_realtime s =? 0) && negb (last_monotonic s =? 0)
   && (uint64 (2 * uint64 (monotonic - last_monotonic s))
       <? uint64 (realtime - last_realtime s)),
   {| last_realtime := realtime; last_monotonic := monotonic |}).

(** *** [health_reload_host] (health.c:100), on the alarm log

    The loop of health.c:120 that invalidates the entries of the log. *)
Fixpoint health_reload_host_log (chain : list ALARM_ENTRY)
  : list ALARM_ENTRY :=
  match chain with
  | [] => []
  | t :: next =>
      (if status_eqb (ae_new_status t) RRDCALC_STATUS_REMOVED then t
       else ae_or_flag HEALTH_ENTRY_FLAG_UPDATED t)
      :: health_reload_host_log next
  end.

(** *** [health_main] (health.c:546), for a host in the loop over hosts *)

(** health.c:585 to health.c:602: whether the alarms of the host are
    examined in this iteration, and [host->health_delay_up_to] after it. *)
Definition health_postpone (health_enabled apply_hibernation_delay : bool)
    (now hibernation_delay health_delay_up_to : time_t) : bool * time_t :=
  if negb health_enabled then (false, health_delay_up_to)
  else
    let health_delay_up_to :=
      if apply_hibernation_delay then now + hibernation_delay
      else health_delay_up_to in
    if negb (health_delay_up_to =? 0) then
      if now <? health_delay_up_to then (false, health_delay_up_to)
      else (true, 0)
    else (true, health_delay_up_to).

Definition set_rc_values (value old_value : calculated_number) (rc : RRDCALC)
  : RRDCALC :=
  {| rc_id := rc_id rc; rc_next_event_id := rc_next_event_id rc;
     rc_name := rc_name rc; rc_chart := rc_chart rc; rc_exec := rc_exec rc;
     rc_recipient := rc_recipient rc; rc_source := rc_source rc;
     rc_units := rc_units rc; rc_info := rc_info rc;
     rc_rrdset := rc_rrdset rc; rc_after := rc_after rc;
     rc_before := rc_before rc; rc_update_every := rc_update_every rc;
     rc_value := value; rc_old_value := old_value;
     rc_calculation := rc_calculation rc; rc_warning := rc_warning rc;
     rc_critical := rc_critical rc; rc_options := rc_options rc;
     rc_delay_up_duration := rc_delay_up_duration rc;
     rc_delay_down_duration := rc_delay_down_duration rc;
     rc_delay_multiplier := rc_delay_multiplier rc;
     rc_delay_max_duration := rc_delay_max_duration rc;
     rc_warn_repeat_every := rc_warn_repeat_every rc;
     rc_crit_repeat_every := rc_crit_repeat_every rc;
     rc_rrdcalc_flags := rc_rrdcalc_flags rc; rc_status := rc_status rc;
     rc_old_status := rc_old_status rc;
     rc_last_status_change := rc_last_status_change rc;
     rc_last_updated := rc_last_updated rc;
     rc_next_update := rc_next_update rc;
     rc_delay_up_current := rc_delay_up_current rc;
     rc_delay_down_current := rc_delay_down_current rc;
     rc_delay_last := rc_delay_last rc;
     rc_delay_up_to_timestamp := rc_delay_up_to_timestamp rc;
     rc_last_repeat := rc_last_repeat rc |}.

Definition NAN : calculated_number := S754_nan.

Section Lookup.

Variable expression_evaluate : EVAL_EXPRESSION -> option calculated_number.
Variable simple_pattern_matches : SIMPLE_PATTERN -> string -> bool.
Variable RRDCALC_HAS_DB_LOOKUP : RRDCALC -> bool.

(** [rrdset2value_api_v1] for the alarm's lookup: what it returns, the
    value it stores and [value_is_null].  The bounds [db_after] and
    [db_before] it also stores are read nowhere in health.c and have no
    field in [RRDCALC]. *)
Variable rrdset2value_api_v1 : RRDCALC -> Z * calculated_number * bool.

(** health.c:625: the database lookup of a runnable alarm. *)
Definition database_lookup (rc : RRDCALC) : RRDCALC :=
  if RRDCALC_HAS_DB_LOOKUP rc then
    let '(ret, value, value_is_null) := rrdset2value_api_v1 rc in
    let rc := set_rc_values value (rc_old_value rc) rc in
    let rc :=
      if negb (ret =? 200) then
        set_rc_rrdcalc_flags
          (Z.lor (rc_rrdcalc_flags rc) RRDCALC_FLAG_DB_ERROR)
          (set_rc_values NAN (rc_old_value rc) rc)
      else
        set_rc_rrdcalc_flags
          (Z.ldiff (rc_rrdcalc_flags rc) RRDCALC_FLAG_DB_ERROR) rc in
    if value_is_null then
      set_rc_rrdcalc_flags (Z.lor (rc_rrdcalc_flags rc) RRDCALC_FLAG_DB_NAN)
        (set_rc_values NAN (rc_old_value rc) rc)
    else
      set_rc_rrdcalc_flags (Z.ldiff (rc_rrdcalc_flags rc) RRDCALC_FLAG_DB_NAN)
        rc
  else rc.

(** health.c:681: the calculation expression of a runnable alarm.  The
    [last_updated] of the alarm's variables, set on success, has no field
    in [RRDCALC]. *)
Definition calculation (rc : RRDCALC) : RRDCALC :=
  match rc_calculation rc with
  | None => rc
  | Some e =>
      match expression_evaluate e with
      | None =>
          set_rc_rrdcalc_flags
            (Z.lor (rc_rrdcalc_flags rc) RRDCALC_FLAG_CALC_ERROR)
            (set_rc_values NAN (rc_old_value rc) rc)
      | Some result =>
          set_rc_values result (rc_old_value rc)
            (set_rc_rrdcalc_flags
               (Z.ldiff (rc_rrdcalc_flags rc) RRDCALC_FLAG_CALC_ERROR) rc)
      end
  end.

(** One round of the first loop of [health_main], health.c:607: the alarm
    after it, whether it was counted in [runnable], and [next_run]. *)
Definition health_lookup_alarm (sl : SILENCERS) (host : RRDHOST)
    (now next_run : time_t) (rc : RRDCALC) : RRDCALC * bool * time_t :=
  let '(rc, disabled) :=
    update_disabled_silenced simple_pattern_matches sl host rc in
  if disabled then (rc, false, next_run)
  else
    let '(runs, next_run) :=
      rrdcalc_isrunnable RRDCALC_HAS_DB_LOOKUP rc now next_run in
    if negb runs then
      (if has_flag (rc_rrdcalc_flags rc) RRDCALC_FLAG_RUNNABLE
       then set_rc_rrdcalc_flags
              (Z.ldiff (rc_rrdcalc_flags rc) RRDCALC_FLAG_RUNNABLE) rc
       else rc,
       false, next_run)
    else
      let rc := set_rc_values (rc_value rc) (rc_value rc) rc in
      let rc :=
        set_rc_rrdcalc_flags
          (Z.lor (rc_rrdcalc_flags rc) RRDCALC_FLAG_RUNNABLE) rc in
      (calculation (database_lookup rc), true, next_run).

(** The first loop of [health_main] over the alarms from the head of [l]
    on: the alarms, [runnable] and [next_run] after it. *)
Fixpoint health_lookup (sl : SILENCERS) (host : RRDHOST) (now : time_t)
    (runnable : Z) (next_run : time_t) (l : list RRDCALC)
  : list RRDCALC * Z * time_t :=
  match l with
  | [] => ([], runnable, next_run)
  | rc :: l' =>
      let '(rc', counted, next_run') :=
        health_lookup_alarm sl host now next_run rc in
      let '(l'', runnable', next_run'') :=
        health_lookup sl host now
          (if counted then runnable + 1 else runnable) next_run' l' in
      (rc' :: l'', runnable', next_run'')
  end.

End Lookup.

(** The test at the head of the decide loop (health.c:717): the alarm is
    flagged runnable and is not disabled. *)
Definition decide_gate (rc : RRDCALC) : bool :=
  has_flag (rc_rrdcalc_flags rc) RRDCALC_FLAG_RUNNABLE
  && negb (has_flag (rc_rrdcalc_flags rc) RRDCALC_FLAG_DISABLED).

(** Clocks one second apart, and a wall clock that went an hour ahead of
    the monotonic one. *)
Definition x_samples : SUSPENSION_SAMPLES :=
  {| last_realtime := 1000000000; last_monotonic := 5000000 |}.

(** A lookup that succeeds with the value 5. *)
Definition lookup_five (_ : RRDCALC) : Z * calculated_number * bool :=
  (200, S754_finite false 5 0, false).

(** A lookup that fails. *)
Definition lookup_failed (_ : RRDCALC) : Z * calculated_number * bool :=
  (404, S754_finite false 5 0, false).

Definition always_db_lookup (_ : RRDCALC) : bool := true.

Definition no_silencers : SILENCERS :=
  {| all_alarms := false; stype := STYPE_NONE; silencers := [] |}.

(** An alarm with no calculation, with the value 3, on a chart that retains
    [[0, 2000]]. *)
Definition x_lookup_alarm : RRDCALC :=
  set_rc_values (S754_finite false 3 0) (S754_zero false)
    (sample_alarm (Some (sample_chart 0 2000)) RRDCALC_STATUS_CLEAR
       RRDCALC_STATUS_UNINITIALIZED 0 0 0 0).

(** * Properties *)

(** ** Flag words *)

Lemma has_flag_lor_disjoint (f m m' : Z) :
  Z.land m m' = 0 -> has_flag (Z.lor f m) m' = has_flag f m'.
Proof.
  intros H. unfold has_flag.
  now rewrite Z.land_lor_distr_l, H, Z.lor_0_r.
Qed.

Lemma has_flag_lor_same (f m : Z) :
  m <> 0 -> has_flag (Z.lor f m) m = true.
Proof.
  intros Hm. unfold has_flag.
  rewrite Z.land_lor_distr_l, Z.land_diag.
  apply negb_true_iff, Z.eqb_neq. intros H.
  apply Z.lor_eq_0_iff in H. tauto.
Qed.

Lemma land_ldiff_within (f m M : Z) :
  Z.ldiff m M = 0 -> Z.land (Z.ldiff f M) m = 0.
Proof.
  intros H. apply Z.bits_inj'. intros n Hn.
  apply (f_equal (fun z => Z.testbit z n)) in H.
  rewrite Z.bits_0 in *. rewrite Z.land_spec, Z.ldiff_spec.
  rewrite Z.ldiff_spec in H.
  destruct (Z.testbit f n), (Z.testbit m n), (Z.testbit M n);
    simpl in *; congruence.
Qed.

Lemma has_flag_ldiff_within (f m M : Z) :
  Z.ldiff m M = 0 -> has_flag (Z.ldiff f M) m = false.
Proof.
  intros H. unfold has_flag. now rewrite land_ldiff_within.
Qed.

Lemma has_flag_ldiff_disjoint (f m m' : Z) :
  Z.land m m' = 0 -> has_flag (Z.ldiff f m) m' = has_flag f m'.
Proof.
  intros H. unfold has_flag. f_equal. f_equal.
  apply Z.bits_inj'. intros n Hn.
  apply (f_equal (fun z => Z.testbit z n)) in H.
  rewrite Z.bits_0 in H. rewrite !Z.land_spec, Z.ldiff_spec in *.
  destruct (Z.testbit f n), (Z.testbit m n), (Z.testbit m' n);
    simpl in *; congruence.
Qed.

(** ** The search for the previous notification *)

Lemma find_exec_run_Some (id : Z) (next : list ALARM_ENTRY) (t : ALARM_ENTRY) :
  find_exec_run id next = Some t <-> nearest_notified id next t.
Proof.
  unfold nearest_notified. induction next as [|e next IH]; simpl.
  - split; [discriminate|]. intros (newer & older & H & _).
    destruct newer; discriminate.
  - fold (notified_for id e). destruct (notified_for id e) eqn:He.
    + split.
      * intros [= <-]. exists [], next. auto.
      * intros (newer & older & H & Ht & Hn).
        destruct newer as [|e' newer]; simpl in H; injection H as <- H.
        -- reflexivity.
        -- inversion Hn; congruence.
    + rewrite IH. split.
      * intros (newer & older & -> & Ht & Hn).
        exists (e :: newer), older. auto.
      * intros (newer & older & H & Ht & Hn).
        destruct newer as [|e' newer]; simpl in H; injection H as <- H.
        -- congruence.
        -- exists newer, older. inversion Hn; auto.
Qed.

Lemma find_exec_run_None (id : Z) (next : list ALARM_ENTRY) :
  find_exec_run id next = None <-> never_notified id next.
Proof.
  unfold never_notified. induction next as [|e next IH]; simpl.
  - split; auto.
  - fold (notified_for id e). destruct (notified_for id e) eqn:He.
    + split; [discriminate|]. intros H. inversion H; congruence.
    + rewrite IH. split; intros H; [auto | now inversion H].
Qed.

Lemma nearest_not_never {id : Z} {next : list ALARM_ENTRY} {t : ALARM_ENTRY} :
  nearest_notified id next t -> never_notified id next -> False.
Proof.
  intros Hn Hv. apply find_exec_run_Some in Hn.
  apply find_exec_run_None in Hv. congruence.
Qed.

Lemma nearest_notified_unique {id : Z} {next : list ALARM_ENTRY}
    {t t' : ALARM_ENTRY} :
  nearest_notified id next t -> nearest_notified id next t' -> t = t'.
Proof.
  intros H H'. apply find_exec_run_Some in H, H'. congruence.
Qed.

(** ** Statuses *)

Lemma status_int_inj (a b : RRDCALC_STATUS) :
  status_int a = status_int b -> a = b.
Proof. destruct a, b; simpl; intros H; try reflexivity; discriminate. Qed.

Lemma status_eqb_eq (a b : RRDCALC_STATUS) : status_eqb a b = true <-> a = b.
Proof.
  unfold status_eqb. rewrite Z.eqb_eq. split.
  - apply status_int_inj.
  - now intros ->.
Qed.

Lemma status_eqb_neq (a b : RRDCALC_STATUS) : status_eqb a b = false <-> a <> b.
Proof.
  rewrite <- status_eqb_eq. destruct (status_eqb a b); split; congruence.
Qed.

(** ** The dispatcher *)

Section Dispatcher.

Variable run_notifier : NOTIFIER_COMMAND -> option Z.
Variable host : RRDHOST.
Variable clock : time_t.

Ltac entry_fields :=
  cbn [ae_or_flag set_ae_flags set_ae_exec_run_timestamp
       set_ae_exec_code ae_flags ae_new_status ae_alarm_id ae_exec_code
       ae_exec_run_timestamp ae_unique_id fst snd].

Lemma processed_flag (ae : ALARM_ENTRY) (m : Z) :
  Z.land HEALTH_ENTRY_FLAG_PROCESSED m = 0 ->
  has_flag (ae_flags (ae_or_flag HEALTH_ENTRY_FLAG_PROCESSED ae)) m
  = has_flag (ae_flags ae) m.
Proof. intros H. entry_fields. now apply has_flag_lor_disjoint. Qed.

(** A suppressed entry is marked processed and persisted, nothing else. *)
Lemma execute_suppressed (ae : ALARM_ENTRY) (next : list ALARM_ENTRY) :
  suppressed ae next = true ->
  health_alarm_execute run_notifier host clock ae next
  = (ae_or_flag HEALTH_ENTRY_FLAG_PROCESSED ae,
     [EvSave (ae_or_flag HEALTH_ENTRY_FLAG_PROCESSED ae)]).
Proof.
  unfold suppressed, health_alarm_execute.
  rewrite !processed_flag by reflexivity.
  change (ae_new_status (ae_or_flag HEALTH_ENTRY_FLAG_PROCESSED ae))
    with (ae_new_status ae).
  change (ae_alarm_id (ae_or_flag HEALTH_ENTRY_FLAG_PROCESSED ae))
    with (ae_alarm_id ae).
  intros H.
  destruct (status_ltb (ae_new_status ae) RRDCALC_STATUS_CLEAR);
    [reflexivity|].
  destruct (status_leb (ae_new_status ae) RRDCALC_STATUS_CLEAR
            && has_flag (ae_flags ae) HEALTH_ENTRY_FLAG_NO_CLEAR_NOTIFICATION);
    [reflexivity|].
  simpl in H.
  match goal with
  | |- (if ?c then _ else _) = _ => destruct c; [reflexivity|]
  end.
  simpl in H. rewrite H. reflexivity.
Qed.

(** An entry that is not suppressed has the notifier started; the entry is
    marked exec-run and stamped before the outcome is known. *)
Lemma execute_not_suppressed (ae : ALARM_ENTRY) (next : list ALARM_ENTRY) :
  suppressed ae next = false ->
  let cmd :=
    build_command host (ae_or_flag HEALTH_ENTRY_FLAG_PROCESSED ae) in
  let started :=
    set_ae_exec_run_timestamp clock
      (ae_or_flag HEALTH_ENTRY_FLAG_EXEC_RUN
         (ae_or_flag HEALTH_ENTRY_FLAG_PROCESSED ae)) in
  health_alarm_execute run_notifier host clock ae next
  = match run_notifier cmd with
    | None => (started, [EvPopen cmd None; EvSave started])
    | Some code =>
        let ended :=
          if code =? 0 then set_ae_exec_code code started
          else ae_or_flag HEALTH_ENTRY_FLAG_EXEC_FAILED
                 (set_ae_exec_code code started) in
        (ended, [EvPopen cmd (Some code); EvSave ended])
    end.
Proof.
  unfold suppressed, health_alarm_execute.
  rewrite !processed_flag by reflexivity.
  change (ae_new_status (ae_or_flag HEALTH_ENTRY_FLAG_PROCESSED ae))
    with (ae_new_status ae).
  change (ae_alarm_id (ae_or_flag HEALTH_ENTRY_FLAG_PROCESSED ae))
    with (ae_alarm_id ae).
  intros H. apply orb_false_iff in H as [H Hs].
  apply orb_false_iff in H as [H Hf].
  apply orb_false_iff in H as [Hl Hc].
  rewrite Hl, Hc, Hf, Hs.
  destruct (run_notifier _); reflexivity.
Qed.

Lemma notifier_called_iff (ae : ALARM_ENTRY) (next : list ALARM_ENTRY) :
  notifier_called (snd (health_alarm_execute run_notifier host clock ae next))
  = negb (suppressed ae next).
Proof.
  destruct (suppressed ae next) eqn:H.
  - now rewrite execute_suppressed.
  - rewrite execute_not_suppressed by assumption.
    destruct (run_notifier _); reflexivity.
Qed.

End Dispatcher.

(** C2, as the code has it.  For an entry whose new status is clear or
    above, that carries no no-clear-notification flag and is not silenced,
    the dispatcher starts the notifier (calls [mypopen], whether or not a
    process is then spawned) if and only if the nearest older entry of the
    same alarm with exec-run set has a different new status, or there is no
    such entry and the new status is not clear.  Both laws hold of one
    dispatch, against the chain behind the entry: an entry for which the
    notifier is started with no entry of the alarm with exec-run set behind
    it is not a clear entry, and an entry for which the notifier is started
    does not have the new status of the nearest entry of the alarm with
    exec-run set behind it.  The entry for which the notifier is started
    leaves the dispatcher with exec-run set.  Nothing is said of the newer
    entries of the alarm, which a scan dispatches first. *)
Theorem dispatcher_notifies_iff
    (run_notifier : NOTIFIER_COMMAND -> option Z) (host : RRDHOST)
    (clock : time_t) (ae : ALARM_ENTRY) (next : list ALARM_ENTRY) :
  status_leb RRDCALC_STATUS_CLEAR (ae_new_status ae) = true ->
  has_flag (ae_flags ae) HEALTH_ENTRY_FLAG_NO_CLEAR_NOTIFICATION = false ->
  has_flag (ae_flags ae) HEALTH_ENTRY_FLAG_SILENCED = false ->
  let called :=
    notifier_called
      (snd (health_alarm_execute run_notifier host clock ae next)) in
  (called = true <->
     (exists t, nearest_notified (ae_alarm_id ae) next t
                /\ ae_new_status t <> ae_new_status ae)
     \/ (never_notified (ae_alarm_id ae) next
         /\ ae_new_status ae <> RRDCALC_STATUS_CLEAR))
  /\ (called = true -> never_notified (ae_alarm_id ae) next ->
      ae_new_status ae <> RRDCALC_STATUS_CLEAR)
  /\ (called = true ->
      forall t, nearest_notified (ae_alarm_id ae) next t ->
                ae_new_status t <> ae_new_status ae)
  /\ (called = true ->
      has_flag
        (ae_flags (fst (health_alarm_execute run_notifier host clock ae
                          next)))
        HEALTH_ENTRY_FLAG_EXEC_RUN = true).
Proof.
  intros Hge Hnc Hsil called.
  assert (Hrun : called = true ->
                 has_flag
                   (ae_flags
                      (fst (health_alarm_execute run_notifier host clock ae
                              next)))
                   HEALTH_ENTRY_FLAG_EXEC_RUN = true).
  { subst called. rewrite notifier_called_iff.
    destruct (suppressed ae next) eqn:Hs; [discriminate|]. intros _.
    rewrite execute_not_suppressed by assumption.
    assert (Hset : forall f,
              has_flag (Z.lor f HEALTH_ENTRY_FLAG_EXEC_RUN)
                HEALTH_ENTRY_FLAG_EXEC_RUN = true).
    { intros f. apply has_flag_lor_same. discriminate. }
    destruct (run_notifier _) as [code|]; [destruct (code =? 0)|];
      cbn [fst set_ae_exec_run_timestamp set_ae_exec_code ae_or_flag
           set_ae_flags ae_flags];
      rewrite ?has_flag_lor_disjoint by reflexivity; apply Hset. }
  assert (Hlt : status_ltb (ae_new_status ae) RRDCALC_STATUS_CLEAR = false).
  { unfold status_ltb, status_leb in *. lia. }
  assert (Hiff : called = true <->
     (exists t, nearest_notified (ae_alarm_id ae) next t
                /\ ae_new_status t <> ae_new_status ae)
     \/ (never_notified (ae_alarm_id ae) next
         /\ ae_new_status ae <> RRDCALC_STATUS_CLEAR)).
  { subst called. rewrite notifier_called_iff. unfold suppressed.
    rewrite Hlt, Hnc, Hsil, andb_false_r, orb_false_r. simpl.
    rewrite negb_true_iff.
    destruct (find_exec_run (ae_alarm_id ae) next) as [t|] eqn:Hf.
    - rewrite status_eqb_neq. apply find_exec_run_Some in Hf. split.
      + intros Hd. left. exists t. auto.
      + intros [(t' & Ht' & Hd) | (Hv & _)].
        * now rewrite (nearest_notified_unique Hf Ht').
        * destruct (nearest_not_never Hf Hv).
    - rewrite status_eqb_neq. apply find_exec_run_None in Hf. split.
      + intros Hd. right. auto.
      + intros [(t' & Ht' & _) | (_ & Hd)].
        * destruct (nearest_not_never Ht' Hf).
        * assumption. }
  split; [exact Hiff|]. split; [|split; [|exact Hrun]].
  - intros Hc Hv. apply Hiff in Hc as [(t & Ht & _) | (_ & Hd)].
    + destruct (nearest_not_never Ht Hv).
    + assumption.
  - intros Hc t Ht. apply Hiff in Hc as [(t' & Ht' & Hd) | (Hv & _)].
    + now rewrite (nearest_notified_unique Ht Ht').
    + destruct (nearest_not_never Ht Hv).
Qed.

(** C9.  When the dispatcher calls [mypopen] and no process is spawned, the
    entry it leaves is marked processed and exec-run and carries the
    exec-run timestamp; its exit code and its exec-failed flag are as they
    were; the entry is persisted.  A later entry of the same alarm with the
    same new status and no no-clear-notification flag, with this entry the
    nearest notified one behind it, does not have the notifier started. *)
Theorem unspawned_notifier_counts_as_notification
    (run_notifier : NOTIFIER_COMMAND -> option Z) (host : RRDHOST)
    (clock : time_t) (ae : ALARM_ENTRY) (next : list ALARM_ENTRY)
    (cmd : NOTIFIER_COMMAND) :
  In (EvPopen cmd None)
     (snd (health_alarm_execute run_notifier host clock ae next)) ->
  let ae' := fst (health_alarm_execute run_notifier host clock ae next) in
  has_flag (ae_flags ae') HEALTH_ENTRY_FLAG_EXEC_RUN = true
  /\ has_flag (ae_flags ae') HEALTH_ENTRY_FLAG_PROCESSED = true
  /\ ae_exec_run_timestamp ae' = clock
  /\ ae_exec_code ae' = ae_exec_code ae
  /\ has_flag (ae_flags ae') HEALTH_ENTRY_FLAG_EXEC_FAILED
     = has_flag (ae_flags ae) HEALTH_ENTRY_FLAG_EXEC_FAILED
  /\ snd (health_alarm_execute run_notifier host clock ae next)
     = [EvPopen cmd None; EvSave ae']
  /\ forall run_notifier' host' clock' later between older,
       ae_alarm_id later = ae_alarm_id ae ->
       ae_new_status later = ae_new_status ae ->
       has_flag (ae_flags later) HEALTH_ENTRY_FLAG_NO_CLEAR_NOTIFICATION
       = false ->
       never_notified (ae_alarm_id ae) between ->
       notifier_called
         (snd (health_alarm_execute run_notifier' host' clock' later
                 (between ++ ae' :: older)))
       = false.
Proof.
  intros Hin ae'.
  destruct (suppressed ae next) eqn:Hs.
  { rewrite execute_suppressed in Hin by assumption.
    destruct Hin as [H | []]. discriminate. }
  pose proof (execute_not_suppressed run_notifier host clock ae next Hs) as E.
  cbv zeta in E. subst ae'. rewrite E in *. clear E.
  destruct (run_notifier _) as [code|] eqn:Hrun.
  { destruct Hin as [H | [H | []]]; discriminate. }
  destruct Hin as [H | [H | []]]; [|discriminate].
  injection H as <-.
  cbn [fst snd set_ae_exec_run_timestamp ae_or_flag set_ae_flags ae_flags
       ae_exec_run_timestamp ae_exec_code ae_alarm_id ae_new_status].
  assert (Hrun_flag :
    has_flag (Z.lor (Z.lor (ae_flags ae) HEALTH_ENTRY_FLAG_PROCESSED)
                HEALTH_ENTRY_FLAG_EXEC_RUN) HEALTH_ENTRY_FLAG_EXEC_RUN = true).
  { apply has_flag_lor_same. discriminate. }
  repeat split.
  - exact Hrun_flag.
  - rewrite has_flag_lor_disjoint by reflexivity.
    apply has_flag_lor_same. discriminate.
  - now rewrite !has_flag_lor_disjoint by reflexivity.
  - intros run' host' clock' later between older Hid Hst Hnc Hbetween.
    rewrite notifier_called_iff. apply negb_false_iff.
    unfold suppressed. rewrite Hnc.
    match goal with
    | |- context [find_exec_run ?i ?l] =>
        replace (find_exec_run i l) with
          (Some (set_ae_exec_run_timestamp clock
                   (ae_or_flag HEALTH_ENTRY_FLAG_EXEC_RUN
                      (ae_or_flag HEALTH_ENTRY_FLAG_PROCESSED ae))))
    end.
    + cbn [set_ae_exec_run_timestamp ae_or_flag set_ae_flags ae_new_status].
      rewrite Hst.
      replace (status_eqb (ae_new_status ae) (ae_new_status ae)) with true
        by (symmetry; now apply status_eqb_eq).
      simpl. now rewrite orb_true_r.
    + symmetry. apply find_exec_run_Some. exists between, older.
      rewrite Hid. repeat split; [|assumption].
      unfold notified_for.
      cbn [set_ae_exec_run_timestamp ae_or_flag set_ae_flags ae_flags
           ae_alarm_id].
      now rewrite Z.eqb_refl, Hrun_flag.
Qed.

Lemma dispatcher_notifies_iff_witness :
  status_leb RRDCALC_STATUS_CLEAR (ae_new_status c2_entry) = true
  /\ has_flag (ae_flags c2_entry) HEALTH_ENTRY_FLAG_NO_CLEAR_NOTIFICATION
     = false
  /\ has_flag (ae_flags c2_entry) HEALTH_ENTRY_FLAG_SILENCED = false
  /\ (let called :=
        notifier_called
          (snd (health_alarm_execute notifier_ok c2_host 100 c2_entry
                  [c2_older])) in
      (called = true <->
         (exists t, nearest_notified (ae_alarm_id c2_entry) [c2_older] t
                    /\ ae_new_status t <> ae_new_status c2_entry)
         \/ (never_notified (ae_alarm_id c2_entry) [c2_older]
             /\ ae_new_status c2_entry <> RRDCALC_STATUS_CLEAR))
      /\ (called = true -> never_notified (ae_alarm_id c2_entry) [c2_older] ->
          ae_new_status c2_entry <> RRDCALC_STATUS_CLEAR)
      /\ (called = true ->
          forall t, nearest_notified (ae_alarm_id c2_entry) [c2_older] t ->
                    ae_new_status t <> ae_new_status c2_entry)
      /\ (called = true ->
          has_flag
            (ae_flags (fst (health_alarm_execute notifier_ok c2_host 100
                              c2_entry [c2_older])))
            HEALTH_ENTRY_FLAG_EXEC_RUN = true)).
Proof.
  split; [reflexivity|]. split; [reflexivity|]. split; [reflexivity|].
  exact (dispatcher_notifies_iff notifier_ok c2_host 100 c2_entry [c2_older]
           eq_refl eq_refl eq_refl).
Defined.

(** C2 as the specification words it fails: two entries of an alarm
    notified one after the other can share their new status.  In the log
    of [c2_scan_host] the entries 5 (warning), 4 (clear) and 3 (warning) of
    alarm 7 are pending and due at 100, behind them lies the notified
    clear entry 2.  The scan goes from the newest entry to the oldest and
    each entry looks only behind itself: the notifier is started for
    entry 5 (entry 2 is clear), not for entry 4 (entry 2 is clear too), and
    for entry 3 (entry 2 is clear).  The entries of the alarm for which the
    notifier was started are then 5, 3 and 2, and the entries 5 and 3, next
    to each other among them, are both warning. *)
Lemma consecutive_notifications_share_status :
  let r :=
    health_alarm_log_process notifier_ok never_repeating c2_scan_host 100
      100 in
  notifier_calls (snd r)
  = [(5, RRDCALC_STATUS_WARNING); (3, RRDCALC_STATUS_WARNING)]
  /\ notified_entries 7 (log_alarms (host_health_log (fst r)))
     = [(5, RRDCALC_STATUS_WARNING); (3, RRDCALC_STATUS_WARNING);
        (2, RRDCALC_STATUS_CLEAR)].
Proof. split; reflexivity. Qed.

(** The notifier that is started need not run.  For the first entry of an
    alarm, a warning, [mypopen] is called and spawns nothing: the entry is
    left with exec-run set.  For the clear entry that follows, the notifier
    is started against it and runs: the first notifier process of the
    alarm is one for a clear entry. *)
Example first_spawned_notifier_is_for_clear :
  let attempted :=
    health_alarm_execute notifier_unspawned c2_host 100 c2_first_warning
      [] in
  let later :=
    health_alarm_execute notifier_ok c2_host 200 c2_then_clear
      [fst attempted] in
  (exists cmd, snd attempted = [EvPopen cmd None; EvSave (fst attempted)])
  /\ has_flag (ae_flags (fst attempted)) HEALTH_ENTRY_FLAG_EXEC_RUN = true
  /\ (exists cmd,
        snd later = [EvPopen cmd (Some 0); EvSave (fst later)]
        /\ ae_new_status (cmd_entry cmd) = RRDCALC_STATUS_CLEAR).
Proof.
  split; [eexists; reflexivity|]. split; [reflexivity|].
  eexists. split; reflexivity.
Qed.

Lemma unspawned_notifier_counts_as_notification_witness :
  let cmd :=
    build_command c2_host (ae_or_flag HEALTH_ENTRY_FLAG_PROCESSED c2_entry) in
  let run := health_alarm_execute notifier_unspawned c2_host 100 c2_entry
               [c2_older] in
  In (EvPopen cmd None) (snd run)
  /\ has_flag (ae_flags (fst run)) HEALTH_ENTRY_FLAG_EXEC_RUN = true
  /\ ae_exec_run_timestamp (fst run) = 100
  /\ snd run = [EvPopen cmd None; EvSave (fst run)].
Proof.
  intros cmd run.
  assert (Hin : In (EvPopen cmd None) (snd run)) by (left; reflexivity).
  split; [exact Hin|].
  destruct (unspawned_notifier_counts_as_notification notifier_unspawned
              c2_host 100 c2_entry [c2_older] cmd Hin)
    as (H1 & _ & H3 & _ & _ & H6 & _).
  auto.
Defined.

(** ** The silencer matcher *)

(** C10.  A silencer that provides a context pattern or a family pattern
    does not match an alarm that has no linked chart: [check_silenced]
    passes over it, and returns none when it is the only silencer. *)
Theorem silencer_with_chart_pattern_needs_chart
    (simple_pattern_matches : SIMPLE_PATTERN -> string -> bool)
    (rc : RRDCALC) (host : option string) (s : SILENCER) :
  rc_rrdset rc = None ->
  s_contexts_pattern s <> None \/ s_families_pattern s <> None ->
  silencer_matches simple_pattern_matches rc host s = false
  /\ (forall st rest,
        check_silenced_from simple_pattern_matches rc host st (s :: rest)
        = check_silenced_from simple_pattern_matches rc host st rest)
  /\ (forall all st,
        check_silenced simple_pattern_matches rc host
          {| all_alarms := all; stype := st; silencers := [s] |}
        = STYPE_NONE).
Proof.
  intros Hchart Hpat.
  assert (Hm : silencer_matches simple_pattern_matches rc host s = false).
  { unfold silencer_matches, chart_field. rewrite Hchart.
    destruct Hpat as [Hp | Hp].
    - destruct (s_contexts_pattern s); [|congruence]. simpl.
      now rewrite andb_false_r.
    - destruct (s_families_pattern s); [|congruence]. simpl.
      now rewrite andb_false_r. }
  split; [exact Hm|]. split.
  - intros st rest. simpl. now rewrite Hm.
  - intros all st. unfold check_silenced. simpl. now rewrite Hm.
Qed.

Lemma silencer_with_chart_pattern_needs_chart_witness :
  rc_rrdset c10_alarm = None
  /\ (s_contexts_pattern c10_silencer <> None
      \/ s_families_pattern c10_silencer <> None)
  /\ silencer_matches match_any c10_alarm (Some "localhost"%string)
       c10_silencer = false.
Proof.
  assert (H1 : rc_rrdset c10_alarm = None) by reflexivity.
  assert (H2 : s_contexts_pattern c10_silencer <> None
               \/ s_families_pattern c10_silencer <> None)
    by (left; discriminate).
  split; [exact H1|]. split; [exact H2|].
  exact (proj1 (silencer_with_chart_pattern_needs_chart match_any c10_alarm
                  (Some "localhost"%string) c10_silencer H1 H2)).
Defined.

(** ** Status composition *)

(** C3.  The status composed from a warning status and a critical status,
    each undefined, clear or raised: a raised critical gives critical;
    otherwise a raised warning gives warning; otherwise a clear one of the
    two gives clear; otherwise undefined.  A value maps to raised exactly
    when it is finite and not zero, to clear exactly when it is zero, to
    undefined exactly when it is a NaN or an infinity. *)
Theorem status_composition :
  decide_status RRDCALC_STATUS_UNDEFINED RRDCALC_STATUS_UNDEFINED
  = RRDCALC_STATUS_UNDEFINED
  /\ decide_status RRDCALC_STATUS_UNDEFINED RRDCALC_STATUS_CLEAR
     = RRDCALC_STATUS_CLEAR
  /\ decide_status RRDCALC_STATUS_UNDEFINED RRDCALC_STATUS_RAISED
     = RRDCALC_STATUS_CRITICAL
  /\ decide_status RRDCALC_STATUS_CLEAR RRDCALC_STATUS_UNDEFINED
     = RRDCALC_STATUS_CLEAR
  /\ decide_status RRDCALC_STATUS_CLEAR RRDCALC_STATUS_CLEAR
     = RRDCALC_STATUS_CLEAR
  /\ decide_status RRDCALC_STATUS_CLEAR RRDCALC_STATUS_RAISED
     = RRDCALC_STATUS_CRITICAL
  /\ decide_status RRDCALC_STATUS_RAISED RRDCALC_STATUS_UNDEFINED
     = RRDCALC_STATUS_WARNING
  /\ decide_status RRDCALC_STATUS_RAISED RRDCALC_STATUS_CLEAR
     = RRDCALC_STATUS_WARNING
  /\ decide_status RRDCALC_STATUS_RAISED RRDCALC_STATUS_RAISED
     = RRDCALC_STATUS_CRITICAL
  /\ (forall n : calculated_number,
        (rrdcalc_value2status n = RRDCALC_STATUS_RAISED
         <-> exists s m e, n = S754_finite s m e)
        /\ (rrdcalc_value2status n = RRDCALC_STATUS_CLEAR
            <-> exists s, n = S754_zero s)
        /\ (rrdcalc_value2status n = RRDCALC_STATUS_UNDEFINED
            <-> n = S754_nan \/ exists s, n = S754_infinity s)).
Proof.
  repeat (split; [reflexivity|]).
  intros n. destruct n as [s | s | | s m e]; cbn; repeat split;
    try discriminate; try reflexivity; eauto;
    try (intros (? & ? & ? & H); discriminate H);
    try (intros (? & H); discriminate H);
    try (intros [H | (? & H)]; discriminate H).
Qed.

(** ** The runnability predicate *)

(** C5, as the code has it.  The predicate returns false exactly when: no
    chart is linked; or the alarm's next update is after [now]; or its
    update frequency is 0; or the chart is obsolete, or not enabled, or has
    never been collected, or has fewer than 2 collections; or
    [now + update_every] of the chart is before the first retained entry;
    or a database lookup is configured and the point
    [now + before + after] lies more than the chart's [update_every]
    outside the retention.  [next_run] is lowered, to the alarm's next
    update, only when a chart is linked and the next update is after
    [now] and before [next_run]; in every other case it is left as it
    was. *)
Theorem rrdcalc_isrunnable_spec (has_db_lookup : RRDCALC -> bool)
    (rc : RRDCALC) (now next_run : time_t) :
  (fst (rrdcalc_isrunnable has_db_lookup rc now next_run) = false <->
     rc_rrdset rc = None
     \/ now < rc_next_update rc
     \/ rc_update_every rc = 0
     \/ exists st, rc_rrdset rc = Some st
          /\ (rrdset_flag_check st RRDSET_FLAG_OBSOLETE = true
              \/ rrdset_flag_check st RRDSET_FLAG_ENABLED = false
              \/ st_last_collected_time_tv_sec st = 0
              \/ st_counter_done st < 2
              \/ now + st_update_every st < st_first_entry_t st
              \/ (has_db_lookup rc = true
                  /\ (now + rc_before rc + rc_after rc + st_update_every st
                      < st_first_entry_t st
                      \/ st_last_entry_t st
                         < now + rc_before rc + rc_after rc
                           - st_update_every st))))
  /\ snd (rrdcalc_isrunnable has_db_lookup rc now next_run)
     = match rc_rrdset rc with
       | Some _ =>
           if (now <? rc_next_update rc) && (rc_next_update rc <? next_run)
           then rc_next_update rc else next_run
       | None => next_run
       end.
Proof.
  unfold rrdcalc_isrunnable.
  destruct (rc_rrdset rc) as [st|]; [|split; [tauto | reflexivity]].
  destruct (Z.ltb_spec now (rc_next_update rc)) as [Hn | Hn].
  { split; [simpl; tauto | reflexivity]. }
  destruct (Z.eqb_spec (rc_update_every rc) 0) as [Hu | Hu].
  { split; [simpl; tauto | reflexivity]. }
  destruct (rrdset_flag_check st RRDSET_FLAG_OBSOLETE) eqn:Ho.
  { split; [simpl | reflexivity]. split; [intros _|reflexivity].
    right; right; right. exists st. auto. }
  destruct (rrdset_flag_check st RRDSET_FLAG_ENABLED) eqn:He; simpl negb;
    cbv iota.
  2:{ split; [simpl | reflexivity]. split; [intros _|reflexivity].
      right; right; right. exists st. auto. }
  destruct (Z.eqb_spec (st_last_collected_time_tv_sec st) 0) as [Hc | Hc].
  { split; [simpl | reflexivity]. split; [intros _|reflexivity].
    right; right; right. exists st. auto. }
  destruct (Z.ltb_spec (st_counter_done st) 2) as [Hd | Hd].
  { split; [simpl | reflexivity]. split; [intros _|reflexivity].
    right; right; right. exists st. auto 6. }
  cbn [orb]. cbv zeta.
  destruct (Z.ltb_spec (now + st_update_every st) (st_first_entry_t st))
    as [Hf | Hf].
  { split; [simpl | reflexivity]. split; [intros _|reflexivity].
    right; right; right. exists st. auto 7. }
  assert (Hrest : forall P : Prop,
    (P <-> (has_db_lookup rc = true
            /\ (now + rc_before rc + rc_after rc + st_update_every st
                < st_first_entry_t st
                \/ st_last_entry_t st
                   < now + rc_before rc + rc_after rc - st_update_every st)))
    -> (P <->
        Some st = None \/ now < rc_next_update rc \/ rc_update_every rc = 0
        \/ exists st0, Some st = Some st0
             /\ (rrdset_flag_check st0 RRDSET_FLAG_OBSOLETE = true
                 \/ rrdset_flag_check st0 RRDSET_FLAG_ENABLED = false
                 \/ st_last_collected_time_tv_sec st0 = 0
                 \/ st_counter_done st0 < 2
                 \/ now + st_update_every st0 < st_first_entry_t st0
                 \/ (has_db_lookup rc = true
                     /\ (now + rc_before rc + rc_after rc + st_update_every st0
                         < st_first_entry_t st0
                         \/ st_last_entry_t st0
                            < now + rc_before rc + rc_after rc
                              - st_update_every st0))))).
  { intros P HP. rewrite HP. split.
    - intros H. right; right; right. exists st. auto 8.
    - intros [H | [H | [H | (st0 & [= <-] & H)]]];
        [discriminate | lia | lia |].
      destruct H as [H | [H | [H | [H | [H | H]]]]];
        [congruence | congruence | lia | lia | lia | exact H]. }
  destruct (has_db_lookup rc).
  - destruct (Z.ltb_spec
                (now + rc_before rc + rc_after rc + st_update_every st)
                (st_first_entry_t st)) as [H1 | H1];
      [|destruct (Z.ltb_spec (st_last_entry_t st)
                    (now + rc_before rc + rc_after rc - st_update_every st))
          as [H2 | H2]];
      (split; [apply Hrest; simpl | reflexivity]).
    + split; auto.
    + split; auto.
    + split; [discriminate|]. intros [_ [H|H]]; lia.
  - split; [apply Hrest; simpl | reflexivity].
    split; [discriminate|]. intros [H _]. discriminate H.
Qed.

(** C5 as the specification words it fails: the chart of [c5_alarm] retains
    nothing later than 10, so at 1000 its retention covers no part of the
    window [[999, 1001]], yet the alarm is runnable; and [c5_unlinked], due
    at 50, is not runnable at 10 while [next_run] stays at 100, later than
    the alarm's next update. *)
Lemma runnable_outside_retention :
  listed_not_runnable no_db_lookup c5_alarm 1000 = true
  /\ fst (rrdcalc_isrunnable no_db_lookup c5_alarm 1000 2000) = true
  /\ rrdcalc_isrunnable no_db_lookup c5_unlinked 10 100 = (false, 100)
  /\ rc_next_update c5_unlinked = 50.
Proof. repeat split. Qed.

(** ** The silencer file *)

(** C7, the code at a file of exactly [HEALTH_SILENCERS_MAX_FILE_LEN]
    bytes that can be opened: the file is not parsed, the out-of-range
    error is logged. *)
Theorem silencers_file_of_max_len_not_parsed (max_file_len : Z)
    (content : string) :
  health_silencers_init max_file_len (Some max_file_len) (Some content)
  = [EvErrorOutOfRange max_file_len].
Proof.
  unfold health_silencers_init.
  now rewrite Z.ltb_irrefl, andb_false_r.
Qed.

(** X28.  What the loader does, over all files: the content is parsed
    exactly when the file can be examined and opened and its size is
    neither 0 nor [HEALTH_SILENCERS_MAX_FILE_LEN] or more. *)
Lemma silencers_file_parsed_iff (max_file_len : Z) (stat_size : option Z)
    (file : option string) :
  (exists str, In (EvJsonParse str)
                 (health_silencers_init max_file_len stat_size file))
  <-> exists len content,
        stat_size = Some len /\ file = Some content
        /\ len <> 0 /\ len < max_file_len.
Proof.
  unfold health_silencers_init. split.
  - intros (str & H). destruct stat_size as [len|].
    + destruct (Z.eqb_spec len 0) as [H0 | H0]; simpl in H.
      * destruct H as [H | []]. discriminate.
      * destruct (Z.ltb_spec len max_file_len) as [Hl | Hl].
        -- destruct file as [content|].
           ++ exists len, content. auto.
           ++ destruct H as [H | []]. discriminate.
        -- destruct H as [H | []]. discriminate.
    + destruct H as [H | []]. discriminate.
  - intros (len & content & -> & -> & H0 & Hl).
    apply Z.eqb_neq in H0. apply Z.ltb_lt in Hl. rewrite H0, Hl. simpl.
    eexists. left. reflexivity.
Qed.

(** ** The decide phase *)

Lemma ldiff_lor_within (f m M : Z) :
  Z.ldiff m M = 0 -> Z.ldiff (Z.lor f m) M = Z.ldiff f M.
Proof.
  intros H. apply Z.bits_inj'. intros n Hn.
  apply (f_equal (fun z => Z.testbit z n)) in H.
  rewrite Z.bits_0 in H. rewrite !Z.ldiff_spec, Z.lor_spec in *.
  destruct (Z.testbit f n), (Z.testbit m n), (Z.testbit M n);
    simpl in *; congruence.
Qed.

Lemma ldiff_ldiff_within (f m M : Z) :
  Z.ldiff m M = 0 -> Z.ldiff (Z.ldiff f m) M = Z.ldiff f M.
Proof.
  intros H. apply Z.bits_inj'. intros n Hn.
  apply (f_equal (fun z => Z.testbit z n)) in H.
  rewrite Z.bits_0 in H. rewrite !Z.ldiff_spec in *.
  destruct (Z.testbit f n), (Z.testbit m n), (Z.testbit M n);
    simpl in *; congruence.
Qed.

(** Evaluating a threshold writes its error flag and nothing else. *)
Lemma evaluate_threshold_alarm
    (expression_evaluate : EVAL_EXPRESSION -> option calculated_number)
    (err : Z) (e : option EVAL_EXPRESSION) (rc : RRDCALC) :
  Z.ldiff err threshold_error_flags = 0 ->
  exists flags,
    fst (evaluate_threshold expression_evaluate err e rc)
    = set_rc_rrdcalc_flags flags rc
    /\ Z.ldiff flags threshold_error_flags
       = Z.ldiff (rc_rrdcalc_flags rc) threshold_error_flags.
Proof.
  intros Herr. unfold evaluate_threshold.
  destruct e as [ex|]; [destruct (expression_evaluate ex)|]; cbn [fst].
  - eexists. split; [reflexivity|]. now apply ldiff_ldiff_within.
  - eexists. split; [reflexivity|]. now apply ldiff_lor_within.
  - exists (rc_rrdcalc_flags rc). now destruct rc.
Qed.

Lemma evaluate_threshold_status
    (expression_evaluate : EVAL_EXPRESSION -> option calculated_number)
    (err : Z) (e : option EVAL_EXPRESSION) (rc rc' : RRDCALC) :
  snd (evaluate_threshold expression_evaluate err e rc)
  = snd (evaluate_threshold expression_evaluate err e rc').
Proof.
  unfold evaluate_threshold.
  destruct e as [ex|]; [destruct (expression_evaluate ex)|]; reflexivity.
Qed.

Lemma evaluate_threshold_flags
    (expression_evaluate : EVAL_EXPRESSION -> option calculated_number)
    (err : Z) (e : option EVAL_EXPRESSION) (rc : RRDCALC) :
  fst (evaluate_threshold expression_evaluate err e rc)
  = set_rc_rrdcalc_flags
      (error_flag_after expression_evaluate err e (rc_rrdcalc_flags rc)) rc.
Proof.
  unfold evaluate_threshold, error_flag_after.
  destruct e as [ex|]; [destruct (expression_evaluate ex)|];
    [reflexivity | reflexivity | now destruct rc].
Qed.

(** The error bit after a threshold expression was looked at, and the
    other bits. *)
Lemma error_flag_after_bits
    (expression_evaluate : EVAL_EXPRESSION -> option calculated_number)
    (err : Z) (e : option EVAL_EXPRESSION) (flags : Z) :
  err <> 0 ->
  has_flag (error_flag_after expression_evaluate err e flags) err
  = match e with
    | None => has_flag flags err
    | Some ex =>
        match expression_evaluate ex with
        | None => true
        | Some _ => false
        end
    end
  /\ (forall m, Z.land err m = 0 ->
        has_flag (error_flag_after expression_evaluate err e flags) m
        = has_flag flags m)
  /\ (forall M, Z.ldiff err M = 0 ->
        Z.ldiff (error_flag_after expression_evaluate err e flags) M
        = Z.ldiff flags M).
Proof.
  intros Herr. unfold error_flag_after.
  destruct e as [ex|]; [destruct (expression_evaluate ex)|].
  - split; [|split].
    + apply has_flag_ldiff_within, Z.ldiff_diag.
    + intros m Hm. now apply has_flag_ldiff_disjoint.
    + intros M HM. now apply ldiff_ldiff_within.
  - split; [|split].
    + now apply has_flag_lor_same.
    + intros m Hm. now apply has_flag_lor_disjoint.
    + intros M HM. now apply ldiff_lor_within.
  - split; [|split]; reflexivity.
Qed.

(** C8, as the code has it.  For an alarm flagged runnable and not disabled
    whose composed status equals its current status, the decide phase
    leaves the log as it is and leaves the alarm with exactly three
    writes: [last_updated] (to [now]), [next_update] (to
    [now + update_every]) and, in its flags, the warning and critical
    error bits, which the evaluation of the two expressions writes before
    the statuses are compared (health.c:732, 740, 756, 764): the bit of an
    expression is set when its evaluation failed, cleared when it gave a
    result, and left when the alarm has no such expression.  Every other
    bit and every other field is as it was: status, old status, last
    status change and the hysteresis delay fields among them.  [next_run]
    becomes the smaller of itself and the alarm's new [next_update]. *)
Theorem decide_same_status_frame
    (expression_evaluate : EVAL_EXPRESSION -> option calculated_number)
    (rrdcalc_isrepeating : RRDCALC -> bool)
    (scale_delay : Z -> calculated_number -> Z)
    (lg : ALARM_LOG) (now next_run : time_t) (rc : RRDCALC) :
  has_flag (rc_rrdcalc_flags rc) RRDCALC_FLAG_RUNNABLE = true ->
  has_flag (rc_rrdcalc_flags rc) RRDCALC_FLAG_DISABLED = false ->
  composed_status expression_evaluate rc = rc_status rc ->
  let flags' := flags_after_thresholds expression_evaluate rc in
  let rc' :=
    set_rc_schedule now (now + rc_update_every rc)
      (set_rc_rrdcalc_flags flags' rc) in
  health_decide_alarm expression_evaluate rrdcalc_isrepeating scale_delay
    lg now next_run rc
  = Some (lg, rc', Z.min next_run (now + rc_update_every rc))
  /\ rc_status rc' = rc_status rc
  /\ rc_old_status rc' = rc_old_status rc
  /\ rc_last_status_change rc' = rc_last_status_change rc
  /\ rc_delay_up_current rc' = rc_delay_up_current rc
  /\ rc_delay_down_current rc' = rc_delay_down_current rc
  /\ rc_delay_last rc' = rc_delay_last rc
  /\ rc_delay_up_to_timestamp rc' = rc_delay_up_to_timestamp rc
  /\ rc_last_updated rc' = now
  /\ rc_next_update rc' = now + rc_update_every rc
  /\ rc_rrdcalc_flags rc' = flags'
  /\ Z.ldiff flags' threshold_error_flags
     = Z.ldiff (rc_rrdcalc_flags rc) threshold_error_flags
  /\ has_flag flags' RRDCALC_FLAG_WARN_ERROR
     = match rc_warning rc with
       | None => has_flag (rc_rrdcalc_flags rc) RRDCALC_FLAG_WARN_ERROR
       | Some ex =>
           match expression_evaluate ex with
           | None => true
           | Some _ => false
           end
       end
  /\ has_flag flags' RRDCALC_FLAG_CRIT_ERROR
     = match rc_critical rc with
       | None => has_flag (rc_rrdcalc_flags rc) RRDCALC_FLAG_CRIT_ERROR
       | Some ex =>
           match expression_evaluate ex with
           | None => true
           | Some _ => false
           end
       end.
Proof.
  intros Hrun Hdis Hsame flags' rc'.
  set (f1 := error_flag_after expression_evaluate RRDCALC_FLAG_WARN_ERROR
               (rc_warning rc) (rc_rrdcalc_flags rc)).
  assert (Hdecide :
    health_decide_alarm expression_evaluate rrdcalc_isrepeating scale_delay
      lg now next_run rc
    = Some (lg, rc', Z.min next_run (now + rc_update_every rc))).
  { unfold health_decide_alarm. rewrite Hrun, Hdis. cbn [negb].
    pose proof (evaluate_threshold_flags expression_evaluate
                  RRDCALC_FLAG_WARN_ERROR (rc_warning rc) rc) as E1.
    fold f1 in E1.
    destruct (evaluate_threshold expression_evaluate RRDCALC_FLAG_WARN_ERROR
                (rc_warning rc) rc) as [rc1 w] eqn:Ew.
    cbn [fst] in E1. subst rc1.
    pose proof (evaluate_threshold_flags expression_evaluate
                  RRDCALC_FLAG_CRIT_ERROR
                  (rc_critical (set_rc_rrdcalc_flags f1 rc))
                  (set_rc_rrdcalc_flags f1 rc)) as E2.
    change (rc_rrdcalc_flags (set_rc_rrdcalc_flags f1 rc)) with f1 in E2.
    change (rc_critical (set_rc_rrdcalc_flags f1 rc)) with (rc_critical rc)
      in E2 at 2.
    change (error_flag_after expression_evaluate RRDCALC_FLAG_CRIT_ERROR
              (rc_critical rc) f1) with flags' in E2.
    destruct (evaluate_threshold expression_evaluate RRDCALC_FLAG_CRIT_ERROR
                (rc_critical (set_rc_rrdcalc_flags f1 rc))
                (set_rc_rrdcalc_flags f1 rc)) as [rc2 c] eqn:Ec.
    cbn [fst] in E2. subst rc2.
    assert (Hst : decide_status w c = rc_status rc).
    { rewrite <- Hsame. unfold composed_status. rewrite Ew. cbn [snd].
      f_equal.
      change (rc_critical (set_rc_rrdcalc_flags f1 rc)) with (rc_critical rc)
        in Ec.
      rewrite (evaluate_threshold_status expression_evaluate
                 RRDCALC_FLAG_CRIT_ERROR (rc_critical rc) rc
                 (set_rc_rrdcalc_flags f1 rc)), Ec.
      reflexivity. }
    rewrite Hst.
    change (rc_status
              (set_rc_rrdcalc_flags flags' (set_rc_rrdcalc_flags f1 rc)))
      with (rc_status rc).
    replace (status_eqb (rc_status rc) (rc_status rc)) with true
      by (symmetry; now apply status_eqb_eq).
    cbn [negb]. f_equal. f_equal.
    cbn [rc_next_update set_rc_schedule rc_write rc_update_every
         set_rc_rrdcalc_flags].
    destruct (Z.ltb_spec (now + rc_update_every rc) next_run); lia. }
  split; [exact Hdecide|].
  do 10 (split; [reflexivity|]).
  destruct (error_flag_after_bits expression_evaluate
              RRDCALC_FLAG_WARN_ERROR (rc_warning rc) (rc_rrdcalc_flags rc))
    as (Hw1 & Hw2 & Hw3); [discriminate|].
  destruct (error_flag_after_bits expression_evaluate
              RRDCALC_FLAG_CRIT_ERROR (rc_critical rc) f1)
    as (Hc1 & Hc2 & Hc3); [discriminate|].
  fold f1 in Hw1, Hw2, Hw3.
  change (error_flag_after expression_evaluate RRDCALC_FLAG_CRIT_ERROR
            (rc_critical rc) f1) with flags' in Hc1, Hc2, Hc3.
  split; [|split].
  - rewrite Hc3 by reflexivity. now apply Hw3.
  - rewrite Hc2 by reflexivity. exact Hw1.
  - rewrite Hc1. destruct (rc_critical rc); [reflexivity|].
    now apply Hw2.
Qed.

Lemma decide_same_status_frame_witness :
  has_flag (rc_rrdcalc_flags c8_alarm) RRDCALC_FLAG_RUNNABLE = true
  /\ has_flag (rc_rrdcalc_flags c8_alarm) RRDCALC_FLAG_DISABLED = false
  /\ composed_status evaluate_to_zero c8_alarm = rc_status c8_alarm
  /\ health_decide_alarm evaluate_to_zero repeats_if_configured
       truncate_delay c8_log 1000 1010 c8_alarm
     = Some (c8_log,
             set_rc_schedule 1000 (1000 + rc_update_every c8_alarm)
               (set_rc_rrdcalc_flags
                  (flags_after_thresholds evaluate_to_zero c8_alarm)
                  c8_alarm),
             Z.min 1010 (1000 + rc_update_every c8_alarm)).
Proof.
  split; [reflexivity|]. split; [reflexivity|]. split; [reflexivity|].
  exact (proj1 (decide_same_status_frame evaluate_to_zero
                  repeats_if_configured truncate_delay c8_log 1000 1010
                  c8_alarm eq_refl eq_refl eq_refl)).
Defined.

(** C8 as the specification words it fails: the alarm [c8_undefined] is
    runnable, not disabled and undefined, and its warning expression fails,
    so that its composed status is undefined, its current status.  The
    decide phase sets the warning error bit (health.c:732): the flag word
    goes from [0x40] to [0x50], and the alarm is not the one in which only
    [last_updated] and [next_update] were written. *)
Lemma decide_same_status_writes_error_flag :
  has_flag (rc_rrdcalc_flags c8_undefined) RRDCALC_FLAG_RUNNABLE = true
  /\ has_flag (rc_rrdcalc_flags c8_undefined) RRDCALC_FLAG_DISABLED = false
  /\ composed_status evaluate_fails c8_undefined = rc_status c8_undefined
  /\ rc_rrdcalc_flags c8_undefined = 0x40
  /\ exists rc',
       health_decide_alarm evaluate_fails repeats_if_configured
         truncate_delay c8_log 1000 1010 c8_undefined
       = Some (c8_log, rc', 1001)
       /\ rc_rrdcalc_flags rc' = 0x50
       /\ rc' <> set_rc_schedule 1000 1001 c8_undefined.
Proof.
  split; [reflexivity|]. split; [reflexivity|]. split; [reflexivity|].
  split; [reflexivity|].
  eexists. split; [reflexivity|]. split; [reflexivity|].
  intros H. apply (f_equal rc_rrdcalc_flags) in H. discriminate H.
Qed.

(** ** The repeating phase *)

(** The dispatcher writes the flags, the exit code and the exec-run
    timestamp of an entry, nothing else. *)
Lemma execute_writes (run_notifier : NOTIFIER_COMMAND -> option Z)
    (host : RRDHOST) (clock : time_t) (ae : ALARM_ENTRY)
    (next : list ALARM_ENTRY) :
  let ae' := fst (health_alarm_execute run_notifier host clock ae next) in
  ae' = set_ae_exec_run_timestamp (ae_exec_run_timestamp ae')
          (set_ae_exec_code (ae_exec_code ae')
             (set_ae_flags (ae_flags ae') ae)).
Proof.
  destruct (suppressed ae next) eqn:Hs.
  - rewrite execute_suppressed by assumption. now destruct ae.
  - rewrite execute_not_suppressed by assumption.
    destruct (run_notifier _) as [code|]; [destruct (code =? 0)|];
      now destruct ae.
Qed.

Lemma execute_keeps_statuses (run_notifier : NOTIFIER_COMMAND -> option Z)
    (host : RRDHOST) (clock : time_t) (ae : ALARM_ENTRY)
    (next : list ALARM_ENTRY) :
  let ae' := fst (health_alarm_execute run_notifier host clock ae next) in
  ae_new_status ae' = ae_new_status ae
  /\ ae_old_status ae' = ae_old_status ae
  /\ ae_last_repeat ae' = ae_last_repeat ae
  /\ ae_unique_id ae' = ae_unique_id ae
  /\ ae_alarm_id ae' = ae_alarm_id ae.
Proof.
  intros ae'.
  pose proof (execute_writes run_notifier host clock ae next) as H.
  cbv zeta in H. fold ae' in H. rewrite H. repeat split.
Qed.

(** C6, as the code has it.  For a repeating alarm whose status is warning
    or critical and whose chart is linked, with [repeat_every] the
    [warn_repeat_every] or [crit_repeat_every] of that status converted to
    [int] (health.c:870; a stored value of [2 ^ 31] or more is negative as
    an [int]): if [repeat_every > 0] and
    [last_repeat + repeat_every <= now], the round of the repeating loop
    for the alarm sets [last_repeat] to [now], makes an entry whose new
    status is the alarm's current status and whose old status is the
    alarm's old status, hands it to the dispatcher with nothing linked
    behind it, and then frees it.  The loop leaves the alarm log of the
    host as it was. *)
Theorem repeating_alarm_notifies
    (run_notifier : NOTIFIER_COMMAND -> option Z)
    (rrdcalc_isrepeating : RRDCALC -> bool)
    (host_with : RRDCALC -> RRDHOST) (now clock : time_t) (rc : RRDCALC)
    (st : RRDSET) :
  rrdcalc_isrepeating rc = true ->
  rc_status rc = RRDCALC_STATUS_WARNING
  \/ rc_status rc = RRDCALC_STATUS_CRITICAL ->
  rc_rrdset rc = Some st ->
  0 < repeat_every_of rrdcalc_isrepeating rc ->
  rc_last_repeat rc + repeat_every_of rrdcalc_isrepeating rc <= now ->
  let rc' :=
    set_rc_next_event_id (uint32 (rc_next_event_id rc + 1))
      (set_rc_last_repeat now rc) in
  let r :=
    health_alarm_execute run_notifier (host_with rc') clock
      (repeating_entry now st (set_rc_last_repeat now rc)) [] in
  health_repeating_alarm run_notifier rrdcalc_isrepeating host_with now clock
    rc
  = Some (rc', snd r ++ [EvFree (fst r)])
  /\ repeat_every_of rrdcalc_isrepeating rc
     = int32 (match rc_status rc with
              | RRDCALC_STATUS_WARNING => rc_warn_repeat_every rc
              | _ => rc_crit_repeat_every rc
              end)
  /\ rc_last_repeat rc' = now
  /\ ae_new_status (fst r) = rc_status rc
  /\ ae_old_status (fst r) = rc_old_status rc
  /\ ae_last_repeat (fst r) = now
  /\ (forall host host' evs,
        health_repeating_phase run_notifier rrdcalc_isrepeating host now clock
        = Some (host', evs) ->
        host_health_log host' = host_health_log host).
Proof.
  intros Hrep Hst Hchart Hpos Hdue rc' r.
  assert (Hevery : repeat_every_of rrdcalc_isrepeating rc
                   = int32 (match rc_status rc with
                            | RRDCALC_STATUS_WARNING => rc_warn_repeat_every rc
                            | _ => rc_crit_repeat_every rc
                            end)).
  { unfold repeat_every_of. rewrite Hrep.
    destruct Hst as [-> | ->]; reflexivity. }
  split; [|split; [exact Hevery|]].
  - unfold health_repeating_alarm.
    apply Z.ltb_lt in Hpos. apply Z.leb_le in Hdue. rewrite Hpos, Hdue.
    cbn [andb].
    change (rc_rrdset (set_rc_last_repeat now rc)) with (rc_rrdset rc).
    rewrite Hchart. unfold health_process_notifications.
    change (set_rc_next_event_id
              (uint32 (rc_next_event_id (set_rc_last_repeat now rc) + 1))
              (set_rc_last_repeat now rc)) with rc'.
    fold r. now destruct r.
  - destruct (execute_keeps_statuses run_notifier (host_with rc') clock
                (repeating_entry now st (set_rc_last_repeat now rc)) [])
      as (Hn & Ho & Hl & _).
    fold r in Hn, Ho, Hl. rewrite Hn, Ho, Hl.
    repeat split.
    intros host host' evs. unfold health_repeating_phase.
    destruct (health_repeating _ _ _ _ _ _ _) as [[l e]|]; [|discriminate].
    now intros [= <- _].
Qed.

Lemma repeating_alarm_notifies_witness :
  repeats_if_configured c6_alarm = true
  /\ (rc_status c6_alarm = RRDCALC_STATUS_WARNING
      \/ rc_status c6_alarm = RRDCALC_STATUS_CRITICAL)
  /\ rc_rrdset c6_alarm = Some c6_chart
  /\ 0 < repeat_every_of repeats_if_configured c6_alarm
  /\ rc_last_repeat c6_alarm + repeat_every_of repeats_if_configured c6_alarm
     <= 100
  /\ (let rc' :=
        set_rc_next_event_id (uint32 (rc_next_event_id c6_alarm + 1))
          (set_rc_last_repeat 100 c6_alarm) in
      let r :=
        health_alarm_execute notifier_ok (c6_host rc') 100
          (repeating_entry 100 c6_chart (set_rc_last_repeat 100 c6_alarm))
          [] in
      health_repeating_alarm notifier_ok repeats_if_configured c6_host 100
        100 c6_alarm
      = Some (rc', snd r ++ [EvFree (fst r)])
      /\ ae_new_status (fst r) = rc_status c6_alarm
      /\ ae_old_status (fst r) = rc_old_status c6_alarm).
Proof.
  assert (H1 : repeats_if_configured c6_alarm = true) by reflexivity.
  assert (H2 : rc_status c6_alarm = RRDCALC_STATUS_WARNING
               \/ rc_status c6_alarm = RRDCALC_STATUS_CRITICAL)
    by (left; reflexivity).
  assert (H3 : rc_rrdset c6_alarm = Some c6_chart) by reflexivity.
  assert (H4 : 0 < repeat_every_of repeats_if_configured c6_alarm)
    by reflexivity.
  assert (H5 : rc_last_repeat c6_alarm
               + repeat_every_of repeats_if_configured c6_alarm <= 100)
    by (vm_compute; discriminate).
  repeat (split; [assumption|]).
  destruct (repeating_alarm_notifies notifier_ok repeats_if_configured
              c6_host 100 100 c6_alarm c6_chart H1 H2 H3 H4 H5)
    as (E & _ & _ & Hn & Ho & _).
  auto.
Defined.

(** C6 as the specification words it fails: [c6_alarm] is in warning after
    clear and is due for a repeat at 100; the entry made for it, dispatched
    and freed, has the new status warning and the old status clear, not
    warning. *)
Lemma repeating_entry_old_status_differs :
  rc_status c6_alarm = RRDCALC_STATUS_WARNING
  /\ match
       health_repeating_alarm notifier_ok repeats_if_configured c6_host 100
         100 c6_alarm
     with
     | Some (_, evs) =>
         map ae_new_status (freed evs) = [RRDCALC_STATUS_WARNING]
         /\ map ae_old_status (freed evs) = [RRDCALC_STATUS_CLEAR]
     | None => False
     end.
Proof. split; [reflexivity|]. vm_compute. split; reflexivity. Qed.

(** ** The alarm log *)

Section AlarmLog.

Variable run_notifier : NOTIFIER_COMMAND -> option Z.
Variable alarm_entry_isrepeating : list RRDCALC -> ALARM_ENTRY -> bool.

(** The dispatcher frees nothing. *)
Lemma execute_frees_nothing (host : RRDHOST) (clock : time_t)
    (ae : ALARM_ENTRY) (next : list ALARM_ENTRY) :
  freed (snd (health_alarm_execute run_notifier host clock ae next)) = [].
Proof.
  destruct (suppressed ae next) eqn:Hs.
  - now rewrite execute_suppressed.
  - rewrite execute_not_suppressed by assumption.
    now destruct (run_notifier _).
Qed.

Lemma freed_app (evs evs' : list notifier_event) :
  freed (evs ++ evs') = freed evs ++ freed evs'.
Proof.
  induction evs as [|e evs IH]; [reflexivity|].
  destruct e; simpl; now rewrite IH.
Qed.

(** The scan keeps the entries in place, with their ids, and frees
    nothing; [first_waiting] ends as the least of its initial value and the
    ids of the visited entries that were waiting. *)
Lemma dispatch_scan_spec (host : RRDHOST) (now clock : time_t)
    (chain : list ALARM_ENTRY) (first_waiting : Z) :
  let r :=
    dispatch_scan run_notifier alarm_entry_isrepeating host now clock
      first_waiting chain in
  map ae_unique_id (fst (fst r)) = map ae_unique_id chain
  /\ snd (fst r)
     = fold_left Z.min
         (map ae_unique_id
            (filter (waiting alarm_entry_isrepeating (host_alarms host))
               (scanned (host_health_last_processed_id host) chain)))
         first_waiting
  /\ freed (snd r) = [].
Proof.
  revert first_waiting. induction chain as [|ae next IH]; intros fw.
  - simpl. auto.
  - cbn [dispatch_scan scanned].
    destruct (ae_unique_id ae <? host_health_last_processed_id host).
    + simpl. auto.
    + cbn [filter]. fold (is_pending ae).
      unfold waiting at 1.
      destruct (negb (alarm_entry_isrepeating (host_alarms host) ae)
                && is_pending ae).
      * assert (Hmin : (if ae_unique_id ae <? fw then ae_unique_id ae else fw)
                       = Z.min fw (ae_unique_id ae)).
        { destruct (Z.ltb_spec (ae_unique_id ae) fw); lia. }
        rewrite Hmin.
        destruct (ae_delay_up_to_timestamp ae <=? now).
        -- unfold health_process_notifications.
           pose proof (execute_keeps_statuses run_notifier host clock ae next)
             as (_ & _ & _ & Hid & _).
           pose proof (execute_frees_nothing host clock ae next) as Hfr.
           destruct (health_alarm_execute run_notifier host clock ae next)
             as [ae' evs].
           cbn [fst snd] in Hid, Hfr.
           specialize (IH (Z.min fw (ae_unique_id ae))).
           destruct (dispatch_scan _ _ _ _ _ _ next) as [[next' fw'] evs'].
           cbn [fst snd map fold_left] in *. destruct IH as (I1 & I2 & I3).
           rewrite freed_app, Hfr, I3, Hid, I1, I2. auto.
        -- specialize (IH (Z.min fw (ae_unique_id ae))).
           destruct (dispatch_scan _ _ _ _ _ _ next) as [[next' fw'] evs'].
           cbn [fst snd map fold_left] in *. destruct IH as (I1 & I2 & I3).
           rewrite I1, I2. auto.
      * specialize (IH fw).
        destruct (dispatch_scan _ _ _ _ _ _ next) as [[next' fw'] evs'].
        cbn [fst snd map fold_left] in *. destruct IH as (I1 & I2 & I3).
        rewrite I1, I2. auto.
Qed.

Lemma eviction_walk_split (count : nat) (chain : list ALARM_ENTRY) :
  eviction_walk count chain = (firstn count chain, skipn count chain).
Proof.
  revert chain. induction count as [|count IH]; intros [|ae next];
    try reflexivity.
  simpl. now rewrite IH.
Qed.

Lemma uint32_pred_pred (z : Z) : uint32 (uint32 (z - 1) - 1) = uint32 (z - 2).
Proof.
  unfold uint32. rewrite Zminus_mod_idemp_l. f_equal. lia.
Qed.

Lemma uint32_sub_idemp (z d : Z) : uint32 (uint32 z - d) = uint32 (z - d).
Proof. unfold uint32. now rewrite Zminus_mod_idemp_l. Qed.

(** The eviction loop calls the free routine twice for an entry that is
    not repeating and once for one that is, and takes one from [count] at
    each call. *)
Lemma eviction_free_spec (alarms : list RRDCALC) (chain : list ALARM_ENTRY)
    (count : Z) :
  let r := eviction_free alarm_entry_isrepeating alarms count chain in
  freed (snd r)
  = flat_map (eviction_frees alarm_entry_isrepeating alarms) chain
  /\ uint32 (fst r)
     = uint32 (count - Z.of_nat (List.length (freed (snd r)))).
Proof.
  revert count. induction chain as [|ae t IH]; intros count.
  - simpl. split; [reflexivity|]. f_equal. lia.
  - cbn [eviction_free flat_map]. unfold eviction_frees at 1.
    destruct (alarm_entry_isrepeating alarms ae); cbn [negb].
    + specialize (IH (uint32 (count - 1))).
      destruct (eviction_free _ _ _ t) as [c evs]. cbn [fst snd] in *.
      destruct IH as (I1 & I2). cbn [app freed]. rewrite I1.
      split; [reflexivity|]. rewrite I2, <- I1, uint32_sub_idemp.
      f_equal. cbn [List.length]. lia.
    + specialize (IH (uint32 (uint32 (count - 1) - 1))).
      destruct (eviction_free _ _ _ t) as [c evs]. cbn [fst snd] in *.
      destruct IH as (I1 & I2). cbn [app freed]. rewrite I1.
      split; [reflexivity|].
      rewrite I2, <- I1, uint32_pred_pred, uint32_sub_idemp.
      f_equal. cbn [List.length]. lia.
Qed.

Lemma fold_min_le (l : list Z) (a : Z) : fold_left Z.min l a <= a.
Proof.
  revert a. induction l as [|x l IH]; intros a; simpl; [lia|].
  specialize (IH (Z.min a x)). lia.
Qed.

Lemma fold_min_ge (l : list Z) (a c : Z) :
  c <= a -> Forall (fun x => c <= x) l -> c <= fold_left Z.min l a.
Proof.
  revert a. induction l as [|x l IH]; intros a Ha Hl; simpl; [lia|].
  inversion Hl; subst. apply IH; [lia | assumption].
Qed.

Lemma scanned_ids_ge (cursor : Z) (chain : list ALARM_ENTRY) :
  Forall (fun ae => cursor <= ae_unique_id ae) (scanned cursor chain).
Proof.
  induction chain as [|ae next IH]; simpl; [constructor|].
  destruct (Z.ltb_spec (ae_unique_id ae) cursor); constructor;
    [lia | assumption].
Qed.

(** The log processing leaves at the head of a log that is not empty an
    entry with the id of the one it found there, and sets the cursor to
    what the scan computed. *)
Lemma health_alarm_log_process_head (host : RRDHOST) (now clock : time_t)
    (ae0 : ALARM_ENTRY) (rest : list ALARM_ENTRY) :
  log_alarms (host_health_log host) = ae0 :: rest ->
  let host' :=
    fst (health_alarm_log_process run_notifier alarm_entry_isrepeating host
           now clock) in
  host_health_last_processed_id host'
  = snd (fst (dispatch_scan run_notifier alarm_entry_isrepeating host now
                clock (ae_unique_id ae0) (ae0 :: rest)))
  /\ exists ae0' rest',
       log_alarms (host_health_log host') = ae0' :: rest'
       /\ ae_unique_id ae0' = ae_unique_id ae0.
Proof.
  intros Hlog. unfold health_alarm_log_process. rewrite Hlog.
  pose proof (dispatch_scan_spec host now clock (ae0 :: rest)
                (ae_unique_id ae0)) as (Hids & _ & _).
  destruct (dispatch_scan _ _ _ _ _ _ (ae0 :: rest)) as [[chain fw] evs].
  cbn [fst snd] in *.
  destruct chain as [|a chain]; [discriminate|].
  injection Hids as Hid _.
  destruct (log_count (host_health_log host) <=? log_max (host_health_log host)).
  { cbn. eauto. }
  rewrite eviction_walk_split.
  destruct (Z.to_nat (uint32 (log_max (host_health_log host) * 2) / 3))
    as [|k].
  { cbn. eauto. }
  cbn [firstn skipn]. destruct (skipn k chain) as [|c cut].
  { cbn. eauto. }
  destruct (eviction_free _ _ _ _) as [count' evs']. cbn. eauto.
Qed.

End AlarmLog.

(** C4, as the code has it.  On a host whose log is not empty and whose
    cursor is not above the id of the newest entry, the log processing sets
    the cursor to the least id among the newest entry and the entries the
    scan visited that were waiting when it reached them (not of a repeating
    alarm, neither processed nor updated), whether or not it then
    dispatched them.  That value is not below the cursor's previous value
    and not above the id of the newest entry, which stays at the head of
    the log. *)
Theorem cursor_after_scan
    (run_notifier : NOTIFIER_COMMAND -> option Z)
    (alarm_entry_isrepeating : list RRDCALC -> ALARM_ENTRY -> bool)
    (host : RRDHOST) (now clock : time_t) (ae0 : ALARM_ENTRY)
    (rest : list ALARM_ENTRY) :
  log_alarms (host_health_log host) = ae0 :: rest ->
  host_health_last_processed_id host <= ae_unique_id ae0 ->
  let host' :=
    fst (health_alarm_log_process run_notifier alarm_entry_isrepeating host
           now clock) in
  host_health_last_processed_id host'
  = fold_left Z.min
      (map ae_unique_id
         (filter (waiting alarm_entry_isrepeating (host_alarms host))
            (scanned (host_health_last_processed_id host) (ae0 :: rest))))
      (ae_unique_id ae0)
  /\ host_health_last_processed_id host
     <= host_health_last_processed_id host'
  /\ exists ae0' rest',
       log_alarms (host_health_log host') = ae0' :: rest'
       /\ ae_unique_id ae0' = ae_unique_id ae0
       /\ host_health_last_processed_id host' <= ae_unique_id ae0'.
Proof.
  intros Hlog Hcur host'.
  destruct (health_alarm_log_process_head run_notifier
              alarm_entry_isrepeating host now clock ae0 rest Hlog)
    as (Hfw & ae0' & rest' & Hhead & Hid).
  fold host' in Hfw, Hhead.
  pose proof (dispatch_scan_spec run_notifier alarm_entry_isrepeating host
                now clock (ae0 :: rest) (ae_unique_id ae0)) as (_ & Hmin & _).
  cbv zeta in Hmin. rewrite Hmin in Hfw. clear Hmin.
  split; [exact Hfw|]. rewrite Hfw. split.
  - apply fold_min_ge; [assumption|].
    apply Forall_forall. intros x Hx. apply in_map_iff in Hx.
    destruct Hx as (ae & <- & Hae). apply filter_In in Hae as [Hae _].
    pose proof (scanned_ids_ge (host_health_last_processed_id host)
                  (ae0 :: rest)) as Hall.
    rewrite Forall_forall in Hall. now apply Hall.
  - exists ae0', rest'. repeat split; try assumption.
    rewrite Hid. apply fold_min_le.
Qed.

Lemma cursor_after_scan_witness :
  log_alarms (host_health_log c4_host)
  = sample_entry 3 7 RRDCALC_STATUS_WARNING 0 5000
    :: [sample_entry 2 8 RRDCALC_STATUS_WARNING 0 0]
  /\ host_health_last_processed_id c4_host <= 3
  /\ host_health_last_processed_id c4_host
     <= host_health_last_processed_id
          (fst (health_alarm_log_process notifier_ok never_repeating c4_host
                  1000 1000)).
Proof.
  assert (H1 : log_alarms (host_health_log c4_host)
               = sample_entry 3 7 RRDCALC_STATUS_WARNING 0 5000
                 :: [sample_entry 2 8 RRDCALC_STATUS_WARNING 0 0])
    by reflexivity.
  assert (H2 : host_health_last_processed_id c4_host
               <= ae_unique_id (sample_entry 3 7 RRDCALC_STATUS_WARNING 0 5000))
    by (vm_compute; discriminate).
  split; [exact H1|]. split; [exact H2|].
  exact (proj1 (proj2 (cursor_after_scan notifier_ok never_repeating c4_host
                         1000 1000 _ _ H1 H2))).
Defined.

(** C4 as the specification words it fails: in the log of [c4_host] the
    entry with id 3 is delayed and the entry with id 2 is due.  The scan
    dispatches the entry with id 2, after which only the entry with id 3 is
    pending, and sets the cursor to 2. *)
Lemma cursor_not_smallest_pending :
  let host' :=
    fst (health_alarm_log_process notifier_ok never_repeating c4_host 1000
           1000) in
  host_health_last_processed_id host' = 2
  /\ map ae_unique_id (filter is_pending (log_alarms (host_health_log host')))
     = [3]
  /\ ~ smallest_pending_id (log_alarms (host_health_log host'))
         (host_health_last_processed_id host').
Proof.
  split; [reflexivity|]. split; [reflexivity|].
  intros [(ae & Hin & Hp & Hid) _].
  change (host_health_last_processed_id
            (fst (health_alarm_log_process notifier_ok never_repeating
                    c4_host 1000 1000))) with 2 in Hid.
  vm_compute in Hin. destruct Hin as [<- | [<- | []]].
  - discriminate Hid.
  - discriminate Hp.
Qed.

(** X10.  What the eviction does when it cuts the log: when [count] is
    above [max] and the log holds more than [max * 2 / 3] entries, that
    number not being 0, it keeps exactly the newest [max * 2 / 3] entries,
    and for every entry behind them it calls the free routine twice if the
    entry is not repeating and once if it is, taking one from [count] (a
    32-bit value) at each call. *)
Lemma health_alarm_log_process_evicts
    (run_notifier : NOTIFIER_COMMAND -> option Z)
    (alarm_entry_isrepeating : list RRDCALC -> ALARM_ENTRY -> bool)
    (host : RRDHOST) (now clock : time_t) :
  let lg := host_health_log host in
  let keep := Z.to_nat (uint32 (log_max lg * 2) / 3) in
  let r :=
    health_alarm_log_process run_notifier alarm_entry_isrepeating host now
      clock in
  let chain :=
    fst (fst (dispatch_scan run_notifier alarm_entry_isrepeating host now
                clock
                match log_alarms lg with
                | ae :: _ => ae_unique_id ae
                | [] => 0
                end (log_alarms lg))) in
  log_max lg < log_count lg ->
  (0 < keep < List.length (log_alarms lg))%nat ->
  log_alarms (host_health_log (fst r)) = firstn keep chain
  /\ freed (snd r)
     = flat_map (eviction_frees alarm_entry_isrepeating (host_alarms host))
         (skipn keep chain)
  /\ uint32 (log_count (host_health_log (fst r)))
     = uint32 (log_count lg - Z.of_nat (List.length (freed (snd r)))).
Proof.
  intros lg keep r chain Hover Hkeep.
  subst r chain. unfold health_alarm_log_process. fold lg.
  pose proof (dispatch_scan_spec run_notifier alarm_entry_isrepeating host
                now clock (log_alarms lg)
                match log_alarms lg with
                | ae :: _ => ae_unique_id ae
                | [] => 0
                end) as (Hids & _ & Hfr).
  destruct (dispatch_scan _ _ _ _ _ _ (log_alarms lg)) as [[chain fw] evs].
  cbn [fst snd] in *.
  assert (Hlen : List.length chain = List.length (log_alarms lg)).
  { apply (f_equal (@List.length Z)) in Hids. now rewrite !length_map in Hids. }
  destruct (Z.leb_spec (log_count lg) (log_max lg)) as [Hle | _]; [lia|].
  rewrite eviction_walk_split. fold keep.
  pose proof (firstn_skipn keep chain) as Hsplit.
  assert (Hk : List.length (firstn keep chain) = keep)
    by (rewrite length_firstn; lia).
  assert (Hs : List.length (skipn keep chain)
               = (List.length chain - keep)%nat) by apply length_skipn.
  destruct (firstn keep chain) as [|a kept] eqn:Ekept;
    [simpl in Hk; lia|].
  destruct (skipn keep chain) as [|c cut] eqn:Ecut; [simpl in Hs; lia|].
  pose proof (eviction_free_spec alarm_entry_isrepeating (host_alarms host)
                (c :: cut) (log_count lg)) as (F1 & F2).
  destruct (eviction_free _ _ _ (c :: cut)) as [count' evs'].
  cbn [fst snd] in *.
  cbn [set_host_log set_host_last_processed_id host_health_log log_alarms
       log_count].
  rewrite freed_app, Hfr. cbn [app]. auto.
Qed.

(** C1, the code at a log of four entries with [max] 3.  With no entry
    repeating, the two newest entries are kept and each of the two older
    ones is passed to the free routine twice, and [count] goes from 4 to 0
    with two entries in the log.  With the oldest entry repeating, that
    entry is cut off the log as well and passed to the free routine once,
    and [count] goes to 1. *)
Theorem eviction_frees_entries_twice :
  let r :=
    health_alarm_log_process notifier_ok never_repeating c1_host 1000 1000 in
  let r' :=
    health_alarm_log_process notifier_ok alarm_9_repeating c1_host_repeating
      1000 1000 in
  map ae_unique_id (log_alarms (host_health_log (fst r))) = [4; 3]
  /\ map ae_unique_id (freed (snd r)) = [2; 2; 1; 1]
  /\ log_count (host_health_log (fst r)) = 0
  /\ map ae_unique_id (log_alarms (host_health_log (fst r'))) = [4; 3]
  /\ map ae_unique_id (freed (snd r')) = [2; 2; 1]
  /\ log_count (host_health_log (fst r')) = 1.
Proof. vm_compute. repeat split. Qed.

(** ** The clear-first law along the dispatch scan *)

Section ClearFirst.

Variable run_notifier : NOTIFIER_COMMAND -> option Z.
Variable alarm_entry_isrepeating : list RRDCALC -> ALARM_ENTRY -> bool.

(** An entry that reaches the notifier with no notified entry of its alarm
    behind it is not a clear entry, whatever its flags. *)
Lemma first_notification_not_clear (ae : ALARM_ENTRY)
    (next : list ALARM_ENTRY) :
  suppressed ae next = false ->
  never_notified (ae_alarm_id ae) next ->
  ae_new_status ae <> RRDCALC_STATUS_CLEAR.
Proof.
  unfold suppressed. intros H Hnever.
  apply orb_false_iff in H as [H _]. apply orb_false_iff in H as [H Hf].
  apply orb_false_iff in H as [_ Hc].
  apply find_exec_run_None in Hnever. rewrite Hnever in Hf.
  intros Hclear. rewrite Hclear in Hc, Hf.
  destruct (has_flag (ae_flags ae) HEALTH_ENTRY_FLAG_NO_CLEAR_NOTIFICATION);
    discriminate.
Qed.

(** The dispatcher marks an entry as notified only when it reaches the
    notifier. *)
Lemma execute_notified (host : RRDHOST) (clock : time_t) (ae : ALARM_ENTRY)
    (next : list ALARM_ENTRY) (id : Z) :
  notified_for id
    (fst (health_alarm_execute run_notifier host clock ae next)) = true ->
  notified_for id ae = true
  \/ (id = ae_alarm_id ae /\ suppressed ae next = false).
Proof.
  destruct (suppressed ae next) eqn:Hs.
  - rewrite execute_suppressed by assumption. unfold notified_for.
    cbn [fst ae_or_flag set_ae_flags ae_alarm_id ae_flags].
    rewrite has_flag_lor_disjoint by reflexivity. auto.
  - intros H. right. split; [|reflexivity].
    pose proof (execute_keeps_statuses run_notifier host clock ae next)
      as (_ & _ & _ & _ & Hid).
    unfold notified_for in H. rewrite Hid in H.
    apply andb_true_iff in H as [H _]. apply Z.eqb_eq in H. now symmetry.
Qed.

Lemma grows_refl (e : ALARM_ENTRY) : grows e e.
Proof. split; auto. Qed.

Lemma execute_grows (host : RRDHOST) (clock : time_t) (ae : ALARM_ENTRY)
    (next : list ALARM_ENTRY) :
  grows ae (fst (health_alarm_execute run_notifier host clock ae next)).
Proof.
  split; [apply execute_keeps_statuses|].
  intros id. unfold notified_for.
  pose proof (execute_keeps_statuses run_notifier host clock ae next)
    as (_ & _ & _ & _ & Hid).
  rewrite Hid. intros H. apply andb_true_iff in H as [-> H]. cbn [andb].
  destruct (suppressed ae next) eqn:Hs.
  - rewrite execute_suppressed by assumption.
    cbn [fst ae_or_flag set_ae_flags ae_flags].
    now rewrite has_flag_lor_disjoint by reflexivity.
  - rewrite execute_not_suppressed by assumption.
    destruct (run_notifier _) as [code|]; [destruct (code =? 0)|];
      cbn [fst ae_or_flag set_ae_flags set_ae_exec_code
           set_ae_exec_run_timestamp ae_flags];
      rewrite ?(has_flag_lor_disjoint _ HEALTH_ENTRY_FLAG_EXEC_FAILED
                  HEALTH_ENTRY_FLAG_EXEC_RUN) by reflexivity;
      apply has_flag_lor_same; discriminate.
Qed.

Lemma dispatch_scan_grows (host : RRDHOST) (now clock : time_t)
    (chain : list ALARM_ENTRY) (first_waiting : Z) :
  Forall2 grows chain
    (fst (fst (dispatch_scan run_notifier alarm_entry_isrepeating host now
                 clock first_waiting chain))).
Proof.
  revert first_waiting. induction chain as [|ae next IH]; intros fw.
  - constructor.
  - cbn [dispatch_scan].
    destruct (ae_unique_id ae <? host_health_last_processed_id host).
    { cbn [fst]. clear. induction (ae :: next); constructor;
        [apply grows_refl | assumption]. }
    destruct (negb (alarm_entry_isrepeating (host_alarms host) ae)
              && is_pending ae);
      [destruct (ae_delay_up_to_timestamp ae <=? now)|].
    + unfold health_process_notifications.
      pose proof (execute_grows host clock ae next) as Hg.
      destruct (health_alarm_execute run_notifier host clock ae next)
        as [ae' evs].
      match goal with
      | |- context [dispatch_scan _ _ _ _ _ ?f next] => specialize (IH f)
      end.
      destruct (dispatch_scan _ _ _ _ _ _ next) as [[next' fw'] evs'].
      cbn [fst] in *. now constructor.
    + match goal with
      | |- context [dispatch_scan _ _ _ _ _ ?f next] => specialize (IH f)
      end.
      destruct (dispatch_scan _ _ _ _ _ _ next) as [[next' fw'] evs'].
      cbn [fst] in *. constructor; [apply grows_refl | assumption].
    + specialize (IH fw).
      destruct (dispatch_scan _ _ _ _ _ _ next) as [[next' fw'] evs'].
      cbn [fst] in *. constructor; [apply grows_refl | assumption].
Qed.

Lemma never_notified_grows (id : Z) (chain chain' : list ALARM_ENTRY) :
  Forall2 grows chain chain' ->
  never_notified id chain' -> never_notified id chain.
Proof.
  unfold never_notified. induction 1 as [|e e' l l' [_ Hg] _ IH].
  - constructor.
  - intros Hn. inversion Hn; subst. constructor; [|auto].
    destruct (notified_for id e) eqn:He; [|reflexivity].
    apply Hg in He. congruence.
Qed.

Lemma clear_first_law_tail (ae : ALARM_ENTRY) (next : list ALARM_ENTRY) :
  clear_first_law (ae :: next) -> clear_first_law next.
Proof.
  intros H id newer t older ->. apply (H id (ae :: newer) t older).
  reflexivity.
Qed.

(** X8.  The dispatch scan keeps the clear-first law of a log: if, before
    the scan, the oldest entry of every alarm for which the notifier was
    started is not a clear entry, the same holds after it. *)
Lemma dispatch_scan_clear_first (host : RRDHOST) (now clock : time_t)
    (chain : list ALARM_ENTRY) (first_waiting : Z) :
  clear_first_law chain ->
  clear_first_law
    (fst (fst (dispatch_scan run_notifier alarm_entry_isrepeating host now
                 clock first_waiting chain))).
Proof.
  revert first_waiting. induction chain as [|ae next IH]; intros fw Hlaw.
  - exact Hlaw.
  - pose proof (dispatch_scan_grows host now clock) as Hgrows.
    cbn [dispatch_scan].
    destruct (ae_unique_id ae <? host_health_last_processed_id host);
      [exact Hlaw|].
    assert (Hstep : forall ae' fw',
      (ae' = ae
       \/ ae' = fst (health_alarm_execute run_notifier host clock ae next)) ->
      clear_first_law
        (ae' :: fst (fst (dispatch_scan run_notifier alarm_entry_isrepeating
                            host now clock fw' next)))).
    { intros ae' fw' Hae' id newer t older Hsplit Ht Hnever.
      destruct newer as [|n newer]; simpl in Hsplit; injection Hsplit as <- Hs.
      - subst older.
        apply (never_notified_grows id _ _ (Hgrows next fw')) in Hnever.
        destruct Hae' as [-> | ->].
        + now apply (Hlaw id [] ae next).
        + pose proof (execute_grows host clock ae next) as [-> _].
          apply execute_notified in Ht as [Ht | [-> Hs]].
          * now apply (Hlaw id [] ae next).
          * now apply (first_notification_not_clear ae next).
      - apply (IH fw' (clear_first_law_tail ae next Hlaw) id newer t older);
          assumption. }
    destruct (negb (alarm_entry_isrepeating (host_alarms host) ae)
              && is_pending ae);
      [destruct (ae_delay_up_to_timestamp ae <=? now)|].
    + unfold health_process_notifications.
      destruct (health_alarm_execute run_notifier host clock ae next)
        as [ae' evs].
      match goal with
      | |- context [dispatch_scan _ _ _ _ _ ?f next] =>
          specialize (Hstep ae' f (or_intror eq_refl))
      end.
      destruct (dispatch_scan _ _ _ _ _ _ next) as [[next' fw'] evs'].
      exact Hstep.
    + match goal with
      | |- context [dispatch_scan _ _ _ _ _ ?f next] =>
          specialize (Hstep ae f (or_introl eq_refl))
      end.
      destruct (dispatch_scan _ _ _ _ _ _ next) as [[next' fw'] evs'].
      exact Hstep.
    + specialize (Hstep ae fw (or_introl eq_refl)).
      destruct (dispatch_scan _ _ _ _ _ _ next) as [[next' fw'] evs'].
      exact Hstep.
Qed.

End ClearFirst.

(** * Further properties *)

(** ** The dispatcher, continued *)

Lemma has_flag_lor_keeps (f m m' : Z) :
  has_flag f m = true -> has_flag (Z.lor f m') m = true.
Proof.
  unfold has_flag. rewrite !negb_true_iff, !Z.eqb_neq.
  intros H H'. rewrite Z.land_lor_distr_l in H'.
  apply Z.lor_eq_0_iff in H'. tauto.
Qed.

(** X1.  The dispatcher never starts the notifier for an entry with an
    internal status (below clear), for a silenced entry, or for a clear
    entry that carries no-clear-notification: it marks the entry processed,
    persists it, and does nothing else. *)
Theorem dispatcher_never_notifies
    (run_notifier : NOTIFIER_COMMAND -> option Z) (host : RRDHOST)
    (clock : time_t) (ae : ALARM_ENTRY) (next : list ALARM_ENTRY) :
  status_ltb (ae_new_status ae) RRDCALC_STATUS_CLEAR = true
  \/ has_flag (ae_flags ae) HEALTH_ENTRY_FLAG_SILENCED = true
  \/ (ae_new_status ae = RRDCALC_STATUS_CLEAR
      /\ has_flag (ae_flags ae) HEALTH_ENTRY_FLAG_NO_CLEAR_NOTIFICATION
         = true) ->
  health_alarm_execute run_notifier host clock ae next
  = (ae_or_flag HEALTH_ENTRY_FLAG_PROCESSED ae,
     [EvSave (ae_or_flag HEALTH_ENTRY_FLAG_PROCESSED ae)]).
Proof.
  intros H. apply execute_suppressed. unfold suppressed.
  destruct H as [H | [H | [Hc Hn]]].
  - now rewrite H.
  - rewrite H. now rewrite orb_true_r.
  - rewrite Hc, Hn. cbn. reflexivity.
Qed.

Lemma dispatcher_never_notifies_witness :
  (status_ltb (ae_new_status x_silenced_entry) RRDCALC_STATUS_CLEAR = true
   \/ has_flag (ae_flags x_silenced_entry) HEALTH_ENTRY_FLAG_SILENCED = true
   \/ (ae_new_status x_silenced_entry = RRDCALC_STATUS_CLEAR
       /\ has_flag (ae_flags x_silenced_entry)
            HEALTH_ENTRY_FLAG_NO_CLEAR_NOTIFICATION = true))
  /\ health_alarm_execute notifier_ok c2_host 100 x_silenced_entry [c2_older]
     = (ae_or_flag HEALTH_ENTRY_FLAG_PROCESSED x_silenced_entry,
        [EvSave (ae_or_flag HEALTH_ENTRY_FLAG_PROCESSED x_silenced_entry)]).
Proof.
  assert (H : status_ltb (ae_new_status x_silenced_entry) RRDCALC_STATUS_CLEAR
              = true
              \/ has_flag (ae_flags x_silenced_entry)
                   HEALTH_ENTRY_FLAG_SILENCED = true
              \/ (ae_new_status x_silenced_entry = RRDCALC_STATUS_CLEAR
                  /\ has_flag (ae_flags x_silenced_entry)
                       HEALTH_ENTRY_FLAG_NO_CLEAR_NOTIFICATION = true))
    by (right; left; reflexivity).
  split; [exact H|].
  exact (dispatcher_never_notifies notifier_ok c2_host 100 x_silenced_entry
           [c2_older] H).
Defined.

(** X2.  Every call of the dispatcher leaves the entry marked processed
    with no flag taken away, persists the entry it leaves exactly once, as
    the last thing it does, and starts the notifier at most once; the entry
    is marked exec-run after the call exactly when it was before or the
    notifier was started. *)
Theorem dispatcher_always_persists
    (run_notifier : NOTIFIER_COMMAND -> option Z) (host : RRDHOST)
    (clock : time_t) (ae : ALARM_ENTRY) (next : list ALARM_ENTRY) :
  let r := health_alarm_execute run_notifier host clock ae next in
  has_flag (ae_flags (fst r)) HEALTH_ENTRY_FLAG_PROCESSED = true
  /\ (forall m, has_flag (ae_flags ae) m = true ->
                has_flag (ae_flags (fst r)) m = true)
  /\ (snd r = [EvSave (fst r)]
      \/ exists cmd code, snd r = [EvPopen cmd code; EvSave (fst r)])
  /\ (has_flag (ae_flags (fst r)) HEALTH_ENTRY_FLAG_EXEC_RUN = true <->
      has_flag (ae_flags ae) HEALTH_ENTRY_FLAG_EXEC_RUN = true
      \/ notifier_called (snd r) = true).
Proof.
  intros r. subst r. destruct (suppressed ae next) eqn:Hs.
  - rewrite execute_suppressed by assumption.
    cbn [fst snd ae_or_flag set_ae_flags ae_flags notifier_called existsb].
    split; [apply has_flag_lor_same; discriminate|].
    split; [intros m; apply has_flag_lor_keeps|].
    split; [now left|].
    rewrite has_flag_lor_disjoint by reflexivity.
    split; [auto | intros [H | H]; [assumption | discriminate]].
  - rewrite execute_not_suppressed by assumption.
    assert (Hrun : forall f,
      has_flag (Z.lor (Z.lor f HEALTH_ENTRY_FLAG_PROCESSED)
                  HEALTH_ENTRY_FLAG_EXEC_RUN) HEALTH_ENTRY_FLAG_EXEC_RUN
      = true) by (intros f; apply has_flag_lor_same; discriminate).
    assert (Hproc : forall f,
      has_flag (Z.lor (Z.lor f HEALTH_ENTRY_FLAG_PROCESSED)
                  HEALTH_ENTRY_FLAG_EXEC_RUN) HEALTH_ENTRY_FLAG_PROCESSED
      = true).
    { intros f. apply has_flag_lor_keeps, has_flag_lor_same. discriminate. }
    destruct (run_notifier _) as [code|]; [destruct (code =? 0)|];
      cbn [fst snd ae_or_flag set_ae_flags set_ae_exec_code
           set_ae_exec_run_timestamp ae_flags notifier_called existsb orb];
      (split; [auto using has_flag_lor_keeps|]);
      (split; [intros m Hm; auto using has_flag_lor_keeps|]);
      (split; [right; eauto|]);
      (split; [auto | intros _; auto using has_flag_lor_keeps]).
Qed.

(** X3.  When the notifier was started and exited with [code], the entry
    carries that exit code, the exec-run flag and the exec-run timestamp;
    it is marked exec-failed if the code is not 0, and its exec-failed flag
    is as it was if the code is 0. *)
Theorem notifier_exit_code_recorded
    (run_notifier : NOTIFIER_COMMAND -> option Z) (host : RRDHOST)
    (clock : time_t) (ae : ALARM_ENTRY) (next : list ALARM_ENTRY)
    (cmd : NOTIFIER_COMMAND) (code : Z) :
  In (EvPopen cmd (Some code))
     (snd (health_alarm_execute run_notifier host clock ae next)) ->
  let ae' := fst (health_alarm_execute run_notifier host clock ae next) in
  ae_exec_code ae' = code
  /\ ae_exec_run_timestamp ae' = clock
  /\ has_flag (ae_flags ae') HEALTH_ENTRY_FLAG_EXEC_RUN = true
  /\ (code <> 0 ->
      has_flag (ae_flags ae') HEALTH_ENTRY_FLAG_EXEC_FAILED = true)
  /\ (code = 0 ->
      has_flag (ae_flags ae') HEALTH_ENTRY_FLAG_EXEC_FAILED
      = has_flag (ae_flags ae) HEALTH_ENTRY_FLAG_EXEC_FAILED).
Proof.
  intros Hin ae'. subst ae'.
  destruct (suppressed ae next) eqn:Hs.
  { rewrite execute_suppressed in Hin by assumption.
    destruct Hin as [H | []]. discriminate. }
  rewrite execute_not_suppressed in * by assumption.
  destruct (run_notifier _) as [code'|].
  2:{ destruct Hin as [H | [H | []]]; discriminate. }
  destruct Hin as [H | [H | []]]; [|discriminate].
  injection H as _ <-.
  assert (Hrun : has_flag
            (Z.lor (Z.lor (ae_flags ae) HEALTH_ENTRY_FLAG_PROCESSED)
               HEALTH_ENTRY_FLAG_EXEC_RUN) HEALTH_ENTRY_FLAG_EXEC_RUN = true)
    by (apply has_flag_lor_same; discriminate).
  destruct (Z.eqb_spec code' 0) as [H0 | H0];
    cbn [fst ae_or_flag set_ae_flags set_ae_exec_code
         set_ae_exec_run_timestamp ae_flags ae_exec_code
         ae_exec_run_timestamp].
  - repeat split; try assumption; [congruence|].
    intros _. now rewrite !has_flag_lor_disjoint by reflexivity.
  - repeat split.
    + now apply has_flag_lor_keeps.
    + intros _. apply has_flag_lor_same. discriminate.
    + congruence.
Qed.

Lemma notifier_exit_code_recorded_witness :
  let cmd :=
    build_command c2_host (ae_or_flag HEALTH_ENTRY_FLAG_PROCESSED c2_entry) in
  let run := health_alarm_execute notifier_failing c2_host 100 c2_entry
               [c2_older] in
  In (EvPopen cmd (Some 1)) (snd run)
  /\ ae_exec_code (fst run) = 1
  /\ has_flag (ae_flags (fst run)) HEALTH_ENTRY_FLAG_EXEC_FAILED = true.
Proof.
  intros cmd run.
  assert (Hin : In (EvPopen cmd (Some 1)) (snd run)) by (left; reflexivity).
  split; [exact Hin|].
  destruct (notifier_exit_code_recorded notifier_failing c2_host 100 c2_entry
              [c2_older] cmd 1 Hin) as (H1 & _ & _ & H4 & _).
  split; [exact H1|]. apply H4. discriminate.
Defined.

Lemma count_raised_step (ae : ALARM_ENTRY) (rc : RRDCALC)
    (n_warn n_crit : Z) (expr : option EVAL_EXPRESSION) :
  exists expr',
    count_raised ae (n_warn, n_crit, expr) rc
    = (n_warn + Z.b2z (collected_with RRDCALC_STATUS_WARNING rc),
       n_crit + Z.b2z (collected_with RRDCALC_STATUS_CRITICAL rc), expr').
Proof.
  unfold count_raised, collected_with.
  destruct (rc_rrdset rc) as [st|].
  - destruct (st_last_collected_time_tv_sec st =? 0); cbn [negb andb].
    + exists expr. cbn. now rewrite !Z.add_0_r.
    + destruct (rc_status rc); cbn; rewrite ?Z.add_0_r; eauto.
  - exists expr. cbn. now rewrite !Z.add_0_r.
Qed.

Lemma length_filter_cons {A : Type} (f : A -> bool) (x : A) (l : list A) :
  Z.of_nat (List.length (filter f (x :: l)))
  = Z.b2z (f x) + Z.of_nat (List.length (filter f l)).
Proof. cbn [filter]. destruct (f x); cbn [List.length Z.b2z]; lia. Qed.

Lemma count_raised_fold (ae : ALARM_ENTRY) (l : list RRDCALC)
    (n_warn n_crit : Z) (expr : option EVAL_EXPRESSION) :
  let r := fold_left (count_raised ae) l (n_warn, n_crit, expr) in
  fst (fst r)
  = n_warn
    + Z.of_nat (List.length (filter (collected_with RRDCALC_STATUS_WARNING) l))
  /\ snd (fst r)
     = n_crit
       + Z.of_nat
           (List.length (filter (collected_with RRDCALC_STATUS_CRITICAL) l)).
Proof.
  revert n_warn n_crit expr.
  induction l as [|rc l IH]; intros n_warn n_crit expr.
  - simpl. lia.
  - cbn [fold_left].
    destruct (count_raised_step ae rc n_warn n_crit expr) as (expr' & ->).
    specialize (IH (n_warn + Z.b2z (collected_with RRDCALC_STATUS_WARNING rc))
                  (n_crit + Z.b2z (collected_with RRDCALC_STATUS_CRITICAL rc))
                  expr').
    cbv zeta in IH. destruct IH as [-> ->].
    rewrite !length_filter_cons. lia.
Qed.

(** X4.  The counts the notifier is given: [n_warn] is the number of the
    host's alarms that have a linked chart that has been collected and are
    in warning, [n_crit] the number of those in critical. *)
Theorem notifier_counts (host : RRDHOST) (ae : ALARM_ENTRY) :
  cmd_n_warn (build_command host ae)
  = Z.of_nat
      (List.length
         (filter (collected_with RRDCALC_STATUS_WARNING) (host_alarms host)))
  /\ cmd_n_crit (build_command host ae)
     = Z.of_nat
         (List.length
            (filter (collected_with RRDCALC_STATUS_CRITICAL)
               (host_alarms host))).
Proof.
  unfold build_command.
  pose proof (count_raised_fold ae (host_alarms host) 0 0 None) as H.
  cbv zeta in H.
  destruct (fold_left (count_raised ae) (host_alarms host) (0, 0, None))
    as [[w c] e].
  cbn [fst snd cmd_n_warn cmd_n_crit] in *. lia.
Qed.

(** X5.  An entry that carries no-clear-notification, has a status above
    clear and is not silenced has the notifier started whatever lies behind
    it in the log: for such entries there is no same-status suppression. *)
Theorem no_clear_entry_always_notifies
    (run_notifier : NOTIFIER_COMMAND -> option Z) (host : RRDHOST)
    (clock : time_t) (ae : ALARM_ENTRY) (next : list ALARM_ENTRY) :
  has_flag (ae_flags ae) HEALTH_ENTRY_FLAG_NO_CLEAR_NOTIFICATION = true ->
  status_ltb RRDCALC_STATUS_CLEAR (ae_new_status ae) = true ->
  has_flag (ae_flags ae) HEALTH_ENTRY_FLAG_SILENCED = false ->
  notifier_called (snd (health_alarm_execute run_notifier host clock ae next))
  = true.
Proof.
  intros Hn Hst Hs. rewrite notifier_called_iff. apply negb_true_iff.
  unfold suppressed. rewrite Hn, Hs. cbn [negb andb orb].
  unfold status_ltb, status_leb in *.
  apply Z.ltb_lt in Hst.
  destruct (Z.ltb_spec (status_int (ae_new_status ae))
              (status_int RRDCALC_STATUS_CLEAR)); [lia|].
  destruct (Z.leb_spec (status_int (ae_new_status ae))
              (status_int RRDCALC_STATUS_CLEAR)); [lia|].
  reflexivity.
Qed.

Lemma no_clear_entry_always_notifies_witness :
  has_flag (ae_flags x_no_clear_entry) HEALTH_ENTRY_FLAG_NO_CLEAR_NOTIFICATION
  = true
  /\ status_ltb RRDCALC_STATUS_CLEAR (ae_new_status x_no_clear_entry) = true
  /\ has_flag (ae_flags x_no_clear_entry) HEALTH_ENTRY_FLAG_SILENCED = false
  /\ ae_new_status x_notified_warning = ae_new_status x_no_clear_entry
  /\ notifier_called
       (snd (health_alarm_execute notifier_ok c2_host 100 x_no_clear_entry
               [x_notified_warning]))
     = true.
Proof.
  split; [reflexivity|]. split; [reflexivity|]. split; [reflexivity|].
  split; [reflexivity|].
  exact (no_clear_entry_always_notifies notifier_ok c2_host 100
           x_no_clear_entry [x_notified_warning] eq_refl eq_refl eq_refl).
Defined.

(** ** The dispatch scan, continued *)

Lemma execute_popen_command (run_notifier : NOTIFIER_COMMAND -> option Z)
    (host : RRDHOST) (clock : time_t) (ae : ALARM_ENTRY)
    (next : list ALARM_ENTRY) (cmd : NOTIFIER_COMMAND) (code : option Z) :
  In (EvPopen cmd code)
     (snd (health_alarm_execute run_notifier host clock ae next)) ->
  cmd = build_command host (ae_or_flag HEALTH_ENTRY_FLAG_PROCESSED ae).
Proof.
  destruct (suppressed ae next) eqn:Hs.
  - rewrite execute_suppressed by assumption.
    intros [H | []]. discriminate.
  - rewrite execute_not_suppressed by assumption.
    destruct (run_notifier _); intros [H | [H | []]];
      try discriminate; now injection H.
Qed.

Lemma build_command_entry (host : RRDHOST) (ae : ALARM_ENTRY) :
  cmd_entry (build_command host ae) = ae.
Proof.
  unfold build_command.
  now destruct (fold_left (count_raised ae) (host_alarms host) (0, 0, None))
    as [[w c] e].
Qed.

(** X6.  The dispatch scan starts the notifier only for entries it
    visits (those ahead of the first entry below the cursor) that are
    waiting (not of a repeating alarm, neither processed nor updated) and
    whose delay has passed; the command is built from that entry, marked
    processed. *)
Theorem scan_notifies_only_due_waiting
    (run_notifier : NOTIFIER_COMMAND -> option Z)
    (alarm_entry_isrepeating : list RRDCALC -> ALARM_ENTRY -> bool)
    (host : RRDHOST) (now clock : time_t) (first_waiting : Z)
    (chain : list ALARM_ENTRY) (cmd : NOTIFIER_COMMAND) (code : option Z) :
  In (EvPopen cmd code)
     (snd (dispatch_scan run_notifier alarm_entry_isrepeating host now clock
             first_waiting chain)) ->
  exists ae,
    In ae (scanned (host_health_last_processed_id host) chain)
    /\ waiting alarm_entry_isrepeating (host_alarms host) ae = true
    /\ ae_delay_up_to_timestamp ae <= now
    /\ cmd_entry cmd = ae_or_flag HEALTH_ENTRY_FLAG_PROCESSED ae.
Proof.
  revert first_waiting. induction chain as [|ae next IH]; intros fw.
  - intros [].
  - cbn [dispatch_scan scanned].
    destruct (ae_unique_id ae <? host_health_last_processed_id host).
    { intros []. }
    assert (Hrest : forall fw',
      In (EvPopen cmd code)
         (snd (dispatch_scan run_notifier alarm_entry_isrepeating host now
                 clock fw' next)) ->
      exists ae0,
        In ae0 (ae :: scanned (host_health_last_processed_id host) next)
        /\ waiting alarm_entry_isrepeating (host_alarms host) ae0 = true
        /\ ae_delay_up_to_timestamp ae0 <= now
        /\ cmd_entry cmd = ae_or_flag HEALTH_ENTRY_FLAG_PROCESSED ae0).
    { intros fw' H. destruct (IH fw' H) as (ae0 & Hin & Hrest).
      exists ae0. split; [now right | assumption]. }
    fold (waiting alarm_entry_isrepeating (host_alarms host) ae).
    destruct (waiting alarm_entry_isrepeating (host_alarms host) ae) eqn:Hw;
      [destruct (Z.leb_spec (ae_delay_up_to_timestamp ae) now) as [Hd | Hd]|].
    + unfold health_process_notifications.
      pose proof (execute_popen_command run_notifier host clock ae next cmd
                    code) as Hcmd.
      destruct (health_alarm_execute run_notifier host clock ae next)
        as [ae' evs].
      match goal with
      | |- context [dispatch_scan _ _ _ _ _ ?f next] =>
          specialize (Hrest f)
      end.
      destruct (dispatch_scan _ _ _ _ _ _ next) as [[next' fw'] evs'].
      cbn [fst snd] in *. intros Hin. apply in_app_or in Hin as [Hin | Hin].
      * exists ae. split; [now left|]. split; [exact Hw|].
        split; [exact Hd|]. rewrite (Hcmd Hin). apply build_command_entry.
      * now apply Hrest.
    + match goal with
      | |- context [dispatch_scan _ _ _ _ _ ?f next] =>
          specialize (Hrest f)
      end.
      destruct (dispatch_scan _ _ _ _ _ _ next) as [[next' fw'] evs'].
      cbn [fst snd app] in *. assumption.
    + specialize (Hrest fw).
      destruct (dispatch_scan _ _ _ _ _ _ next) as [[next' fw'] evs'].
      cbn [fst snd app] in *. assumption.
Qed.

Lemma scan_notifies_only_due_waiting_witness :
  let host := c4_host in
  let cmd :=
    build_command host
      (ae_or_flag HEALTH_ENTRY_FLAG_PROCESSED
         (sample_entry 2 8 RRDCALC_STATUS_WARNING 0 0)) in
  In (EvPopen cmd (Some 0))
     (snd (dispatch_scan notifier_ok never_repeating host 1000 1000 3
             (log_alarms (host_health_log host))))
  /\ exists ae,
       In ae (scanned (host_health_last_processed_id host)
                (log_alarms (host_health_log host)))
       /\ waiting never_repeating (host_alarms host) ae = true
       /\ ae_delay_up_to_timestamp ae <= 1000
       /\ cmd_entry cmd = ae_or_flag HEALTH_ENTRY_FLAG_PROCESSED ae.
Proof.
  intros host cmd.
  assert (Hin : In (EvPopen cmd (Some 0))
                  (snd (dispatch_scan notifier_ok never_repeating host 1000
                          1000 3 (log_alarms (host_health_log host)))))
    by (left; reflexivity).
  split; [exact Hin|].
  exact (scan_notifies_only_due_waiting notifier_ok never_repeating host 1000
           1000 3 (log_alarms (host_health_log host)) cmd (Some 0) Hin).
Defined.

Lemma execute_not_pending (run_notifier : NOTIFIER_COMMAND -> option Z)
    (host : RRDHOST) (clock : time_t) (ae : ALARM_ENTRY)
    (next : list ALARM_ENTRY) :
  is_pending (fst (health_alarm_execute run_notifier host clock ae next))
  = false.
Proof.
  unfold is_pending.
  replace (has_flag
             (ae_flags
                (fst (health_alarm_execute run_notifier host clock ae next)))
             HEALTH_ENTRY_FLAG_PROCESSED) with true; [reflexivity|].
  symmetry. destruct (suppressed ae next) eqn:Hs.
  - rewrite execute_suppressed by assumption.
    apply has_flag_lor_same. discriminate.
  - rewrite execute_not_suppressed by assumption.
    destruct (run_notifier _) as [code|]; [destruct (code =? 0)|];
      cbn [fst ae_or_flag set_ae_flags set_ae_exec_code
           set_ae_exec_run_timestamp ae_flags];
      rewrite ?has_flag_lor_disjoint by reflexivity;
      apply has_flag_lor_same; discriminate.
Qed.

(** X7.  A dispatch scan leaves nothing for a second scan at the same
    time: on the log a scan leaves, a scan with the same [now], the same
    alarm registry and a cursor that is not lower changes no entry and
    calls neither the notifier nor anything else.  An entry is dispatched
    at most once. *)
Theorem dispatch_scan_twice
    (run_notifier run_notifier' : NOTIFIER_COMMAND -> option Z)
    (alarm_entry_isrepeating : list RRDCALC -> ALARM_ENTRY -> bool)
    (host host' : RRDHOST) (now clock clock' : time_t)
    (first_waiting first_waiting' : Z) (chain : list ALARM_ENTRY) :
  host_alarms host' = host_alarms host ->
  host_health_last_processed_id host <= host_health_last_processed_id host' ->
  let chain1 :=
    fst (fst (dispatch_scan run_notifier alarm_entry_isrepeating host now
                clock first_waiting chain)) in
  let second :=
    dispatch_scan run_notifier' alarm_entry_isrepeating host' now clock'
      first_waiting' chain1 in
  fst (fst second) = chain1 /\ snd second = [].
Proof.
  intros Halarms Hcursor. cbv zeta.
  revert first_waiting first_waiting'.
  induction chain as [|ae next IH]; intros fw fw'.
  - simpl. auto.
  - assert (Hkeep : forall ae1 fw1 fw2,
      ae_unique_id ae1 = ae_unique_id ae ->
      negb (alarm_entry_isrepeating (host_alarms host') ae1)
      && is_pending ae1 && (ae_delay_up_to_timestamp ae1 <=? now) = false ->
      let next1 :=
        fst (fst (dispatch_scan run_notifier alarm_entry_isrepeating host now
                    clock fw1 next)) in
      fst (fst (dispatch_scan run_notifier' alarm_entry_isrepeating host' now
                  clock' fw2 (ae1 :: next1))) = ae1 :: next1
      /\ snd (dispatch_scan run_notifier' alarm_entry_isrepeating host' now
                clock' fw2 (ae1 :: next1)) = []).
    { intros ae1 fw1 fw2 Hid Hquiet. cbv zeta. cbn [dispatch_scan].
      destruct (ae_unique_id ae1 <? host_health_last_processed_id host');
        [auto|].
      destruct (negb (alarm_entry_isrepeating (host_alarms host') ae1)
                && is_pending ae1) eqn:Hw.
      - cbn [andb] in Hquiet. rewrite Hquiet.
        match goal with
        | |- context [dispatch_scan _ _ host' _ _ ?f _] =>
            destruct (IH fw1 f) as [I1 I2]
        end.
        destruct (dispatch_scan run_notifier' _ host' _ _ _ _)
          as [[next2 fw3] evs2].
        cbn [fst snd app] in *. now subst.
      - destruct (IH fw1 fw2) as [I1 I2].
        destruct (dispatch_scan run_notifier' _ host' _ _ _ _)
          as [[next2 fw3] evs2].
        cbn [fst snd app] in *. now subst. }
    cbn [dispatch_scan].
    destruct (Z.ltb_spec (ae_unique_id ae)
                (host_health_last_processed_id host)) as [Hlow | Hhigh].
    { cbn [fst dispatch_scan].
      destruct (Z.ltb_spec (ae_unique_id ae)
                  (host_health_last_processed_id host')); [auto | lia]. }
    rewrite <- Halarms.
    destruct (negb (alarm_entry_isrepeating (host_alarms host') ae)
              && is_pending ae) eqn:Hw;
      [destruct (ae_delay_up_to_timestamp ae <=? now) eqn:Hd|].
    + unfold health_process_notifications.
      pose proof (execute_not_pending run_notifier host clock ae next) as Hnp.
      pose proof (execute_keeps_statuses run_notifier host clock ae next)
        as (_ & _ & _ & Hid & _).
      destruct (health_alarm_execute run_notifier host clock ae next)
        as [ae' evs].
      cbn [fst] in Hnp, Hid.
      match goal with
      | |- context [dispatch_scan run_notifier _ host _ _ ?f next] =>
          specialize (Hkeep ae' f fw' Hid)
      end.
      rewrite Hnp, andb_false_r in Hkeep. specialize (Hkeep eq_refl).
      cbv zeta in Hkeep.
      destruct (dispatch_scan run_notifier _ host _ _ _ next)
        as [[next1 fw1] evs1].
      cbn [fst] in *. exact Hkeep.
    + match goal with
      | |- context [dispatch_scan run_notifier _ host _ _ ?f next] =>
          specialize (Hkeep ae f fw' eq_refl)
      end.
      rewrite Hw, Hd in Hkeep. specialize (Hkeep eq_refl).
      cbv zeta in Hkeep.
      destruct (dispatch_scan run_notifier _ host _ _ _ next)
        as [[next1 fw1] evs1].
      cbn [fst] in *. exact Hkeep.
    + specialize (Hkeep ae fw fw' eq_refl).
      rewrite Hw in Hkeep. specialize (Hkeep eq_refl).
      cbv zeta in Hkeep.
      destruct (dispatch_scan run_notifier _ host _ _ _ next)
        as [[next1 fw1] evs1].
      cbn [fst] in *. exact Hkeep.
Qed.

Lemma dispatch_scan_twice_witness :
  host_alarms c4_host = host_alarms c4_host
  /\ host_health_last_processed_id c4_host
     <= host_health_last_processed_id c4_host
  /\ (let chain1 :=
        fst (fst (dispatch_scan notifier_ok never_repeating c4_host 1000 1000
                    3 (log_alarms (host_health_log c4_host)))) in
      let second :=
        dispatch_scan notifier_ok never_repeating c4_host 1000 1000 3 chain1
      in
      fst (fst second) = chain1 /\ snd second = []).
Proof.
  assert (H1 : host_alarms c4_host = host_alarms c4_host) by reflexivity.
  assert (H2 : host_health_last_processed_id c4_host
               <= host_health_last_processed_id c4_host)
    by (vm_compute; discriminate).
  split; [exact H1|]. split; [exact H2|].
  exact (dispatch_scan_twice notifier_ok notifier_ok never_repeating c4_host
           c4_host 1000 1000 1000 3 3 (log_alarms (host_health_log c4_host))
           H1 H2).
Defined.

(** The log of [c4_host], in which no entry is notified, keeps the law. *)
Lemma dispatch_scan_clear_first_witness :
  clear_first_law (log_alarms (host_health_log c4_host))
  /\ clear_first_law
       (fst (fst (dispatch_scan notifier_ok never_repeating c4_host 1000 1000
                    3 (log_alarms (host_health_log c4_host))))).
Proof.
  assert (H : clear_first_law (log_alarms (host_health_log c4_host))).
  { intros id newer t older Hsplit Ht _.
    assert (Hin : In t (log_alarms (host_health_log c4_host)))
      by (rewrite Hsplit; apply in_or_app; right; now left).
    unfold notified_for in Ht. apply andb_true_iff in Ht as [_ Ht].
    destruct Hin as [<- | [<- | []]]; discriminate Ht. }
  split; [exact H|].
  exact (dispatch_scan_clear_first notifier_ok never_repeating c4_host 1000
           1000 (log_alarms (host_health_log c4_host)) 3 H).
Defined.

(** ** The log processing, continued *)

(** X9.  On an empty log the log processing calls nothing and leaves the
    log as it is, whatever [count] and [max] are, and sets the cursor
    to 0. *)
Theorem log_process_empty_log
    (run_notifier : NOTIFIER_COMMAND -> option Z)
    (alarm_entry_isrepeating : list RRDCALC -> ALARM_ENTRY -> bool)
    (host : RRDHOST) (now clock : time_t) :
  log_alarms (host_health_log host) = [] ->
  let r :=
    health_alarm_log_process run_notifier alarm_entry_isrepeating host now
      clock in
  snd r = []
  /\ host_health_last_processed_id (fst r) = 0
  /\ host_health_log (fst r) = host_health_log host
  /\ host_alarms (fst r) = host_alarms host.
Proof.
  intros Hempty. unfold health_alarm_log_process. rewrite Hempty.
  cbn [dispatch_scan].
  assert (Hlog : {| log_next_log_id := log_next_log_id (host_health_log host);
                    log_count := log_count (host_health_log host);
                    log_max := log_max (host_health_log host);
                    log_alarms := [] |} = host_health_log host).
  { destruct (host_health_log host). cbn in *. now subst. }
  rewrite Hlog.
  destruct (log_count (host_health_log host)
            <=? log_max (host_health_log host)).
  - cbn. auto.
  - rewrite eviction_walk_split.
    destruct (Z.to_nat _); cbn; auto.
Qed.

Lemma log_process_empty_log_witness :
  log_alarms (host_health_log x_empty_host) = []
  /\ snd (health_alarm_log_process notifier_ok never_repeating x_empty_host
            1000 1000) = [].
Proof.
  assert (H : log_alarms (host_health_log x_empty_host) = []) by reflexivity.
  split; [exact H|].
  exact (proj1 (log_process_empty_log notifier_ok never_repeating
                  x_empty_host 1000 1000 H)).
Defined.

(** The eviction on the log of [c1_host]. *)
Lemma health_alarm_log_process_evicts_witness :
  log_max (host_health_log c1_host) < log_count (host_health_log c1_host)
  /\ (0 < Z.to_nat (uint32 (log_max (host_health_log c1_host) * 2) / 3)
      < List.length (log_alarms (host_health_log c1_host)))%nat
  /\ map ae_unique_id
       (freed (snd (health_alarm_log_process notifier_ok never_repeating
                      c1_host 1000 1000)))
     = map ae_unique_id
         (flat_map (eviction_frees never_repeating (host_alarms c1_host))
            (skipn 2 (log_alarms (host_health_log c1_host)))).
Proof.
  assert (H1 : log_max (host_health_log c1_host)
               < log_count (host_health_log c1_host)) by reflexivity.
  assert (H2 : (0 < Z.to_nat (uint32 (log_max (host_health_log c1_host) * 2)
                              / 3)
                < List.length (log_alarms (host_health_log c1_host)))%nat)
    by (vm_compute; split; repeat constructor).
  split; [exact H1|]. split; [exact H2|].
  destruct (health_alarm_log_process_evicts notifier_ok never_repeating
              c1_host 1000 1000 H1 H2) as (_ & Hfreed & _).
  rewrite Hfreed. reflexivity.
Defined.

(** X11.  The log processing evicts nothing when [count] is not above
    [max], or when [max * 2 / 3] is 0 (a [max] below 2), or when the log
    holds no more than [max * 2 / 3] entries: then it frees no entry, and
    [count] and the entries of the log, in their order, stay. *)
Theorem log_process_without_eviction
    (run_notifier : NOTIFIER_COMMAND -> option Z)
    (alarm_entry_isrepeating : list RRDCALC -> ALARM_ENTRY -> bool)
    (host : RRDHOST) (now clock : time_t) :
  log_count (host_health_log host) <= log_max (host_health_log host)
  \/ Z.to_nat (uint32 (log_max (host_health_log host) * 2) / 3) = 0%nat
  \/ (List.length (log_alarms (host_health_log host))
      <= Z.to_nat (uint32 (log_max (host_health_log host) * 2) / 3))%nat ->
  let r :=
    health_alarm_log_process run_notifier alarm_entry_isrepeating host now
      clock in
  freed (snd r) = []
  /\ log_count (host_health_log (fst r)) = log_count (host_health_log host)
  /\ map ae_unique_id (log_alarms (host_health_log (fst r)))
     = map ae_unique_id (log_alarms (host_health_log host)).
Proof.
  intros Hcase. unfold health_alarm_log_process.
  pose proof (dispatch_scan_spec run_notifier alarm_entry_isrepeating host
                now clock (log_alarms (host_health_log host))
                match log_alarms (host_health_log host) with
                | ae :: _ => ae_unique_id ae
                | [] => 0
                end) as (Hids & _ & Hfr).
  destruct (dispatch_scan _ _ _ _ _ _ (log_alarms (host_health_log host)))
    as [[chain fw] evs].
  cbn [fst snd] in *.
  assert (Hlen : List.length chain
                 = List.length (log_alarms (host_health_log host))).
  { apply (f_equal (@List.length Z)) in Hids.
    now rewrite !length_map in Hids. }
  destruct (Z.leb_spec (log_count (host_health_log host))
              (log_max (host_health_log host))) as [Hle | Hgt].
  { cbn. auto. }
  rewrite eviction_walk_split.
  destruct Hcase as [H | [H | H]]; [lia | |].
  - rewrite H. cbn. auto.
  - rewrite skipn_all2 by lia.
    destruct (firstn _ chain); cbn; auto.
Qed.

Lemma log_process_without_eviction_witness :
  (log_count (host_health_log x_small_max_host)
   <= log_max (host_health_log x_small_max_host)
   \/ Z.to_nat (uint32 (log_max (host_health_log x_small_max_host) * 2) / 3)
      = 0%nat
   \/ (List.length (log_alarms (host_health_log x_small_max_host))
       <= Z.to_nat
            (uint32 (log_max (host_health_log x_small_max_host) * 2) / 3))%nat)
  /\ log_max (host_health_log x_small_max_host)
     < log_count (host_health_log x_small_max_host)
  /\ map ae_unique_id
       (log_alarms
          (host_health_log
             (fst (health_alarm_log_process notifier_ok never_repeating
                     x_small_max_host 1000 1000))))
     = [2; 1].
Proof.
  assert (H : log_count (host_health_log x_small_max_host)
              <= log_max (host_health_log x_small_max_host)
              \/ Z.to_nat
                   (uint32 (log_max (host_health_log x_small_max_host) * 2)
                    / 3) = 0%nat
              \/ (List.length (log_alarms (host_health_log x_small_max_host))
                  <= Z.to_nat
                       (uint32
                          (log_max (host_health_log x_small_max_host) * 2)
                        / 3))%nat)
    by (right; left; reflexivity).
  split; [exact H|]. split; [reflexivity|].
  destruct (log_process_without_eviction notifier_ok never_repeating
              x_small_max_host 1000 1000 H) as (_ & _ & Hids).
  exact Hids.
Defined.

(** ** The silencers, continued *)

(** X12.  [update_disabled_silenced] sets the disabled flag exactly when
    the silence type that applies to the alarm is disable-alarms and the
    silenced flag exactly when it is silence-notifications, so never both;
    it returns whether the alarm is now disabled; and it writes no other
    bit of the flags and no other field of the alarm. *)
Theorem update_disabled_silenced_flags
    (simple_pattern_matches : SIMPLE_PATTERN -> string -> bool)
    (sl : SILENCERS) (host : RRDHOST) (rc : RRDCALC) :
  let r := update_disabled_silenced simple_pattern_matches sl host rc in
  let flags := rc_rrdcalc_flags (fst r) in
  let st := effective_stype simple_pattern_matches sl host rc in
  (has_flag flags RRDCALC_FLAG_DISABLED = true <-> st = STYPE_DISABLE_ALARMS)
  /\ (has_flag flags RRDCALC_FLAG_SILENCED = true <->
      st = STYPE_SILENCE_NOTIFICATIONS)
  /\ snd r = has_flag flags RRDCALC_FLAG_DISABLED
  /\ Z.ldiff flags disabled_or_silenced
     = Z.ldiff (rc_rrdcalc_flags rc) disabled_or_silenced
  /\ fst r = set_rc_rrdcalc_flags flags rc.
Proof.
  cbv zeta. unfold update_disabled_silenced, effective_stype.
  fold disabled_or_silenced.
  set (st := if all_alarms sl then stype sl
             else check_silenced simple_pattern_matches rc
                    (host_hostname host) sl).
  cbn [fst snd set_rc_rrdcalc_flags rc_write rc_rrdcalc_flags].
  assert (Hd : has_flag (Z.ldiff (rc_rrdcalc_flags rc) disabled_or_silenced)
                 RRDCALC_FLAG_DISABLED = false)
    by now apply has_flag_ldiff_within.
  assert (Hs : has_flag (Z.ldiff (rc_rrdcalc_flags rc) disabled_or_silenced)
                 RRDCALC_FLAG_SILENCED = false)
    by now apply has_flag_ldiff_within.
  destruct st.
  - rewrite Hd, Hs. repeat split; try discriminate.
    now apply ldiff_ldiff_within.
  - rewrite has_flag_lor_same by discriminate.
    rewrite has_flag_lor_disjoint, Hs by reflexivity.
    repeat split; try discriminate.
    rewrite ldiff_lor_within by reflexivity. now apply ldiff_ldiff_within.
  - rewrite has_flag_lor_same by discriminate.
    rewrite has_flag_lor_disjoint, Hd by reflexivity.
    repeat split; try discriminate.
    rewrite ldiff_lor_within by reflexivity. now apply ldiff_ldiff_within.
Qed.

Lemma check_silenced_from_same
    (simple_pattern_matches : SIMPLE_PATTERN -> string -> bool)
    (rc rc' : RRDCALC) (host : option string) (st : SILENCE_TYPE)
    (l : list SILENCER) :
  rc_name rc' = rc_name rc -> rc_chart rc' = rc_chart rc ->
  rc_rrdset rc' = rc_rrdset rc ->
  check_silenced_from simple_pattern_matches rc' host st l
  = check_silenced_from simple_pattern_matches rc host st l.
Proof.
  intros Hn Hc Hs. induction l as [|s l IH]; [reflexivity|].
  cbn [check_silenced_from]. unfold silencer_matches, chart_field.
  now rewrite Hn, Hc, Hs, IH.
Qed.

(** X13.  [update_disabled_silenced] is stable: applied to the alarm it
    returned, under the same silencers, it returns the same alarm and the
    same answer. *)
Theorem update_disabled_silenced_stable
    (simple_pattern_matches : SIMPLE_PATTERN -> string -> bool)
    (sl : SILENCERS) (host : RRDHOST) (rc : RRDCALC) :
  update_disabled_silenced simple_pattern_matches sl host
    (fst (update_disabled_silenced simple_pattern_matches sl host rc))
  = update_disabled_silenced simple_pattern_matches sl host rc.
Proof.
  unfold update_disabled_silenced, check_silenced. cbn [fst].
  fold disabled_or_silenced.
  repeat match goal with
  | |- context [check_silenced_from _ ?r _ _ _] =>
      lazymatch r with
      | rc => fail
      | _ =>
          rewrite (check_silenced_from_same simple_pattern_matches rc r)
            by reflexivity
      end
  end.
  set (st := if all_alarms sl then stype sl
             else check_silenced_from simple_pattern_matches rc
                    (host_hostname host) (stype sl) (silencers sl)).
  cbn [rc_rrdcalc_flags set_rc_rrdcalc_flags rc_write].
  assert (Hc : forall m, Z.ldiff m disabled_or_silenced = 0 ->
    Z.ldiff
      (Z.lor (Z.ldiff (rc_rrdcalc_flags rc) disabled_or_silenced) m)
      disabled_or_silenced
    = Z.ldiff (rc_rrdcalc_flags rc) disabled_or_silenced).
  { intros m Hm. rewrite ldiff_lor_within by assumption.
    now apply ldiff_ldiff_within. }
  assert (H0 : Z.ldiff (Z.ldiff (rc_rrdcalc_flags rc) disabled_or_silenced)
                 disabled_or_silenced
               = Z.ldiff (rc_rrdcalc_flags rc) disabled_or_silenced)
    by now apply ldiff_ldiff_within.
  destruct st; rewrite ?H0, ?Hc by reflexivity; reflexivity.
Qed.

Lemma check_silenced_from_existsb
    (simple_pattern_matches : SIMPLE_PATTERN -> string -> bool)
    (rc : RRDCALC) (host : option string) (st : SILENCE_TYPE)
    (l : list SILENCER) :
  check_silenced_from simple_pattern_matches rc host st l
  = if existsb (silencer_matches simple_pattern_matches rc host) l
    then st else STYPE_NONE.
Proof.
  induction l as [|s l IH]; [reflexivity|]. simpl.
  now destruct (silencer_matches simple_pattern_matches rc host s).
Qed.

(** X14.  [check_silenced] returns the global silence type when some
    silencer of the list matches the alarm, whichever and wherever in the
    list, and none when no silencer matches; a silencer that provides no
    pattern at all matches every alarm on every host. *)
Theorem check_silenced_any_match
    (simple_pattern_matches : SIMPLE_PATTERN -> string -> bool)
    (rc : RRDCALC) (host : option string) (sl : SILENCERS) :
  check_silenced simple_pattern_matches rc host sl
  = (if existsb (silencer_matches simple_pattern_matches rc host)
          (silencers sl)
     then stype sl else STYPE_NONE)
  /\ silencer_matches simple_pattern_matches rc host
       {| s_alarms_pattern := None; s_charts_pattern := None;
          s_contexts_pattern := None; s_hosts_pattern := None;
          s_families_pattern := None |} = true.
Proof.
  split; [apply check_silenced_from_existsb | reflexivity].
Qed.

(** ** The decide phase, continued *)

(** The hysteresis writes the four delay fields of the alarm and nothing
    else. *)
Lemma apply_hysteresis_shape (scale_delay : Z -> calculated_number -> Z)
    (now : time_t) (status : RRDCALC_STATUS) (rc : RRDCALC) :
  let up :=
    if rc_delay_up_to_timestamp rc <? now then rc_delay_up_duration rc
    else Z.min (scale_delay (rc_delay_up_current rc) (rc_delay_multiplier rc))
           (rc_delay_max_duration rc) in
  let down :=
    if rc_delay_up_to_timestamp rc <? now then rc_delay_down_duration rc
    else Z.min
           (scale_delay (rc_delay_down_current rc) (rc_delay_multiplier rc))
           (rc_delay_max_duration rc) in
  let delay := if status_ltb (rc_status rc) status then up else down in
  apply_hysteresis scale_delay now status rc
  = set_rc_delays up down delay (now + delay) rc.
Proof.
  cbv zeta. unfold apply_hysteresis.
  destruct (rc_delay_up_to_timestamp rc <? now).
  - reflexivity.
  - cbn [rc_status rc_delay_up_current rc_delay_down_current set_rc_delays
         rc_write].
    assert (Hmin : forall a b, (if b <? a then b else a) = Z.min a b).
    { intros a b. destruct (Z.ltb_spec b a); lia. }
    rewrite !Hmin. reflexivity.
Qed.

(** X15.  The trigger hysteresis on a change of status.  The delay is the
    up delay when the status rises and the down delay otherwise, and the
    alarm's [delay_up_to_timestamp] becomes [now] plus that delay.  When
    the previous [delay_up_to_timestamp] has passed, both delays restart
    from their configured durations (whatever [delay_max_duration] is);
    otherwise each becomes its current value scaled by the multiplier
    ([(int)(current * multiplier)]), or [delay_max_duration] when the
    scaled value is above it, so that neither exceeds
    [delay_max_duration].  The four delay fields are all that is written
    of the alarm. *)
Theorem hysteresis_delays (scale_delay : Z -> calculated_number -> Z)
    (now : time_t) (status : RRDCALC_STATUS) (rc : RRDCALC) :
  let rc' := apply_hysteresis scale_delay now status rc in
  rc_delay_up_to_timestamp rc' = now + rc_delay_last rc'
  /\ rc_delay_last rc'
     = (if status_ltb (rc_status rc) status then rc_delay_up_current rc'
        else rc_delay_down_current rc')
  /\ (rc_delay_up_to_timestamp rc < now ->
      rc_delay_up_current rc' = rc_delay_up_duration rc
      /\ rc_delay_down_current rc' = rc_delay_down_duration rc)
  /\ (now <= rc_delay_up_to_timestamp rc ->
      rc_delay_up_current rc'
      = Z.min (scale_delay (rc_delay_up_current rc) (rc_delay_multiplier rc))
          (rc_delay_max_duration rc)
      /\ rc_delay_down_current rc'
         = Z.min
             (scale_delay (rc_delay_down_current rc) (rc_delay_multiplier rc))
             (rc_delay_max_duration rc)
      /\ rc_delay_up_current rc' <= rc_delay_max_duration rc
      /\ rc_delay_down_current rc' <= rc_delay_max_duration rc)
  /\ rc'
     = set_rc_delays (rc_delay_up_current rc') (rc_delay_down_current rc')
         (rc_delay_last rc') (rc_delay_up_to_timestamp rc') rc.
Proof.
  cbv zeta. rewrite apply_hysteresis_shape.
  cbn [set_rc_delays rc_write rc_delay_up_to_timestamp rc_delay_last
       rc_delay_up_current rc_delay_down_current rc_status rc_rrdcalc_flags].
  destruct (Z.ltb_spec (rc_delay_up_to_timestamp rc) now).
  - split; [reflexivity|]. split; [reflexivity|].
    split; [intros _; split; reflexivity|]. split; [lia|]. reflexivity.
  - split; [reflexivity|]. split; [reflexivity|].
    split; [lia|]. split; [|reflexivity].
    intros _. split; [reflexivity|]. split; [reflexivity|]. split; lia.
Qed.

(** What [status_changed] does for an alarm that is not repeating and has
    a chart. *)
Lemma status_changed_logged (rrdcalc_isrepeating : RRDCALC -> bool)
    (scale_delay : Z -> calculated_number -> Z) (lg : ALARM_LOG)
    (now : time_t) (status : RRDCALC_STATUS) (rc : RRDCALC) (st : RRDSET) :
  rrdcalc_isrepeating (apply_hysteresis scale_delay now status rc) = false ->
  rc_rrdset rc = Some st ->
  let rc1 := apply_hysteresis scale_delay now status rc in
  status_changed rrdcalc_isrepeating scale_delay lg now status rc
  = Some (health_alarm_log lg
            (transition_entry now status (rc_delay_last rc1) st rc),
          set_rc_status_change now (rc_status rc) status
            (set_rc_next_event_id (uint32 (rc_next_event_id rc + 1)) rc1)).
Proof.
  intros Hrep Hchart. cbv zeta. unfold status_changed. rewrite Hrep.
  cbn [negb]. rewrite apply_hysteresis_shape.
  cbn [set_rc_delays rc_write rc_rrdset]. rewrite Hchart. reflexivity.
Qed.

(** X16.  A change of status of an alarm that is not repeating and has a
    chart is recorded: one entry is pushed at the head of the log, with the
    alarm's id, its event id, the time of the change, the time spent in the
    previous status, the previous status as old status and the new one as
    new status; the log's [count] goes up by one (as a 32-bit value); the
    alarm takes the new status, keeps the previous one as old status, takes
    [now] as the time of its last change and the next event id. *)
Theorem status_change_recorded (rrdcalc_isrepeating : RRDCALC -> bool)
    (scale_delay : Z -> calculated_number -> Z) (lg : ALARM_LOG)
    (now : time_t) (status : RRDCALC_STATUS) (rc : RRDCALC) (st : RRDSET) :
  rrdcalc_isrepeating (apply_hysteresis scale_delay now status rc) = false ->
  rc_rrdset rc = Some st ->
  exists lg' rc' ae,
    status_changed rrdcalc_isrepeating scale_delay lg now status rc
    = Some (lg', rc')
    /\ log_alarms lg' = ae :: log_alarms lg
    /\ log_count lg' = uint32 (log_count lg + 1)
    /\ ae_unique_id ae = log_next_log_id lg
    /\ ae_alarm_id ae = rc_id rc
    /\ ae_alarm_event_id ae = rc_next_event_id rc
    /\ ae_when ae = now
    /\ ae_duration ae = now - rc_last_status_change rc
    /\ ae_old_status ae = rc_status rc
    /\ ae_new_status ae = status
    /\ ae_delay ae = rc_delay_last rc'
    /\ rc_status rc' = status
    /\ rc_old_status rc' = rc_status rc
    /\ rc_last_status_change rc' = now
    /\ rc_next_event_id rc' = uint32 (rc_next_event_id rc + 1).
Proof.
  intros Hrep Hchart.
  pose proof (status_changed_logged rrdcalc_isrepeating scale_delay lg now
                status rc st Hrep Hchart) as E.
  cbv zeta in E. do 3 eexists. split; [exact E|].
  rewrite apply_hysteresis_shape. cbn. repeat split.
Qed.

Lemma status_change_recorded_witness :
  never_repeats (apply_hysteresis truncate_delay 1000 RRDCALC_STATUS_WARNING
                   c8_alarm) = false
  /\ rc_rrdset c8_alarm = Some (sample_chart 0 2000)
  /\ exists lg' rc' ae,
       status_changed never_repeats truncate_delay c8_log 1000
         RRDCALC_STATUS_WARNING c8_alarm = Some (lg', rc')
       /\ log_alarms lg' = ae :: log_alarms c8_log
       /\ ae_old_status ae = rc_status c8_alarm
       /\ ae_new_status ae = RRDCALC_STATUS_WARNING
       /\ rc_status rc' = RRDCALC_STATUS_WARNING.
Proof.
  split; [reflexivity|]. split; [reflexivity|].
  destruct (status_change_recorded never_repeats truncate_delay c8_log 1000
              RRDCALC_STATUS_WARNING c8_alarm (sample_chart 0 2000) eq_refl
              eq_refl)
    as (lg' & rc' & ae & E & Hl & _ & _ & _ & _ & _ & _ & Ho & Hn & _ & Hs & _).
  exists lg', rc', ae. auto.
Defined.

(** X17.  A change of status of a silenced alarm is logged but never
    notified: the entry the decide phase appends for it carries the
    silenced flag, and the dispatcher does not start the notifier for it,
    whatever the log, the host and the notifier are. *)
Theorem silenced_alarm_logged_not_notified
    (rrdcalc_isrepeating : RRDCALC -> bool)
    (scale_delay : Z -> calculated_number -> Z) (lg : ALARM_LOG)
    (now : time_t) (status : RRDCALC_STATUS) (rc : RRDCALC) (st : RRDSET) :
  has_flag (rc_rrdcalc_flags rc) RRDCALC_FLAG_SILENCED = true ->
  rrdcalc_isrepeating (apply_hysteresis scale_delay now status rc) = false ->
  rc_rrdset rc = Some st ->
  exists lg' rc' ae,
    status_changed rrdcalc_isrepeating scale_delay lg now status rc
    = Some (lg', rc')
    /\ log_alarms lg' = ae :: log_alarms lg
    /\ has_flag (ae_flags ae) HEALTH_ENTRY_FLAG_SILENCED = true
    /\ forall run_notifier host clock next,
         notifier_called
           (snd (health_alarm_execute run_notifier host clock ae next))
         = false.
Proof.
  intros Hsil Hrep Hchart.
  pose proof (status_changed_logged rrdcalc_isrepeating scale_delay lg now
                status rc st Hrep Hchart) as E.
  cbv zeta in E. do 3 eexists. split; [exact E|].
  split; [reflexivity|].
  assert (Hflag : has_flag (entry_flags_of rc) HEALTH_ENTRY_FLAG_SILENCED
                  = true).
  { unfold entry_flags_of. rewrite Hsil.
    apply has_flag_lor_same. discriminate. }
  split; [exact Hflag|].
  intros run_notifier host clock next. rewrite notifier_called_iff.
  apply negb_false_iff. unfold suppressed.
  cbn [set_ae_unique_id transition_entry health_create_alarm_entry ae_flags].
  rewrite Hflag. now rewrite orb_true_r.
Qed.

Lemma silenced_alarm_logged_not_notified_witness :
  has_flag (rc_rrdcalc_flags x_silenced_alarm) RRDCALC_FLAG_SILENCED = true
  /\ never_repeats
       (apply_hysteresis truncate_delay 1000 RRDCALC_STATUS_WARNING
          x_silenced_alarm) = false
  /\ rc_rrdset x_silenced_alarm = Some (sample_chart 0 2000)
  /\ exists lg' rc' ae,
       status_changed never_repeats truncate_delay c8_log 1000
         RRDCALC_STATUS_WARNING x_silenced_alarm = Some (lg', rc')
       /\ log_alarms lg' = ae :: log_alarms c8_log
       /\ notifier_called
            (snd (health_alarm_execute notifier_ok c2_host 1000 ae [])) = false.
Proof.
  split; [reflexivity|]. split; [reflexivity|]. split; [reflexivity|].
  destruct (silenced_alarm_logged_not_notified never_repeats truncate_delay
              c8_log 1000 RRDCALC_STATUS_WARNING x_silenced_alarm
              (sample_chart 0 2000) eq_refl eq_refl eq_refl)
    as (lg' & rc' & ae & E & Hl & _ & Hn).
  exists lg', rc', ae. auto.
Defined.

(** One round of the decide loop, case by case. *)
Lemma health_decide_alarm_cases
    (expression_evaluate : EVAL_EXPRESSION -> option calculated_number)
    (rrdcalc_isrepeating : RRDCALC -> bool)
    (scale_delay : Z -> calculated_number -> Z) (lg lg1 : ALARM_LOG)
    (now next_run next_run1 : time_t) (rc rc1 : RRDCALC) :
  health_decide_alarm expression_evaluate rrdcalc_isrepeating scale_delay lg
    now next_run rc = Some (lg1, rc1, next_run1) ->
  (lg1 = lg /\ rc1 = rc /\ next_run1 = next_run)
  \/ (rc_id rc1 = rc_id rc
      /\ rc_warn_repeat_every rc1 = rc_warn_repeat_every rc
      /\ rc_crit_repeat_every rc1 = rc_crit_repeat_every rc
      /\ rc_last_updated rc1 = now
      /\ rc_next_update rc1 = now + rc_update_every rc
      /\ next_run1 = Z.min next_run (rc_next_update rc1)
      /\ (lg1 = lg
          \/ exists f up down last upto st,
               rrdcalc_isrepeating
                 (set_rc_delays up down last upto (set_rc_rrdcalc_flags f rc))
               = false
               /\ rc_rrdset rc = Some st
               /\ exists ae, lg1 = health_alarm_log lg ae /\ ae_when ae = now)).
Proof.
  unfold health_decide_alarm.
  destruct (has_flag (rc_rrdcalc_flags rc) RRDCALC_FLAG_RUNNABLE);
    cbn [negb]; [|intros [= <- <- <-]; auto].
  destruct (has_flag (rc_rrdcalc_flags rc) RRDCALC_FLAG_DISABLED);
    [intros [= <- <- <-]; auto|].
  destruct (evaluate_threshold_alarm expression_evaluate
              RRDCALC_FLAG_WARN_ERROR (rc_warning rc) rc eq_refl)
    as (f1 & E1 & _).
  destruct (evaluate_threshold expression_evaluate RRDCALC_FLAG_WARN_ERROR
              (rc_warning rc) rc) as [rcw w].
  cbn [fst] in E1. subst rcw.
  destruct (evaluate_threshold_alarm expression_evaluate
              RRDCALC_FLAG_CRIT_ERROR
              (rc_critical (set_rc_rrdcalc_flags f1 rc))
              (set_rc_rrdcalc_flags f1 rc) eq_refl)
    as (f2 & E2 & _).
  destruct (evaluate_threshold expression_evaluate RRDCALC_FLAG_CRIT_ERROR
              (rc_critical (set_rc_rrdcalc_flags f1 rc))
              (set_rc_rrdcalc_flags f1 rc)) as [rcc c].
  cbn [fst] in E2. subst rcc.
  change (set_rc_rrdcalc_flags f2 (set_rc_rrdcalc_flags f1 rc))
    with (set_rc_rrdcalc_flags f2 rc).
  assert (Hmin : forall a b, (if a <? b then a else b) = Z.min b a).
  { intros a b. destruct (Z.ltb_spec a b); lia. }
  destruct (negb (status_eqb (decide_status w c)
                    (rc_status (set_rc_rrdcalc_flags f2 rc)))).
  - unfold status_changed. rewrite apply_hysteresis_shape.
    match goal with
    | |- context [rrdcalc_isrepeating (set_rc_delays ?u ?d ?l ?t ?r)] =>
        destruct (rrdcalc_isrepeating (set_rc_delays u d l t r)) eqn:Hrep
    end; cbn [negb].
    + intros [= <- <- <-]. right. rewrite Hmin. cbn. repeat split. now left.
    + cbn [rc_rrdset set_rc_delays set_rc_rrdcalc_flags rc_write].
      destruct (rc_rrdset rc) as [st|] eqn:Hchart; [|discriminate].
      intros [= <- <- <-]. right. rewrite Hmin. cbn.
      repeat split. right. do 6 eexists. split; [exact Hrep|].
      split; [reflexivity|]. eexists. split; reflexivity.
  - intros [= <- <- <-]. right. rewrite Hmin. cbn. repeat split. now left.
Qed.

(** X18.  The decide phase over the alarms of a host.  It keeps the
    alarms in place, each with its id; it never raises [next_run]; an
    alarm is either left exactly as it was or gets
    [next_update = now + update_every] with [next_run] not after it, so the
    main loop wakes no later than the next update of any alarm it
    evaluated; and the log only grows, at its head, by at most one entry
    per alarm. *)
Theorem health_decide_schedule
    (expression_evaluate : EVAL_EXPRESSION -> option calculated_number)
    (rrdcalc_isrepeating : RRDCALC -> bool)
    (scale_delay : Z -> calculated_number -> Z) (l l' : list RRDCALC)
    (lg lg' : ALARM_LOG) (now next_run next_run' : time_t) :
  health_decide expression_evaluate rrdcalc_isrepeating scale_delay lg now
    next_run l = Some (lg', l', next_run') ->
  next_run' <= next_run
  /\ map rc_id l' = map rc_id l
  /\ Forall2
       (fun rc rc' =>
          rc' = rc
          \/ (rc_next_update rc' = now + rc_update_every rc
              /\ next_run' <= rc_next_update rc'))
       l l'
  /\ exists added,
       log_alarms lg' = added ++ log_alarms lg
       /\ (List.length added <= List.length l)%nat
       /\ Forall (fun ae => ae_when ae = now) added.
Proof.
  revert lg lg' next_run next_run' l'.
  induction l as [|rc l IH]; intros lg lg' next_run next_run' l'.
  - simpl. intros [= <- <- <-].
    split; [lia|]. split; [reflexivity|]. split; [constructor|].
    exists []. split; [reflexivity|]. split; [cbn; lia | constructor].
  - cbn [health_decide].
    destruct (health_decide_alarm _ _ _ lg now next_run rc)
      as [[[lg1 rc1] nr1]|] eqn:Hone; [|discriminate].
    destruct (health_decide _ _ _ lg1 now nr1 l) as [[[lg2 l2] nr2]|] eqn:Hrest;
      [|discriminate].
    intros [= <- <- <-].
    apply IH in Hrest as (Hle & Hids & Hall & added & Hadd & Hlen & Hwhen).
    apply health_decide_alarm_cases in Hone.
    destruct Hone as [(-> & -> & ->) | (Hid & _ & _ & _ & Hnext & Hnr & Hlog)].
    + repeat split; [assumption | cbn; now rewrite Hids | |].
      * constructor; [now left | assumption].
      * exists added. repeat split; [assumption | cbn; lia | assumption].
    + repeat split; [lia | cbn; now rewrite Hids, Hid | |].
      * constructor; [right; split; [assumption | lia] | assumption].
      * destruct Hlog as [-> | (_ & _ & _ & _ & _ & _ & _ & _ & ae & -> & Hae)].
        -- exists added. repeat split; [assumption | cbn; lia | assumption].
        -- exists (added ++ [set_ae_unique_id (log_next_log_id lg) ae]).
           rewrite Hadd. cbn [health_alarm_log log_alarms].
           rewrite <- app_assoc. repeat split.
           ++ rewrite length_app. cbn. lia.
           ++ apply Forall_app. split; [assumption|].
              constructor; [exact Hae | constructor].
Qed.

Lemma health_decide_schedule_witness :
  exists lg' l' next_run',
    health_decide evaluate_to_zero never_repeats truncate_delay c8_log 1000
      1010 [c8_alarm] = Some (lg', l', next_run')
    /\ next_run' <= 1010
    /\ map rc_id l' = map rc_id [c8_alarm].
Proof.
  assert (H : health_decide evaluate_to_zero never_repeats truncate_delay
                c8_log 1000 1010 [c8_alarm]
              = Some (c8_log,
                      [set_rc_schedule 1000 1001 c8_alarm], 1001))
    by reflexivity.
  destruct (health_decide_schedule evaluate_to_zero never_repeats
              truncate_delay [c8_alarm] _ c8_log _ 1000 1010 _ H)
    as (Hle & Hids & _).
  do 3 eexists. split; [exact H|]. split; [exact Hle | exact Hids].
Defined.

(** X19.  The decide phase never writes to the log for a repeating alarm:
    whatever its expressions give, a round of the decide loop on an alarm
    that [rrdcalc_isrepeating] says is repeating, whatever its flags and
    delays, leaves the log as it is. *)
Theorem repeating_alarm_never_logged
    (expression_evaluate : EVAL_EXPRESSION -> option calculated_number)
    (rrdcalc_isrepeating : RRDCALC -> bool)
    (scale_delay : Z -> calculated_number -> Z) (lg lg1 : ALARM_LOG)
    (now next_run next_run1 : time_t) (rc rc1 : RRDCALC) :
  (forall f up down last upto,
     rrdcalc_isrepeating
       (set_rc_delays up down last upto (set_rc_rrdcalc_flags f rc)) = true) ->
  health_decide_alarm expression_evaluate rrdcalc_isrepeating scale_delay lg
    now next_run rc = Some (lg1, rc1, next_run1) ->
  lg1 = lg.
Proof.
  intros Hrep Hone. apply health_decide_alarm_cases in Hone.
  destruct Hone as [(-> & _) | (_ & _ & _ & _ & _ & _ & Hlog)];
    [reflexivity|].
  destruct Hlog as [-> | (f & up & down & last & upto & st & Hno & _)];
    [reflexivity|].
  rewrite Hrep in Hno. discriminate.
Qed.

Lemma repeating_alarm_never_logged_witness :
  (forall f up down last upto,
     always_repeats
       (set_rc_delays up down last upto (set_rc_rrdcalc_flags f c8_alarm))
     = true)
  /\ health_decide_alarm (fun _ => Some (S754_finite false 1 0))
       always_repeats truncate_delay c8_log 1000 1010 c8_alarm
     = Some (c8_log,
             set_rc_schedule 1000 1001
               (set_rc_status_change 1000 RRDCALC_STATUS_CLEAR
                  RRDCALC_STATUS_WARNING
                  (set_rc_delays 0 0 0 1000 c8_alarm)), 1001)
  /\ c8_log = c8_log.
Proof.
  assert (H1 : forall f up down last upto,
     always_repeats
       (set_rc_delays up down last upto (set_rc_rrdcalc_flags f c8_alarm))
     = true) by reflexivity.
  assert (H2 : health_decide_alarm (fun _ => Some (S754_finite false 1 0))
                 always_repeats truncate_delay c8_log 1000 1010 c8_alarm
               = Some (c8_log,
                       set_rc_schedule 1000 1001
                         (set_rc_status_change 1000 RRDCALC_STATUS_CLEAR
                            RRDCALC_STATUS_WARNING
                            (set_rc_delays 0 0 0 1000 c8_alarm)), 1001))
    by reflexivity.
  split; [exact H1|]. split; [exact H2|].
  exact (repeating_alarm_never_logged
           (fun _ => Some (S754_finite false 1 0)) always_repeats
           truncate_delay c8_log c8_log 1000 1010 1001 c8_alarm _ H1 H2).
Defined.

(** ** The repeating phase, continued *)

Lemma entry_flags_of_silenced (rc : RRDCALC) :
  has_flag (entry_flags_of rc) HEALTH_ENTRY_FLAG_SILENCED
  = has_flag (rc_rrdcalc_flags rc) RRDCALC_FLAG_SILENCED.
Proof.
  unfold entry_flags_of.
  destruct (has_flag (rc_options rc) RRDCALC_FLAG_NO_CLEAR_NOTIFICATION),
    (has_flag (rc_rrdcalc_flags rc) RRDCALC_FLAG_SILENCED); reflexivity.
Qed.

Lemma notifier_called_app (evs evs' : list notifier_event) :
  notifier_called (evs ++ evs')
  = notifier_called evs || notifier_called evs'.
Proof. unfold notifier_called. apply existsb_app. Qed.

(** X20.  A repeating alarm in warning or critical that is due for a
    repeat ([repeat_every], the stored interval as an [int], is positive
    and [last_repeat + repeat_every <= now]) has the notifier started at
    every repeat unless the alarm is silenced: its entry has nothing behind
    it, so no earlier notification suppresses it. *)
Theorem due_repeat_notifies_unless_silenced
    (run_notifier : NOTIFIER_COMMAND -> option Z)
    (rrdcalc_isrepeating : RRDCALC -> bool)
    (host_with : RRDCALC -> RRDHOST) (now clock : time_t) (rc : RRDCALC)
    (st : RRDSET) :
  rrdcalc_isrepeating rc = true ->
  rc_status rc = RRDCALC_STATUS_WARNING
  \/ rc_status rc = RRDCALC_STATUS_CRITICAL ->
  rc_rrdset rc = Some st ->
  0 < repeat_every_of rrdcalc_isrepeating rc ->
  rc_last_repeat rc + repeat_every_of rrdcalc_isrepeating rc <= now ->
  exists rc' evs,
    health_repeating_alarm run_notifier rrdcalc_isrepeating host_with now
      clock rc = Some (rc', evs)
    /\ notifier_called evs
       = negb (has_flag (rc_rrdcalc_flags rc) RRDCALC_FLAG_SILENCED).
Proof.
  intros Hrep Hst Hchart Hpos Hdue. unfold health_repeating_alarm.
  apply Z.ltb_lt in Hpos. apply Z.leb_le in Hdue. rewrite Hpos, Hdue.
  cbn [andb].
  change (rc_rrdset (set_rc_last_repeat now rc)) with (rc_rrdset rc).
  rewrite Hchart. unfold health_process_notifications.
  match goal with
  | |- context [health_alarm_execute run_notifier ?h clock ?e []] =>
      pose proof (notifier_called_iff run_notifier h clock e []) as Hcalled;
      destruct (health_alarm_execute run_notifier h clock e [])
        as [ae evs]
  end.
  do 2 eexists. split; [reflexivity|].
  rewrite notifier_called_app. cbn [snd] in Hcalled. rewrite Hcalled.
  cbn [notifier_called existsb]. rewrite orb_false_r. f_equal.
  unfold suppressed.
  cbn [repeating_entry set_ae_last_repeat health_create_alarm_entry
       ae_new_status ae_flags ae_alarm_id find_exec_run rc_status
       set_rc_last_repeat rc_write].
  change (entry_flags_of (set_rc_last_repeat now rc))
    with (entry_flags_of rc).
  rewrite entry_flags_of_silenced.
  destruct Hst as [-> | ->]; cbn;
    now destruct (has_flag (entry_flags_of rc)
                    HEALTH_ENTRY_FLAG_NO_CLEAR_NOTIFICATION).
Qed.

Lemma due_repeat_notifies_unless_silenced_witness :
  repeats_if_configured c6_alarm = true
  /\ (rc_status c6_alarm = RRDCALC_STATUS_WARNING
      \/ rc_status c6_alarm = RRDCALC_STATUS_CRITICAL)
  /\ rc_rrdset c6_alarm = Some c6_chart
  /\ 0 < repeat_every_of repeats_if_configured c6_alarm
  /\ rc_last_repeat c6_alarm + repeat_every_of repeats_if_configured c6_alarm
     <= 100
  /\ exists rc' evs,
       health_repeating_alarm notifier_ok repeats_if_configured c6_host 100
         100 c6_alarm = Some (rc', evs)
       /\ notifier_called evs = true.
Proof.
  assert (H1 : repeats_if_configured c6_alarm = true) by reflexivity.
  assert (H2 : rc_status c6_alarm = RRDCALC_STATUS_WARNING
               \/ rc_status c6_alarm = RRDCALC_STATUS_CRITICAL)
    by (left; reflexivity).
  assert (H3 : rc_rrdset c6_alarm = Some c6_chart) by reflexivity.
  assert (H4 : 0 < repeat_every_of repeats_if_configured c6_alarm)
    by reflexivity.
  assert (H5 : rc_last_repeat c6_alarm
               + repeat_every_of repeats_if_configured c6_alarm <= 100)
    by (vm_compute; discriminate).
  repeat (split; [assumption|]).
  destruct (due_repeat_notifies_unless_silenced notifier_ok
              repeats_if_configured c6_host 100 100 c6_alarm c6_chart H1 H2
              H3 H4 H5) as (rc' & evs & E & Hc).
  exists rc', evs. split; [exact E | exact Hc].
Defined.

(** X21.  Repeats keep their distance: after the repeating phase has sent
    a repeat for an alarm at [now], a later pass at any time before
    [now + repeat_every] ([repeat_every] the stored interval as an [int]),
    the status being the same, sends nothing for it and leaves the alarm as
    it is. *)
Theorem repeats_keep_distance
    (run_notifier run_notifier' : NOTIFIER_COMMAND -> option Z)
    (rrdcalc_isrepeating : RRDCALC -> bool)
    (host_with host_with' : RRDCALC -> RRDHOST)
    (now clock now' clock' : time_t) (rc rc' : RRDCALC)
    (evs : list notifier_event) :
  health_repeating_alarm run_notifier rrdcalc_isrepeating host_with now clock
    rc = Some (rc', evs) ->
  evs <> [] ->
  now' < now + repeat_every_of rrdcalc_isrepeating rc' ->
  health_repeating_alarm run_notifier' rrdcalc_isrepeating host_with' now'
    clock' rc' = Some (rc', []).
Proof.
  unfold health_repeating_alarm at 1.
  destruct ((0 <? repeat_every_of rrdcalc_isrepeating rc)
            && (rc_last_repeat rc + repeat_every_of rrdcalc_isrepeating rc
                <=? now)).
  2:{ intros [= <- <-] Hevs. now destruct Hevs. }
  change (rc_rrdset (set_rc_last_repeat now rc)) with (rc_rrdset rc).
  destruct (rc_rrdset rc) as [st|]; [|discriminate].
  destruct (health_process_notifications _ _ _ _ _) as [ae evs0].
  intros [= <- <-] _ Hsoon.
  unfold health_repeating_alarm.
  set (rc2 := set_rc_next_event_id _ (set_rc_last_repeat now rc)) in *.
  change (rc_last_repeat rc2) with now.
  destruct (Z.leb_spec (now + repeat_every_of rrdcalc_isrepeating rc2) now');
    [lia|].
  now rewrite andb_false_r.
Qed.

Lemma repeats_keep_distance_witness :
  exists rc' evs,
    health_repeating_alarm notifier_ok repeats_if_configured c6_host 100 100
      c6_alarm = Some (rc', evs)
    /\ evs <> []
    /\ 130 < 100 + repeat_every_of repeats_if_configured rc'
    /\ health_repeating_alarm notifier_ok repeats_if_configured c6_host 130
         130 rc' = Some (rc', []).
Proof.
  destruct (health_repeating_alarm notifier_ok repeats_if_configured c6_host
              100 100 c6_alarm) as [[rc' evs]|] eqn:E;
    [|vm_compute in E; discriminate E].
  assert (H2 : evs <> []).
  { vm_compute in E. injection E as _ <-. discriminate. }
  assert (H3 : 130 < 100 + repeat_every_of repeats_if_configured rc').
  { vm_compute in E. injection E as <- _. reflexivity. }
  exists rc', evs. split; [reflexivity|]. split; [exact H2|].
  split; [exact H3|].
  exact (repeats_keep_distance notifier_ok notifier_ok repeats_if_configured
           c6_host c6_host 100 100 130 130 c6_alarm rc' evs E H2 H3).
Defined.

(** X30.  A repeat interval that does not fit an [int] never repeats: for
    a repeating alarm in warning or critical whose stored interval for that
    status is [2 ^ 31] or more (and below [2 ^ 32]), [repeat_every] is
    negative, namely the stored value less [2 ^ 32], and the round of the
    repeating loop sends nothing and leaves the alarm as it is, at whatever
    time. *)
Theorem repeat_every_beyond_int_never_repeats
    (run_notifier : NOTIFIER_COMMAND -> option Z)
    (rrdcalc_isrepeating : RRDCALC -> bool)
    (host_with : RRDCALC -> RRDHOST) (now clock : time_t) (rc : RRDCALC) :
  rrdcalc_isrepeating rc = true ->
  rc_status rc = RRDCALC_STATUS_WARNING
  \/ rc_status rc = RRDCALC_STATUS_CRITICAL ->
  2 ^ 31 <= (match rc_status rc with
             | RRDCALC_STATUS_WARNING => rc_warn_repeat_every rc
             | _ => rc_crit_repeat_every rc
             end) < 2 ^ 32 ->
  repeat_every_of rrdcalc_isrepeating rc
  = (match rc_status rc with
     | RRDCALC_STATUS_WARNING => rc_warn_repeat_every rc
     | _ => rc_crit_repeat_every rc
     end) - 2 ^ 32
  /\ health_repeating_alarm run_notifier rrdcalc_isrepeating host_with now
       clock rc = Some (rc, []).
Proof.
  intros Hrep Hst Hbig.
  assert (Hwrap : forall z, 2 ^ 31 <= z < 2 ^ 32 -> int32 z = z - 2 ^ 32).
  { intros z Hz. unfold int32.
    replace (z + 2 ^ 31) with (z - 2 ^ 31 + 1 * 2 ^ 32) by lia.
    rewrite Z.mod_add by lia. rewrite Z.mod_small by lia. lia. }
  assert (Hevery : repeat_every_of rrdcalc_isrepeating rc
                   = (match rc_status rc with
                      | RRDCALC_STATUS_WARNING => rc_warn_repeat_every rc
                      | _ => rc_crit_repeat_every rc
                      end) - 2 ^ 32).
  { unfold repeat_every_of. rewrite Hrep.
    destruct Hst as [E | E]; rewrite E in *; now apply Hwrap. }
  split; [exact Hevery|].
  unfold health_repeating_alarm.
  destruct (Z.ltb_spec 0 (repeat_every_of rrdcalc_isrepeating rc));
    [lia | reflexivity].
Qed.

Lemma repeat_every_beyond_int_never_repeats_witness :
  repeats_if_configured c6_alarm_beyond_int = true
  /\ (rc_status c6_alarm_beyond_int = RRDCALC_STATUS_WARNING
      \/ rc_status c6_alarm_beyond_int = RRDCALC_STATUS_CRITICAL)
  /\ 2 ^ 31 <= rc_warn_repeat_every c6_alarm_beyond_int < 2 ^ 32
  /\ repeat_every_of repeats_if_configured c6_alarm_beyond_int = - 2 ^ 31
  /\ health_repeating_alarm notifier_ok repeats_if_configured c6_host
       (2 ^ 32) (2 ^ 32) c6_alarm_beyond_int
     = Some (c6_alarm_beyond_int, []).
Proof.
  assert (H1 : repeats_if_configured c6_alarm_beyond_int = true)
    by reflexivity.
  assert (H2 : rc_status c6_alarm_beyond_int = RRDCALC_STATUS_WARNING
               \/ rc_status c6_alarm_beyond_int = RRDCALC_STATUS_CRITICAL)
    by (left; reflexivity).
  assert (H3 : 2 ^ 31 <= rc_warn_repeat_every c6_alarm_beyond_int < 2 ^ 32)
    by (split; [vm_compute; discriminate | reflexivity]).
  repeat (split; [assumption|]).
  destruct (repeat_every_beyond_int_never_repeats notifier_ok
              repeats_if_configured c6_host (2 ^ 32) (2 ^ 32)
              c6_alarm_beyond_int H1 H2 H3) as (E & R).
  split; [exact E | exact R].
Defined.

(** ** The suspension detector *)

Lemma uint64_small (z : Z) : 0 <= z < 2 ^ 64 -> uint64 z = z.
Proof. intros H. unfold uint64. now apply Z.mod_small. Qed.

Lemma uint64_negative (z : Z) : - 2 ^ 64 <= z < 0 -> uint64 z = z + 2 ^ 64.
Proof.
  intros H. unfold uint64.
  rewrite <- (Z_mod_plus_full z 1 (2 ^ 64)), Z.mul_1_l.
  apply Z.mod_small. lia.
Qed.

(** X22.  When neither clock went back since the previous call and the
    previous samples are not 0, [check_if_resumed_from_suspention] reports
    a resume exactly when the wall clock advanced by more than twice what
    the monotonic clock advanced; it always keeps the two readings as the
    new samples; and the first call reports no resume. *)
Theorem resume_detection (s : SUSPENSION_SAMPLES) (realtime monotonic : Z) :
  0 < last_realtime s <= realtime -> realtime < 2 ^ 64 ->
  0 < last_monotonic s <= monotonic ->
  2 * (monotonic - last_monotonic s) < 2 ^ 64 ->
  (fst (check_if_resumed_from_suspention s realtime monotonic) = true <->
     2 * (monotonic - last_monotonic s) < realtime - last_realtime s)
  /\ snd (check_if_resumed_from_suspention s realtime monotonic)
     = {| last_realtime := realtime; last_monotonic := monotonic |}
  /\ fst (check_if_resumed_from_suspention no_samples realtime monotonic)
     = false.
Proof.
  intros Hr Hr' Hm Hm'. unfold check_if_resumed_from_suspention.
  cbn [fst snd no_samples last_realtime last_monotonic].
  split; [|split; reflexivity].
  destruct (Z.eqb_spec (last_realtime s) 0); [lia|].
  destruct (Z.eqb_spec (last_monotonic s) 0); [lia|].
  cbn [negb andb].
  rewrite (uint64_small (monotonic - last_monotonic s)) by lia.
  rewrite !uint64_small by lia. apply Z.ltb_lt.
Qed.

Lemma resume_detection_witness :
  0 < last_realtime x_samples <= 3601000000 /\ 3601000000 < 2 ^ 64
  /\ 0 < last_monotonic x_samples <= 6000000
  /\ 2 * (6000000 - last_monotonic x_samples) < 2 ^ 64
  /\ fst (check_if_resumed_from_suspention x_samples 3601000000 6000000)
     = true.
Proof.
  assert (H1 : 0 < last_realtime x_samples <= 3601000000)
    by (vm_compute; split; [reflexivity | discriminate]).
  assert (H2 : 3601000000 < 2 ^ 64) by reflexivity.
  assert (H3 : 0 < last_monotonic x_samples <= 6000000)
    by (vm_compute; split; [reflexivity | discriminate]).
  assert (H4 : 2 * (6000000 - last_monotonic x_samples) < 2 ^ 64)
    by reflexivity.
  repeat (split; [assumption|]).
  apply (proj1 (resume_detection x_samples 3601000000 6000000 H1 H2 H3 H4)).
  reflexivity.
Defined.

(** X23.  A wall clock that was set back between two calls is reported as
    a resume: the unsigned difference of the readings wraps around, and
    exceeds twice the advance of the monotonic clock unless that advance is
    nearly half the range of the type. *)
Theorem wall_clock_set_back_reported (s : SUSPENSION_SAMPLES)
    (realtime monotonic : Z) :
  0 <= realtime < last_realtime s -> last_realtime s < 2 ^ 64 ->
  0 < last_monotonic s <= monotonic ->
  2 * (monotonic - last_monotonic s)
  < 2 ^ 64 - (last_realtime s - realtime) ->
  fst (check_if_resumed_from_suspention s realtime monotonic) = true.
Proof.
  intros Hr Hr' Hm Hm'. unfold check_if_resumed_from_suspention. cbn [fst].
  destruct (Z.eqb_spec (last_realtime s) 0); [lia|].
  destruct (Z.eqb_spec (last_monotonic s) 0); [lia|].
  cbn [negb andb].
  rewrite (uint64_small (monotonic - last_monotonic s)) by lia.
  rewrite uint64_small by lia.
  rewrite uint64_negative by lia. apply Z.ltb_lt. lia.
Qed.

Lemma wall_clock_set_back_reported_witness :
  0 <= 999000000 < last_realtime x_samples
  /\ last_realtime x_samples < 2 ^ 64
  /\ 0 < last_monotonic x_samples <= 6000000
  /\ 2 * (6000000 - last_monotonic x_samples)
     < 2 ^ 64 - (last_realtime x_samples - 999000000)
  /\ fst (check_if_resumed_from_suspention x_samples 999000000 6000000)
     = true.
Proof.
  assert (H1 : 0 <= 999000000 < last_realtime x_samples)
    by (vm_compute; split; [discriminate | reflexivity]).
  assert (H2 : last_realtime x_samples < 2 ^ 64) by reflexivity.
  assert (H3 : 0 < last_monotonic x_samples <= 6000000)
    by (vm_compute; split; [reflexivity | discriminate]).
  assert (H4 : 2 * (6000000 - last_monotonic x_samples)
               < 2 ^ 64 - (last_realtime x_samples - 999000000))
    by reflexivity.
  repeat (split; [assumption|]).
  exact (wall_clock_set_back_reported x_samples 999000000 6000000 H1 H2 H3
           H4).
Defined.

(** ** Reload and the alarm log *)

Lemma updated_not_pending (t : ALARM_ENTRY) :
  is_pending (ae_or_flag HEALTH_ENTRY_FLAG_UPDATED t) = false.
Proof.
  unfold is_pending. cbn [ae_or_flag set_ae_flags ae_flags].
  rewrite (has_flag_lor_same (ae_flags t) HEALTH_ENTRY_FLAG_UPDATED)
    by discriminate.
  now rewrite andb_false_r.
Qed.

(** X24.  After a reload has invalidated the log, the dispatch scan
    starts the notifier for none of its entries: every entry is marked
    updated, except those with the status removed, which the dispatcher
    does not notify.  The reload keeps the entries in place, with their ids
    and statuses. *)
Theorem reload_silences_log
    (run_notifier : NOTIFIER_COMMAND -> option Z)
    (alarm_entry_isrepeating : list RRDCALC -> ALARM_ENTRY -> bool)
    (host : RRDHOST) (now clock : time_t) (first_waiting : Z)
    (chain : list ALARM_ENTRY) :
  notifier_called
    (snd (dispatch_scan run_notifier alarm_entry_isrepeating host now clock
            first_waiting (health_reload_host_log chain))) = false
  /\ map ae_unique_id (health_reload_host_log chain) = map ae_unique_id chain
  /\ map ae_new_status (health_reload_host_log chain)
     = map ae_new_status chain.
Proof.
  split; [|split].
  - revert first_waiting. induction chain as [|t next IH]; intros fw.
    + reflexivity.
    + cbn [health_reload_host_log dispatch_scan].
      match goal with
      | |- context [ae_unique_id ?e <? _] =>
          destruct (ae_unique_id e <? host_health_last_processed_id host)
      end; [reflexivity|].
      destruct (status_eqb (ae_new_status t) RRDCALC_STATUS_REMOVED) eqn:Hst.
      * apply status_eqb_eq in Hst.
        destruct (negb (alarm_entry_isrepeating (host_alarms host) t)
                  && is_pending t);
          [destruct (ae_delay_up_to_timestamp t <=? now)|].
        -- unfold health_process_notifications.
           rewrite execute_suppressed
             by (unfold suppressed; now rewrite Hst).
           match goal with
           | |- context [dispatch_scan _ _ _ _ _ ?f _] => specialize (IH f)
           end.
           destruct (dispatch_scan _ _ _ _ _ _ _) as [[next' fw'] evs'].
           cbn [snd] in *. rewrite notifier_called_app, IH. reflexivity.
        -- match goal with
           | |- context [dispatch_scan _ _ _ _ _ ?f _] => specialize (IH f)
           end.
           destruct (dispatch_scan _ _ _ _ _ _ _) as [[next' fw'] evs'].
           cbn [snd app] in *. exact IH.
        -- specialize (IH fw).
           destruct (dispatch_scan _ _ _ _ _ _ _) as [[next' fw'] evs'].
           cbn [snd app] in *. exact IH.
      * rewrite updated_not_pending, andb_false_r.
        specialize (IH fw).
        destruct (dispatch_scan _ _ _ _ _ _ _) as [[next' fw'] evs'].
        cbn [snd app] in *. exact IH.
  - induction chain as [|t next IH]; [reflexivity|].
    cbn [health_reload_host_log map]. rewrite IH.
    now destruct (status_eqb (ae_new_status t) RRDCALC_STATUS_REMOVED).
  - induction chain as [|t next IH]; [reflexivity|].
    cbn [health_reload_host_log map]. rewrite IH.
    now destruct (status_eqb (ae_new_status t) RRDCALC_STATUS_REMOVED).
Qed.

(** ** Postponing a host after a resume *)

(** X25.  When a resume was detected at [now] and the hibernation delay
    is positive, an enabled host is not examined in that iteration and its
    [health_delay_up_to] becomes [now + hibernation_delay]; in a later
    iteration with no new resume the host is examined exactly when the
    time has reached [health_delay_up_to], and [health_delay_up_to] is then
    reset to 0.  A host whose health is not enabled is never examined. *)
Theorem postponed_until_delay_passed
    (now hibernation_delay health_delay_up_to later : time_t) :
  0 < hibernation_delay -> 0 <= now ->
  let postponed :=
    health_postpone true true now hibernation_delay health_delay_up_to in
  postponed = (false, now + hibernation_delay)
  /\ fst (health_postpone true false later hibernation_delay (snd postponed))
     = (now + hibernation_delay <=? later)
  /\ (now + hibernation_delay <= later ->
      snd (health_postpone true false later hibernation_delay (snd postponed))
      = 0)
  /\ (later < now + hibernation_delay ->
      snd (health_postpone true false later hibernation_delay (snd postponed))
      = now + hibernation_delay)
  /\ (forall apply, fst (health_postpone false apply later hibernation_delay
                           (snd postponed)) = false).
Proof.
  intros Hd Hn. cbv zeta. unfold health_postpone. cbn [negb].
  destruct (Z.eqb_spec (now + hibernation_delay) 0); [lia|]. cbn [negb].
  destruct (Z.ltb_spec now (now + hibernation_delay)); [|lia].
  cbn [fst snd].
  destruct (Z.eqb_spec (now + hibernation_delay) 0); [lia|]. cbn [negb].
  destruct (Z.ltb_spec later (now + hibernation_delay));
    destruct (Z.leb_spec (now + hibernation_delay) later); try lia;
    cbn [fst snd]; repeat split; try lia; reflexivity.
Qed.

Lemma postponed_until_delay_passed_witness :
  0 < 60 /\ 0 <= 1000
  /\ health_postpone true true 1000 60 0 = (false, 1060)
  /\ fst (health_postpone true false 1059 60 1060) = false
  /\ health_postpone true false 1060 60 1060 = (true, 0).
Proof.
  assert (H1 : 0 < 60) by reflexivity.
  assert (H2 : 0 <= 1000) by discriminate.
  split; [exact H1|]. split; [exact H2|].
  split;
    [exact (proj1 (postponed_until_delay_passed 1000 60 0 1059 H1 H2))|].
  split; reflexivity.
Defined.

(** ** The lookup phase *)

Section LookupProperties.

Variable expression_evaluate : EVAL_EXPRESSION -> option calculated_number.
Variable simple_pattern_matches : SIMPLE_PATTERN -> string -> bool.
Variable RRDCALC_HAS_DB_LOOKUP : RRDCALC -> bool.
Variable rrdset2value_api_v1 : RRDCALC -> Z * calculated_number * bool.

(** The database lookup and the calculation write the value and their
    three error flags, nothing else. *)
Lemma database_lookup_shape (rc : RRDCALC) :
  exists value flags,
    database_lookup RRDCALC_HAS_DB_LOOKUP rrdset2value_api_v1 rc
    = set_rc_rrdcalc_flags flags (set_rc_values value (rc_old_value rc) rc)
    /\ forall m,
         Z.land RRDCALC_FLAG_DB_ERROR m = 0 ->
         Z.land RRDCALC_FLAG_DB_NAN m = 0 ->
         has_flag flags m = has_flag (rc_rrdcalc_flags rc) m.
Proof.
  unfold database_lookup.
  destruct (RRDCALC_HAS_DB_LOOKUP rc).
  - destruct (rrdset2value_api_v1 rc) as [[ret value] null].
    destruct (negb (ret =? 200)), null;
      cbn [rc_rrdcalc_flags rc_old_value set_rc_values
           set_rc_rrdcalc_flags rc_write];
      do 2 eexists; (split; [reflexivity|]); intros m H1 H2;
      repeat first [ rewrite has_flag_lor_disjoint by assumption
                   | rewrite has_flag_ldiff_disjoint by assumption ];
      reflexivity.
  - exists (rc_value rc), (rc_rrdcalc_flags rc).
    split; [now destruct rc | reflexivity].
Qed.

Lemma calculation_shape (rc : RRDCALC) :
  exists value flags,
    calculation expression_evaluate rc
    = set_rc_rrdcalc_flags flags (set_rc_values value (rc_old_value rc) rc)
    /\ forall m,
         Z.land RRDCALC_FLAG_CALC_ERROR m = 0 ->
         has_flag flags m = has_flag (rc_rrdcalc_flags rc) m.
Proof.
  unfold calculation.
  destruct (rc_calculation rc) as [e|];
    [destruct (expression_evaluate e) as [c|]|].
  - exists c, (Z.ldiff (rc_rrdcalc_flags rc) RRDCALC_FLAG_CALC_ERROR).
    split; [reflexivity|]. intros m H.
    now rewrite has_flag_ldiff_disjoint.
  - exists NAN, (Z.lor (rc_rrdcalc_flags rc) RRDCALC_FLAG_CALC_ERROR).
    split; [reflexivity|]. intros m H.
    now rewrite has_flag_lor_disjoint.
  - exists (rc_value rc), (rc_rrdcalc_flags rc).
    split; [now destruct rc | reflexivity].
Qed.

Lemma rrdcalc_isrunnable_next_run (rc : RRDCALC) (now next_run : time_t) :
  snd (rrdcalc_isrunnable RRDCALC_HAS_DB_LOOKUP rc now next_run) <= next_run.
Proof.
  unfold rrdcalc_isrunnable.
  destruct (rc_rrdset rc) as [st|]; [|cbn; lia].
  destruct (now <? rc_next_update rc).
  { cbn. destruct (Z.ltb_spec (rc_next_update rc) next_run); lia. }
  repeat match goal with
  | |- snd (if ?c then _ else _) <= _ => destruct c; [cbn; lia|]
  | |- snd (let _ := _ in _) <= _ => cbv zeta
  | |- snd (if ?c then _ else _) <= _ => destruct c
  end;
  cbn; lia.
Qed.

(** A round of the first loop counts an alarm exactly when the silencers
    do not disable it and it is runnable, and exactly then the alarm passes
    the test of the decide loop; the alarm keeps its id and [next_run] is
    not raised. *)
Lemma health_lookup_alarm_gate (sl : SILENCERS) (host : RRDHOST)
    (now next_run : time_t) (rc : RRDCALC) :
  let r :=
    health_lookup_alarm expression_evaluate simple_pattern_matches
      RRDCALC_HAS_DB_LOOKUP rrdset2value_api_v1 sl host now next_run rc in
  let u := update_disabled_silenced simple_pattern_matches sl host rc in
  snd (fst r)
  = negb (snd u)
    && fst (rrdcalc_isrunnable RRDCALC_HAS_DB_LOOKUP (fst u) now next_run)
  /\ decide_gate (fst (fst r)) = snd (fst r)
  /\ snd r <= next_run
  /\ rc_id (fst (fst r)) = rc_id rc.
Proof.
  cbv zeta. unfold decide_gate, health_lookup_alarm.
  assert (Hu : snd (update_disabled_silenced simple_pattern_matches sl host rc)
               = has_flag
                   (rc_rrdcalc_flags
                      (fst (update_disabled_silenced simple_pattern_matches
                              sl host rc))) RRDCALC_FLAG_DISABLED)
    by reflexivity.
  assert (Hid : rc_id (fst (update_disabled_silenced simple_pattern_matches
                              sl host rc)) = rc_id rc) by reflexivity.
  destruct (update_disabled_silenced simple_pattern_matches sl host rc)
    as [rcu disabled].
  cbn [fst snd] in *.
  destruct disabled.
  - cbn [fst snd negb andb]. rewrite <- Hu.
    rewrite andb_false_r. repeat split; [lia | assumption].
  - pose proof (rrdcalc_isrunnable_next_run rcu now next_run) as Hnr.
    destruct (rrdcalc_isrunnable RRDCALC_HAS_DB_LOOKUP rcu now next_run)
      as [runs nr1].
    cbn [fst snd negb andb] in *. destruct runs; cbn [negb].
    + destruct (database_lookup_shape
                  (set_rc_rrdcalc_flags
                     (Z.lor
                        (rc_rrdcalc_flags
                           (set_rc_values (rc_value rcu) (rc_value rcu) rcu))
                        RRDCALC_FLAG_RUNNABLE)
                     (set_rc_values (rc_value rcu) (rc_value rcu) rcu)))
        as (v1 & f1 & -> & Hf1).
      destruct (calculation_shape
                  (set_rc_rrdcalc_flags f1
                     (set_rc_values v1
                        (rc_old_value
                           (set_rc_rrdcalc_flags
                              (Z.lor
                                 (rc_rrdcalc_flags
                                    (set_rc_values (rc_value rcu)
                                       (rc_value rcu) rcu))
                                 RRDCALC_FLAG_RUNNABLE)
                              (set_rc_values (rc_value rcu) (rc_value rcu)
                                 rcu)))
                        (set_rc_rrdcalc_flags
                           (Z.lor
                              (rc_rrdcalc_flags
                                 (set_rc_values (rc_value rcu) (rc_value rcu)
                                    rcu))
                              RRDCALC_FLAG_RUNNABLE)
                           (set_rc_values (rc_value rcu) (rc_value rcu)
                              rcu)))))
        as (v2 & f2 & -> & Hf2).
      cbn [fst snd rc_rrdcalc_flags set_rc_rrdcalc_flags set_rc_values
           rc_write rc_id] in *.
      rewrite !Hf2, !Hf1 by reflexivity.
      rewrite has_flag_lor_same by discriminate.
      rewrite has_flag_lor_disjoint by reflexivity.
      rewrite <- Hu. repeat split; assumption.
    + cbn [fst snd].
      assert (Hoff :
        has_flag
          (rc_rrdcalc_flags
             (if has_flag (rc_rrdcalc_flags rcu) RRDCALC_FLAG_RUNNABLE
              then set_rc_rrdcalc_flags
                     (Z.ldiff (rc_rrdcalc_flags rcu) RRDCALC_FLAG_RUNNABLE)
                     rcu
              else rcu)) RRDCALC_FLAG_RUNNABLE = false).
      { destruct (has_flag (rc_rrdcalc_flags rcu) RRDCALC_FLAG_RUNNABLE)
          eqn:Hr; [|exact Hr].
        cbn [rc_rrdcalc_flags set_rc_rrdcalc_flags rc_write].
        now apply has_flag_ldiff_within. }
      rewrite Hoff. repeat split; [assumption|].
      now destruct (has_flag (rc_rrdcalc_flags rcu) RRDCALC_FLAG_RUNNABLE).
Qed.

(** The decide loop passes over an alarm that fails its test. *)
Lemma health_decide_alarm_gate
    (evaluate : EVAL_EXPRESSION -> option calculated_number)
    (rrdcalc_isrepeating : RRDCALC -> bool)
    (scale_delay : Z -> calculated_number -> Z) (lg : ALARM_LOG)
    (now next_run : time_t) (rc : RRDCALC) :
  decide_gate rc = false ->
  health_decide_alarm evaluate rrdcalc_isrepeating scale_delay lg now next_run
    rc = Some (lg, rc, next_run).
Proof.
  unfold decide_gate, health_decide_alarm. intros H.
  destruct (has_flag (rc_rrdcalc_flags rc) RRDCALC_FLAG_RUNNABLE);
    [|reflexivity].
  destruct (has_flag (rc_rrdcalc_flags rc) RRDCALC_FLAG_DISABLED);
    [reflexivity | discriminate].
Qed.

(** X26.  The first loop of [health_main] and the decide phase agree on
    which alarms are evaluated: an alarm is counted as runnable exactly
    when the silencers do not disable it and [rrdcalc_isrunnable] accepts
    it, and exactly then it leaves the loop flagged runnable and not
    disabled; the loop never raises [next_run]; and a round of the decide
    loop on an alarm that was not counted changes neither the alarm nor the
    log nor [next_run]. *)
Theorem lookup_gates_decide (sl : SILENCERS) (host : RRDHOST)
    (now next_run : time_t) (rc : RRDCALC) :
  let r :=
    health_lookup_alarm expression_evaluate simple_pattern_matches
      RRDCALC_HAS_DB_LOOKUP rrdset2value_api_v1 sl host now next_run rc in
  let u := update_disabled_silenced simple_pattern_matches sl host rc in
  snd (fst r)
  = negb (snd u)
    && fst (rrdcalc_isrunnable RRDCALC_HAS_DB_LOOKUP (fst u) now next_run)
  /\ has_flag (rc_rrdcalc_flags (fst (fst r))) RRDCALC_FLAG_RUNNABLE
     && negb (has_flag (rc_rrdcalc_flags (fst (fst r))) RRDCALC_FLAG_DISABLED)
     = snd (fst r)
  /\ snd r <= next_run
  /\ (snd (fst r) = false ->
      forall evaluate rrdcalc_isrepeating scale_delay lg next_run',
        health_decide_alarm evaluate rrdcalc_isrepeating scale_delay lg now
          next_run' (fst (fst r))
        = Some (lg, fst (fst r), next_run')).
Proof.
  cbv zeta.
  destruct (health_lookup_alarm_gate sl host now next_run rc)
    as (Hc & Hg & Hn & _).
  split; [exact Hc|]. split; [exact Hg|]. split; [exact Hn|].
  intros Hfalse evaluate isrep scale lg nr.
  apply health_decide_alarm_gate. now rewrite Hg.
Qed.

(** X29.  Over the alarms of a host, the first loop of [health_main]
    adds to [runnable] the number of alarms that leave it flagged runnable
    and not disabled, keeps the alarms in place with their ids, and never
    raises [next_run]; when it has counted none, the decide loop over the
    alarms it leaves would change nothing, which is why [health_main] may
    skip it. *)
Theorem health_lookup_counts (sl : SILENCERS) (host : RRDHOST)
    (now : time_t) (l : list RRDCALC) (runnable : Z) (next_run : time_t) :
  let r :=
    health_lookup expression_evaluate simple_pattern_matches
      RRDCALC_HAS_DB_LOOKUP rrdset2value_api_v1 sl host now runnable next_run
      l in
  snd (fst r)
  = runnable + Z.of_nat (List.length (filter decide_gate (fst (fst r))))
  /\ snd r <= next_run
  /\ map rc_id (fst (fst r)) = map rc_id l
  /\ (snd (fst r) = runnable ->
      forall evaluate rrdcalc_isrepeating scale_delay lg next_run',
        health_decide evaluate rrdcalc_isrepeating scale_delay lg now
          next_run' (fst (fst r))
        = Some (lg, fst (fst r), next_run')).
Proof.
  cbv zeta. revert runnable next_run.
  induction l as [|rc l IH]; intros runnable next_run.
  - cbn. split; [lia|]. split; [lia|]. split; [reflexivity|].
    intros; reflexivity.
  - cbn [health_lookup].
    destruct (health_lookup_alarm_gate sl host now next_run rc)
      as (_ & Hg & Hn & Hid).
    destruct (health_lookup_alarm _ _ _ _ sl host now next_run rc)
      as [[rc' counted] nr1].
    cbn [fst snd] in Hg, Hn, Hid.
    specialize (IH (if counted then runnable + 1 else runnable) nr1).
    destruct (health_lookup _ _ _ _ sl host now _ nr1 l)
      as [[l' runnable'] nr2].
    cbn [fst snd] in *. destruct IH as (Hcount & Hnr & Hids & Hskip).
    rewrite length_filter_cons, Hg.
    split; [destruct counted; cbn [Z.b2z] in *; lia|].
    split; [lia|]. split; [cbn; now rewrite Hid, Hids|].
    intros Hnone evaluate isrep scale lg nr.
    assert (Hc : counted = false).
    { destruct counted; [|reflexivity]. exfalso.
      assert (0 <= Z.of_nat (List.length (filter decide_gate l'))) by lia.
      lia. }
    subst counted. cbn [health_decide].
    rewrite health_decide_alarm_gate by assumption.
    rewrite Hc in Hskip. rewrite Hskip by exact Hnone. reflexivity.
Qed.

(** X27.  The value of an alarm after the lookup and the calculation of a
    tick.  With a calculation expression the value is its result, or NaN
    if it fails, and the calc-error flag tells which; without one the
    value is what the database lookup stored, or NaN if the lookup did not
    return 200 or reported no data, or the previous value if no lookup is
    configured.  After a lookup the db-error flag is set exactly when it
    did not return 200 and the db-nan flag exactly when it reported no
    data.  [old_value] is not written. *)
Theorem lookup_value (rc : RRDCALC) :
  let rc' :=
    calculation expression_evaluate
      (database_lookup RRDCALC_HAS_DB_LOOKUP rrdset2value_api_v1 rc) in
  let looked_up :=
    if RRDCALC_HAS_DB_LOOKUP rc then
      if (fst (fst (rrdset2value_api_v1 rc)) =? 200)
         && negb (snd (rrdset2value_api_v1 rc))
      then snd (fst (rrdset2value_api_v1 rc)) else NAN
    else rc_value rc in
  rc_old_value rc' = rc_old_value rc
  /\ rc_value rc'
     = match rc_calculation rc with
       | Some e =>
           match expression_evaluate e with
           | Some result => result
           | None => NAN
           end
       | None => looked_up
       end
  /\ (forall e, rc_calculation rc = Some e ->
        has_flag (rc_rrdcalc_flags rc') RRDCALC_FLAG_CALC_ERROR
        = match expression_evaluate e with
          | Some _ => false
          | None => true
          end)
  /\ (RRDCALC_HAS_DB_LOOKUP rc = true ->
      has_flag (rc_rrdcalc_flags rc') RRDCALC_FLAG_DB_ERROR
      = negb (fst (fst (rrdset2value_api_v1 rc)) =? 200)
      /\ has_flag (rc_rrdcalc_flags rc') RRDCALC_FLAG_DB_NAN
         = snd (rrdset2value_api_v1 rc)).
Proof.
  cbv zeta.
  assert (Hdb : exists flags,
    database_lookup RRDCALC_HAS_DB_LOOKUP rrdset2value_api_v1 rc
    = set_rc_rrdcalc_flags flags
        (set_rc_values
           (if RRDCALC_HAS_DB_LOOKUP rc then
              if (fst (fst (rrdset2value_api_v1 rc)) =? 200)
                 && negb (snd (rrdset2value_api_v1 rc))
              then snd (fst (rrdset2value_api_v1 rc)) else NAN
            else rc_value rc) (rc_old_value rc) rc)
    /\ (RRDCALC_HAS_DB_LOOKUP rc = true ->
        has_flag flags RRDCALC_FLAG_DB_ERROR
        = negb (fst (fst (rrdset2value_api_v1 rc)) =? 200)
        /\ has_flag flags RRDCALC_FLAG_DB_NAN
           = snd (rrdset2value_api_v1 rc))).
  { unfold database_lookup. destruct (RRDCALC_HAS_DB_LOOKUP rc).
    - destruct (rrdset2value_api_v1 rc) as [[ret value] null].
      cbn [fst snd].
      destruct (ret =? 200), null;
        cbn [negb andb rc_rrdcalc_flags rc_old_value set_rc_values
             set_rc_rrdcalc_flags rc_write];
        eexists; (split; [reflexivity|]); intros _;
        rewrite ?(has_flag_lor_disjoint _ RRDCALC_FLAG_DB_NAN
                    RRDCALC_FLAG_DB_ERROR),
                ?(has_flag_ldiff_disjoint _ RRDCALC_FLAG_DB_NAN
                    RRDCALC_FLAG_DB_ERROR) by reflexivity;
        rewrite ?has_flag_lor_same by discriminate;
        rewrite ?has_flag_ldiff_within by reflexivity;
        split; reflexivity.
    - exists (rc_rrdcalc_flags rc). split; [now destruct rc | discriminate]. }
  destruct Hdb as (fdb & -> & Hflags).
  unfold calculation.
  cbn [rc_calculation set_rc_rrdcalc_flags set_rc_values rc_write].
  destruct (rc_calculation rc) as [e|].
  - destruct (expression_evaluate e) as [result|] eqn:He;
      cbn [rc_old_value rc_value rc_rrdcalc_flags set_rc_rrdcalc_flags
           set_rc_values rc_write];
      (split; [reflexivity|]); (split; [reflexivity|]); split.
    + intros e' [= <-]. rewrite He. now apply has_flag_ldiff_within.
    + intros Hhas. destruct (Hflags Hhas) as [<- <-].
      now rewrite !has_flag_ldiff_disjoint by reflexivity.
    + intros e' [= <-]. rewrite He. apply has_flag_lor_same. discriminate.
    + intros Hhas. destruct (Hflags Hhas) as [<- <-].
      now rewrite !has_flag_lor_disjoint by reflexivity.
  - cbn [rc_old_value rc_value rc_rrdcalc_flags set_rc_rrdcalc_flags
         set_rc_values rc_write].
    repeat split; try discriminate; now apply Hflags.
Qed.

End LookupProperties.

Example health_lookup_alarm_failing_lookup :
  health_lookup_alarm evaluate_to_zero match_any always_db_lookup
    lookup_failed no_silencers c2_host 1000 1010 x_lookup_alarm
  = (set_rc_rrdcalc_flags
       (Z.lor RRDCALC_FLAG_RUNNABLE RRDCALC_FLAG_DB_ERROR)
       (set_rc_values NAN (S754_finite false 3 0) x_lookup_alarm),
     true, 1010).
Proof. reflexivity. Qed.
